(** * lastgen: proof resolution, certificate hashing and verification

    A shallow embedding of [src/core/types.ts], [src/core/proof.ts] and
    [src/core/verify.ts], followed by the properties of the resolver, the
    era classifier, the hasher and the verifier.  The terminal output of
    [src/display.ts] and [src/verify-cli.ts], the HTML escaping of
    [web/src/certificate.ts], the hexadecimal digest of [web/src/hash.ts]
    and the cached lookup of [web/src/app.ts] are embedded with them, and
    their properties follow those of the core.

    Conventions of the embedding:
    - a JavaScript [string] is a Rocq [string], one [ascii] per code unit;
      case conversion is the one of ASCII letters, which is what logins,
      ISO dates and hexadecimal digests need;
    - a JavaScript [number] that holds a GitHub id is a [Z]; a number that
      holds a time value is a [jsnum], which adds the three non-finite
      values the code can produce or compare against ([NaN] from an
      unparseable date, [Infinity] as the stand-in for a missing repository
      date).  Time values are integers of magnitude at most 8.64e15: the
      comparisons of the code, between two of them or of a difference with
      one minute or thirty days, come out on [Z] as they do on doubles;
    - an optional field ([repoCreatedAt?: string]) or a nullable one
      ([string | null]) is an [option];
    - the two effects of the code, reading the wall clock ([new Date()]) and
      awaiting the GitHub data source ([fetchCommit]), are the two events of
      a small free monad [Prog];
    - the injected [HashFn], [(data: string) => Promise<string>] in its two
      implementations ([nodeHash], [webHash]), is a function from the payload
      to the digest. *)

From Stdlib Require Import ZArith List String Ascii Bool Lia DecimalString.
From Stdlib Require DecimalPos DecimalFacts DecimalZ.
Import ListNotations.

Open Scope string_scope.
Open Scope Z_scope.

Set Implicit Arguments.

(** ** JavaScript numbers used for time arithmetic *)

Inductive jsnum : Type :=
| Fin (z : Z)
| PosInf
| NegInf
| NaN.

Module Num.

(** [a < b]: false as soon as one side is [NaN]. *)
Definition lt (a b : jsnum) : bool :=
  match a, b with
  | NaN, _ | _, NaN => false
  | Fin x, Fin y => x <? y
  | Fin _, PosInf => true
  | Fin _, NegInf => false
  | NegInf, NegInf => false
  | NegInf, _ => true
  | PosInf, _ => false
  end.

(** [a > b]. *)
Definition gt (a b : jsnum) : bool := lt b a.

(** [a <= b]: false as soon as one side is [NaN]. *)
Definition le (a b : jsnum) : bool :=
  match a, b with
  | NaN, _ | _, NaN => false
  | _, _ => negb (lt b a)
  end.

(** [a - b]. *)
Definition sub (a b : jsnum) : jsnum :=
  match a, b with
  | NaN, _ | _, NaN => NaN
  | Fin x, Fin y => Fin (x - y)
  | PosInf, PosInf | NegInf, NegInf => NaN
  | PosInf, _ | _, NegInf => PosInf
  | NegInf, _ | _, PosInf => NegInf
  end.

(** [Math.abs(a)]. *)
Definition abs (a : jsnum) : jsnum :=
  match a with
  | Fin x => Fin (Z.abs x)
  | PosInf | NegInf => PosInf
  | NaN => NaN
  end.

(** [Math.round(a / d)] for a positive integer [d]: the quotient rounded to
    the nearest integer, halves upwards. *)
Definition roundDiv (a : jsnum) (d : Z) : jsnum :=
  match a with
  | Fin x => Fin ((2 * x + d) / (2 * d))
  | other => other
  end.

(** [String(z)] for an integer. *)
Definition ofZ (z : Z) : string := NilZero.string_of_int (Z.to_int z).

(** [String(a)], as a template literal renders a number. *)
Definition toString (a : jsnum) : string :=
  match a with
  | Fin x => ofZ x
  | PosInf => "Infinity"
  | NegInf => "-Infinity"
  | NaN => "NaN"
  end.

End Num.

(** ** String primitives of the JavaScript runtime *)

Module Str.

(** A string is truthy when it is not empty. *)
Definition truthy (s : string) : bool :=
  match s with
  | EmptyString => false
  | String _ _ => true
  end.

Definition between (lo hi : N) (c : ascii) : bool :=
  let n := N_of_ascii c in (N.leb lo n && N.leb n hi)%bool.

Definition lowerChar (c : ascii) : ascii :=
  if between 65 90 c then ascii_of_N (N_of_ascii c + 32) else c.

Definition upperChar (c : ascii) : ascii :=
  if between 97 122 c then ascii_of_N (N_of_ascii c - 32) else c.

Fixpoint map (f : ascii -> ascii) (s : string) : string :=
  match s with
  | EmptyString => EmptyString
  | String c s' => String (f c) (map f s')
  end.

(** [s.toLowerCase()] and [s.toUpperCase()]. *)
Definition toLowerCase (s : string) : string := map lowerChar s.
Definition toUpperCase (s : string) : string := map upperChar s.

(** [s.slice(from, to)] for indices [0 <= from <= to]. *)
Definition slice (from to : nat) (s : string) : string :=
  substring from (to - from) s.

(** The rest of [s] after the prefix [p], when [s] starts with [p]. *)
Fixpoint stripPrefix (p s : string) : option string :=
  match p, s with
  | EmptyString, _ => Some s
  | String a p', String b s' =>
      if Ascii.eqb a b then stripPrefix p' s' else None
  | String _ _, EmptyString => None
  end.

(** [s.replace(pat, rep)] with a string pattern: only the first occurrence
    is replaced ([rep] holds no [$] here). *)
Fixpoint replace (pat rep s : string) : string :=
  match stripPrefix pat s with
  | Some rest => rep ++ rest
  | None =>
      match s with
      | EmptyString => EmptyString
      | String c s' => String c (replace pat rep s')
      end
  end.

(** [s.split(sep)] for a one-character separator. *)
Fixpoint split (sep : ascii) (s : string) : list string :=
  match s with
  | EmptyString => [EmptyString]
  | String c s' =>
      if Ascii.eqb c sep then EmptyString :: split sep s'
      else match split sep s' with
           | [] => [String c EmptyString]
           | hd :: tl => String c hd :: tl
           end
  end.

(** [parts.join(sep)]. *)
Fixpoint join (sep : string) (parts : list string) : string :=
  match parts with
  | [] => EmptyString
  | [x] => x
  | x :: rest => x ++ sep ++ join sep rest
  end.

Fixpoint repeat (c : ascii) (n : nat) : string :=
  match n with
  | O => EmptyString
  | S n' => String c (repeat c n')
  end.

(** [s.padStart(width, c)] for a one-character filler. *)
Definition padStart (width : nat) (c : ascii) (s : string) : string :=
  repeat c (width - String.length s) ++ s.

(** A template literal renders [null] as the word. *)
Definition orNull (o : option string) : string :=
  match o with
  | Some s => s
  | None => "null"
  end.

(** [o ?? ''], the empty string for a missing one. *)
Definition orEmpty (o : option string) : string :=
  match o with
  | Some s => s
  | None => EmptyString
  end.

End Str.

(** ** Numeric conversions of the runtime *)

Module Conv.

(** The white space [parseInt] skips, in the Latin-1 range. *)
Definition isWhiteSpace (c : ascii) : bool :=
  let n := N_of_ascii c in
  (Str.between 9 13 c || N.eqb n 32 || N.eqb n 160)%bool.

Fixpoint trimStart (s : string) : string :=
  match s with
  | String c s' => if isWhiteSpace c then trimStart s' else s
  | EmptyString => EmptyString
  end.

Definition hexDigit (c : ascii) : option Z :=
  let n := Z.of_N (N_of_ascii c) in
  if Str.between 48 57 c then Some (n - 48)
  else if Str.between 97 102 c then Some (n - 87)
  else if Str.between 65 70 c then Some (n - 55)
  else None.

(** The value of the longest prefix of hexadecimal digits, with the number
    of digits read. *)
Fixpoint hexPrefix (s : string) (acc : Z) (read : nat) : Z * nat :=
  match s with
  | String c s' =>
      match hexDigit c with
      | Some d => hexPrefix s' (16 * acc + d) (S read)
      | None => (acc, read)
      end
  | EmptyString => (acc, read)
  end.

(** [parseInt(s, 16)]: leading white space, an optional sign and an
    optional [0x] are skipped; no digit at all gives [NaN]. *)
Definition parseInt16 (s : string) : jsnum :=
  let s1 := trimStart s in
  let '(sign, s2) :=
    match s1 with
    | String "-" r => (-1, r)
    | String "+" r => (1, r)
    | _ => (1, s1)
    end in
  let s3 :=
    match s2 with
    | String "0" (String "x" r) | String "0" (String "X" r) => r
    | _ => s2
    end in
  match hexPrefix s3 0 O with
  | (_, O) => NaN
  | (v, S _) => Fin (sign * v)
  end.

(** [a % d] for a positive integer [d]: the sign follows the dividend. *)
Definition rem (a : jsnum) (d : Z) : jsnum :=
  match a with
  | Fin x => Fin (Z.rem x d)
  | _ => NaN
  end.

(** The double quote, code unit 34. *)
Definition dquote : ascii := ascii_of_N 34.

Definition hexChar (n : N) : ascii :=
  if N.ltb n 10 then ascii_of_N (48 + n) else ascii_of_N (87 + n).

(** [JSON.stringify] of one code unit inside a string. *)
Definition quoteChar (c : ascii) : string :=
  let n := N_of_ascii c in
  if N.eqb n 8 then "\b"
  else if N.eqb n 9 then "\t"
  else if N.eqb n 10 then "\n"
  else if N.eqb n 12 then "\f"
  else if N.eqb n 13 then "\r"
  else if N.eqb n 34 then String "\" (String dquote EmptyString)
  else if N.eqb n 92 then "\\"
  else if N.ltb n 32 then
    "\u00" ++ String (hexChar (N.div n 16)) (String (hexChar (N.modulo n 16)) EmptyString)
  else String c EmptyString.

Fixpoint quoteBody (s : string) : string :=
  match s with
  | EmptyString => EmptyString
  | String c s' => quoteChar c ++ quoteBody s'
  end.

(** [JSON.stringify(s)] for a string. *)
Definition jsonString (s : string) : string :=
  String dquote (quoteBody s ++ String dquote EmptyString).

End Conv.

(** ** The [Date] built-in

    The code uses [Date] in three ways: [new Date(s).getTime()] parses a
    string to a time value in milliseconds since the epoch, or to [NaN];
    [new Date()] reads the clock (an event of [Prog], below); and
    [toISOString()] renders a time value.  Which strings an engine parses
    beyond the ISO format is left to the engine, so the development is
    parametric in the parser and fixes only what every engine guarantees:
    the empty string is not a date, and the ISO string of the cutoff is
    midnight UTC of 21 February 2025. *)

Class DateApi : Type := {
  Date_parse : string -> option Z;
  Date_toISOString : Z -> string;
  Date_parse_empty : Date_parse "" = None;
  Date_parse_cutoff : Date_parse "2025-02-21T00:00:00Z" = Some 1740096000000
}.

(** [new Date(s).getTime()]. *)
Definition getTime {D : DateApi} (s : string) : jsnum :=
  match Date_parse s with
  | Some t => Fin t
  | None => NaN
  end.

(** An executable instance: the ISO 8601 forms [YYYY-MM-DD] and
    [YYYY-MM-DDTHH:mm:ss(.sss)Z], which are the forms GitHub returns and
    [toISOString] produces. *)
Module Iso.

Definition bindOpt {A B : Type} (o : option A) (f : A -> option B) : option B :=
  match o with
  | Some a => f a
  | None => None
  end.

Local Notation "' p <- o ; k" := (bindOpt o (fun p => k))
  (at level 60, p pattern, o at next level, right associativity).

Definition digit (c : ascii) : option Z :=
  if Str.between 48 57 c then Some (Z.of_N (N_of_ascii c) - 48) else None.

(** Exactly [n] decimal digits. *)
Fixpoint digits (n : nat) (acc : Z) (cs : list ascii) : option (Z * list ascii) :=
  match n with
  | O => Some (acc, cs)
  | S n' =>
      match cs with
      | c :: rest => ' d <- digit c ; digits n' (10 * acc + d) rest
      | [] => None
      end
  end.

Definition lit (c : ascii) (cs : list ascii) : option (list ascii) :=
  match cs with
  | c' :: rest => if Ascii.eqb c c' then Some rest else None
  | [] => None
  end.

Definition isLeap (y : Z) : bool :=
  ((y mod 4 =? 0) && (negb (y mod 100 =? 0) || (y mod 400 =? 0)))%bool.

Definition daysInMonth (y m : Z) : Z :=
  if m =? 2 then (if isLeap y then 29 else 28)
  else if (m =? 4) || (m =? 6) || (m =? 9) || (m =? 11) then 30
  else 31.

(** Days from 1970-01-01 to the civil date [y]-[m]-[d]. *)
Definition daysFromCivil (y m d : Z) : Z :=
  let y' := if m <=? 2 then y - 1 else y in
  let era := y' / 400 in
  let yoe := y' - era * 400 in
  let mp := (m + 9) mod 12 in
  let doy := (153 * mp + 2) / 5 + d - 1 in
  let doe := yoe * 365 + yoe / 4 - yoe / 100 + doy in
  era * 146097 + doe - 719468.

(** The civil date of a day number. *)
Definition civilFromDays (z : Z) : Z * Z * Z :=
  let z' := z + 719468 in
  let era := z' / 146097 in
  let doe := z' - era * 146097 in
  let yoe := (doe - doe / 1460 + doe / 36524 - doe / 146096) / 365 in
  let doy := doe - (365 * yoe + yoe / 4 - yoe / 100) in
  let mp := (5 * doy + 2) / 153 in
  let d := doy - (153 * mp + 2) / 5 + 1 in
  let m := if mp <? 10 then mp + 3 else mp - 9 in
  let y := yoe + era * 400 in
  (if m <=? 2 then y + 1 else y, m, d).

Definition msPerDay : Z := 86400000.

Definition parseTime (cs : list ascii) : option Z :=
  ' cs <- lit "T" cs ;
  ' (h, cs) <- digits 2 0 cs ;
  ' cs <- lit ":" cs ;
  ' (mi, cs) <- digits 2 0 cs ;
  ' cs <- lit ":" cs ;
  ' (sec, cs) <- digits 2 0 cs ;
  ' (ms, cs) <-
      match lit "." cs with
      | Some cs' => digits 3 0 cs'
      | None => Some (0, cs)
      end ;
  ' cs <- lit "Z" cs ;
  match cs with
  | [] =>
      if (h <? 24) && (mi <? 60) && (sec <? 60)
      then Some (h * 3600000 + mi * 60000 + sec * 1000 + ms)
      else None
  | _ :: _ => None
  end.

Definition parse (s : string) : option Z :=
  ' (y, cs) <- digits 4 0 (list_ascii_of_string s) ;
  ' cs <- lit "-" cs ;
  ' (m, cs) <- digits 2 0 cs ;
  ' cs <- lit "-" cs ;
  ' (d, cs) <- digits 2 0 cs ;
  if (1 <=? m) && (m <=? 12) && (1 <=? d) && (d <=? daysInMonth y m) then
    let day := daysFromCivil y m d * msPerDay in
    match cs with
    | [] => Some day
    | _ :: _ => ' t <- parseTime cs ; Some (day + t)
    end
  else None.

Definition digitChar (d : Z) : ascii := ascii_of_N (48 + Z.to_N d).

(** The last [width] decimal digits of [z], zero-padded on the left. *)
Fixpoint pad (width : nat) (z : Z) : string :=
  match width with
  | O => EmptyString
  | S width' => pad width' (z / 10) ++ String (digitChar (z mod 10)) EmptyString
  end.

Definition year (y : Z) : string :=
  if (0 <=? y) && (y <=? 9999) then pad 4 y
  else (if y <? 0 then "-" else "+") ++ pad 6 (Z.abs y).

(** The time values of the years 0000 to 9999, which [toISOString] writes
    with a four-digit year. *)
Definition fourDigitYear (t : Z) : Prop :=
  -62167219200000 <= t < 253402300800000.

Definition toISOString (t : Z) : string :=
  let '(y, m, d) := civilFromDays (t / msPerDay) in
  let ms := t mod msPerDay in
  year y ++ "-" ++ pad 2 m ++ "-" ++ pad 2 d ++ "T"
    ++ pad 2 (ms / 3600000) ++ ":" ++ pad 2 (ms / 60000 mod 60) ++ ":"
    ++ pad 2 (ms / 1000 mod 60) ++ "." ++ pad 3 (ms mod 1000) ++ "Z".

End Iso.

#[export] Instance isoDate : DateApi := {|
  Date_parse := Iso.parse;
  Date_toISOString := Iso.toISOString;
  Date_parse_empty := eq_refl;
  Date_parse_cutoff := eq_refl
|}.

(** ** types.ts: constants and records *)

Definition CUTOFF_DATE : string := "2025-02-21T00:00:00Z".

Inductive EraKey : Type :=
| LAST_GEN
| AI_NATIVE.

Definition EraKey_eqb (a b : EraKey) : bool :=
  match a, b with
  | LAST_GEN, LAST_GEN | AI_NATIVE, AI_NATIVE => true
  | _, _ => false
  end.

(** The key as a string, as a template literal or [JSON.stringify] sees it. *)
Definition EraKey_toString (e : EraKey) : string :=
  match e with
  | LAST_GEN => "LAST_GEN"
  | AI_NATIVE => "AI_NATIVE"
  end.

Definition CERTIFICATE_VERSION : string := "1.0".
Definition CERTIFICATE_SALT : string := "lastgen_v1".
Definition THIRTY_DAYS_MS : Z := 30 * 24 * 60 * 60 * 1000.

Module GitHubUser.
Record t : Type := {
  login : string;
  id : Z;
  name : option string;
  createdAt : string
}.
End GitHubUser.

Module FirstCommit.
Record t : Type := {
  date : string;
  repo : string;
  sha : string;
  message : string;
  repoCreatedAt : option string;
  committerDate : option string
}.
End FirstCommit.

Module CertificateIdentity.
Record t : Type := {
  username : string;
  githubId : Z;
  name : option string
}.
End CertificateIdentity.

Module CertificateProof.
Record t : Type := {
  accountCreated : string;
  firstCommit : FirstCommit.t;
  proofDate : string
}.
End CertificateProof.

Module CertificateVerification.
Record t : Type := {
  hash : string;
  salt : string
}.
End CertificateVerification.

Module Certificate.
Record t : Type := {
  version : string;
  type : string;
  identity : CertificateIdentity.t;
  proof : CertificateProof.t;
  era : EraKey;
  verification : CertificateVerification.t;
  certificateNumber : string;
  issuedAt : string
}.
End Certificate.

Module CommitDetail.
Record t : Type := {
  sha : string;
  authorLogin : option string;
  committerLogin : option string;
  authorEmail : option string;
  authorDate : option string;
  committerDate : option string;
  authorId : option Z;
  verificationReason : option string;
  isRootCommit : bool;
  message : string;
  verified : bool
}.
End CommitDetail.

Module VerifyResult.
Record t : Type := {
  check : string;
  passed : bool;
  detail : string
}.
End VerifyResult.

(** [HashFn]: the injected digest, payload to hexadecimal string. *)
Definition HashFn : Type := string -> string.

(** ** Effects: the clock and the data source *)

(** What a rejected promise carries: an [Error] with its message, or any
    other value, of which the code only takes [String(value)]. *)
Inductive Thrown : Type :=
| ErrorObject (message : string)
| OtherValue (asString : string).

Inductive Outcome (A : Type) : Type :=
| Resolved (a : A)
| Rejected (e : Thrown).

Arguments Resolved {A} a.
Arguments Rejected {A} e.

(** A computation that may read the clock and await [fetchCommit]. *)
Inductive Prog (A : Type) : Type :=
| Ret (a : A)
| ReadClock (k : Z -> Prog A)
| AwaitFetchCommit (repoFullName sha : string) (token : option string)
    (k : Outcome CommitDetail.t -> Prog A).

Arguments Ret {A} a.
Arguments ReadClock {A} k.
Arguments AwaitFetchCommit {A} repoFullName sha token k.

Fixpoint bind {A B : Type} (p : Prog A) (f : A -> Prog B) : Prog B :=
  match p with
  | Ret a => f a
  | ReadClock k => ReadClock (fun t => bind (k t) f)
  | AwaitFetchCommit r s tok k => AwaitFetchCommit r s tok (fun o => bind (k o) f)
  end.

Notation "x <- p ;; k" := (bind p (fun x => k))
  (at level 61, p at next level, right associativity).

(** The world a program runs in: what the clock shows at its n-th reading,
    and what the data source answers. *)
Record World : Type := {
  clock : nat -> Z;
  fetchCommit : string -> string -> option string -> Outcome CommitDetail.t
}.

Inductive Event : Type :=
| ClockRead (t : Z)
| CommitFetch (repoFullName sha : string) (token : option string).

(** Runs a program after [reads] earlier readings of the clock; gives the
    result and the events in the order they happened. *)
Fixpoint run {A : Type} (w : World) (reads : nat) (p : Prog A) : A * list Event :=
  match p with
  | Ret a => (a, [])
  | ReadClock k =>
      let t := clock w reads in
      let '(a, events) := run w (S reads) (k t) in
      (a, ClockRead t :: events)
  | AwaitFetchCommit r s tok k =>
      let '(a, events) := run w reads (k (fetchCommit w r s tok)) in
      (a, CommitFetch r s tok :: events)
  end.

(** [xs.push(x)]. *)
Definition push {A : Type} (xs : list A) (x : A) : list A := (xs ++ [x])%list.

Definition isCommitFetch (e : Event) : bool :=
  match e with
  | CommitFetch _ _ _ => true
  | ClockRead _ => false
  end.

(** ** proof.ts *)

Section Proof.

Context {D : DateApi}.

Definition classifyEra (proofDate : string) : EraKey :=
  let cutoff := getTime CUTOFF_DATE in
  let date := getTime proofDate in
  if Num.lt date cutoff then LAST_GEN else AI_NATIVE.

Definition getEffectiveCommitDate (commit : FirstCommit.t) : string :=
  match FirstCommit.committerDate commit with
  | Some committerDate =>
      if negb (Str.truthy committerDate) then FirstCommit.date commit
      else
        let authorTime := getTime (FirstCommit.date commit) in
        let committerTime := getTime committerDate in
        if Num.gt (Num.sub committerTime authorTime) (Fin THIRTY_DAYS_MS)
        then committerDate
        else FirstCommit.date commit
  | None => FirstCommit.date commit
  end.

Definition resolveProofDate (user : GitHubUser.t) (firstCommit : option FirstCommit.t)
  : Prog string :=
  match firstCommit with
  | None => ReadClock (fun now => Ret (Date_toISOString now))
  | Some firstCommit =>
      let effectiveDate := getEffectiveCommitDate firstCommit in
      let commitTime := getTime effectiveDate in
      let accountTime := getTime (GitHubUser.createdAt user) in
      let repoTime :=
        match FirstCommit.repoCreatedAt firstCommit with
        | Some repoCreatedAt =>
            if Str.truthy repoCreatedAt then getTime repoCreatedAt else PosInf
        | None => PosInf
        end in
      if Num.lt commitTime repoTime then
        Ret (match FirstCommit.repoCreatedAt firstCommit with
             | Some repoCreatedAt => repoCreatedAt
             | None => GitHubUser.createdAt user
             end)
      else
        Ret (if Num.lt commitTime accountTime
             then effectiveDate
             else GitHubUser.createdAt user)
  end.

Definition generateCertificateHash (hashFn : HashFn) (username : string)
  (githubId : Z) (proofDate : string) (era : EraKey) : string :=
  let payload :=
    "{" ++ Conv.jsonString "username" ++ ":" ++ Conv.jsonString username
    ++ "," ++ Conv.jsonString "githubId" ++ ":" ++ Num.ofZ githubId
    ++ "," ++ Conv.jsonString "proofDate" ++ ":" ++ Conv.jsonString proofDate
    ++ "," ++ Conv.jsonString "era" ++ ":" ++ Conv.jsonString (EraKey_toString era)
    ++ "," ++ Conv.jsonString "salt" ++ ":" ++ Conv.jsonString CERTIFICATE_SALT
    ++ "}" in
  hashFn payload.

Definition generateCertificateNumber (hash : string) : string :=
  let prefix := Str.toUpperCase (Str.slice 0 4 hash) in
  let numericPart := Conv.rem (Conv.parseInt16 (Str.slice 4 12 hash)) 1000000 in
  let padded := Str.padStart 6 "0" (Num.toString numericPart) in
  "LGC-" ++ prefix ++ "-" ++ padded.

Definition createCertificate (hashFn : HashFn) (user : GitHubUser.t)
  (firstCommit : option FirstCommit.t) : Prog Certificate.t :=
  proofDate <- resolveProofDate user firstCommit ;;
  let era := classifyEra proofDate in
  let hash :=
    generateCertificateHash hashFn (GitHubUser.login user) (GitHubUser.id user)
      proofDate era in
  let certificateNumber := generateCertificateNumber hash in
  ReadClock (fun issued =>
  Ret {|
    Certificate.version := CERTIFICATE_VERSION;
    Certificate.type := "LASTGEN_CERTIFICATE";
    Certificate.identity := {|
      CertificateIdentity.username := GitHubUser.login user;
      CertificateIdentity.githubId := GitHubUser.id user;
      CertificateIdentity.name := GitHubUser.name user
    |};
    Certificate.proof := {|
      CertificateProof.accountCreated := GitHubUser.createdAt user;
      CertificateProof.firstCommit :=
        match firstCommit with
        | Some c => c
        | None => {|
            FirstCommit.date := GitHubUser.createdAt user;
            FirstCommit.repo := "";
            FirstCommit.sha := "";
            FirstCommit.message :=
              "(no public commits found - using account creation date)";
            FirstCommit.repoCreatedAt := None;
            FirstCommit.committerDate := None
          |}
        end;
      CertificateProof.proofDate := proofDate
    |};
    Certificate.era := era;
    Certificate.verification := {|
      CertificateVerification.hash := "sha256:" ++ hash;
      CertificateVerification.salt := CERTIFICATE_SALT
    |};
    Certificate.certificateNumber := certificateNumber;
    Certificate.issuedAt := Date_toISOString issued
  |}).

End Proof.

(** ** verify.ts *)

(** A parsed JSON document, before anything is known about its shape. *)
#[warning="-register-all"] Inductive JSValue : Type :=
| JSUndefined
| JSNull
| JSBoolean (b : bool)
| JSNumber (n : Z)
| JSString (s : string)
| JSArray (items : list JSValue)
| JSObject (fields : list (string * JSValue)).

Module Dyn.

(** [typeof v]. *)
Definition typeof (v : JSValue) : string :=
  match v with
  | JSUndefined => "undefined"
  | JSBoolean _ => "boolean"
  | JSNumber _ => "number"
  | JSString _ => "string"
  | JSNull | JSArray _ | JSObject _ => "object"
  end.

(** The own property [key] of an object whose properties are listed with
    each key once, as [JSON.parse] leaves them. *)
Fixpoint lookup (fields : list (string * JSValue)) (key : string) : JSValue :=
  match fields with
  | [] => JSUndefined
  | (k, v) :: rest => if String.eqb k key then v else lookup rest key
  end.

(** [v[key]] on a value that is not [null] or [undefined], for the keys of
    a certificate (none is an index, [length] or a method). *)
Definition get (v : JSValue) (key : string) : JSValue :=
  match v with
  | JSObject fields => lookup fields key
  | _ => JSUndefined
  end.

(** [v.key] as the engine evaluates it: a [TypeError] on [null] and
    [undefined]. *)
Definition member (v : JSValue) (key : string) : Outcome JSValue :=
  match v with
  | JSNull =>
      Rejected (ErrorObject
        ("Cannot read properties of null (reading '" ++ key ++ "')"))
  | JSUndefined =>
      Rejected (ErrorObject
        ("Cannot read properties of undefined (reading '" ++ key ++ "')"))
  | _ => Resolved (get v key)
  end.

(** [v === 'literal']. *)
Definition isString (v : JSValue) (literal : string) : bool :=
  match v with
  | JSString s => String.eqb s literal
  | _ => false
  end.

Definition isNull (v : JSValue) : bool :=
  match v with
  | JSNull => true
  | _ => false
  end.

End Dyn.

Definition isValidCertificate (data : JSValue) : bool :=
  if (negb (String.eqb (Dyn.typeof data) "object") || Dyn.isNull data)%bool
  then false
  else
    let cert := data in
    (Dyn.isString (Dyn.get cert "type") "LASTGEN_CERTIFICATE"
     && String.eqb (Dyn.typeof (Dyn.get cert "version")) "string"
     && String.eqb (Dyn.typeof (Dyn.get cert "identity")) "object"
     && String.eqb (Dyn.typeof (Dyn.get cert "proof")) "object"
     && String.eqb (Dyn.typeof (Dyn.get cert "verification")) "object"
     && String.eqb (Dyn.typeof (Dyn.get cert "certificateNumber")) "string")%bool.

Module Untyped.

Definition andThen {A B : Type} (o : Outcome A) (f : A -> Outcome B) : Outcome B :=
  match o with
  | Resolved a => f a
  | Rejected e => Rejected e
  end.

Local Notation "x <- o ; k" := (andThen o (fun x => k))
  (at level 61, o at next level, right associativity).

(** [hash.replace('sha256:', '')] on a value that may not be a string. *)
Definition callReplace (hash : JSValue) : Outcome string :=
  match hash with
  | JSString s => Resolved (Str.replace "sha256:" "" s)
  | JSUndefined =>
      Rejected (ErrorObject "Cannot read properties of undefined (reading 'replace')")
  | JSNull =>
      Rejected (ErrorObject "Cannot read properties of null (reading 'replace')")
  | _ => Rejected (ErrorObject "cert.verification.hash.replace is not a function")
  end.

(** The opening statements of [verifyCertificateData] as the engine runs
    them on a value of which no more is known than that it was parsed from
    JSON: the four arguments of [generateCertificateHash] are read from left
    to right, then [cert.verification.hash.replace] is called.  The result
    is what the hash comparison works on, or the [TypeError] that leaves the
    function. *)
Definition readHashOperands (cert : JSValue)
  : Outcome (JSValue * JSValue * JSValue * JSValue * string) :=
  identity <- Dyn.member cert "identity" ;
  username <- Dyn.member identity "username" ;
  identity <- Dyn.member cert "identity" ;
  githubId <- Dyn.member identity "githubId" ;
  proof <- Dyn.member cert "proof" ;
  proofDate <- Dyn.member proof "proofDate" ;
  era <- Dyn.member cert "era" ;
  verification <- Dyn.member cert "verification" ;
  hash <- Dyn.member verification "hash" ;
  actualHash <- callReplace hash ;
  Resolved (username, githubId, proofDate, era, actualHash).

End Untyped.

(** The characters [escapeRegex] puts a backslash before. *)
Definition isRegexSpecial (c : ascii) : bool :=
  existsb (Ascii.eqb c)
    (list_ascii_of_string ".*+?^${}()|[]\").

Fixpoint escapeRegex (str : string) : string :=
  match str with
  | EmptyString => EmptyString
  | String c rest =>
      if isRegexSpecial c then String "\" (String c (escapeRegex rest))
      else String c (escapeRegex rest)
  end.

Module Regex.

(** Matches a pattern made of plain characters and backslash-escaped
    characters (what [escapeRegex] and the fixed suffix produce) against the
    whole of [s], as the pattern anchored by [$] does. *)
Fixpoint literalToEnd (pattern s : string) : bool :=
  match pattern with
  | EmptyString =>
      match s with
      | EmptyString => true
      | String _ _ => false
      end
  | String "\" (String c pattern') =>
      match s with
      | String c' s' => (Ascii.eqb c c' && literalToEnd pattern' s')%bool
      | EmptyString => false
      end
  | String c pattern' =>
      match s with
      | String c' s' => (Ascii.eqb c c' && literalToEnd pattern' s')%bool
      | EmptyString => false
      end
  end.

Definition isDigit (c : ascii) : bool := Str.between 48 57 c.

Fixpoint skipDigits (s : string) : string :=
  match s with
  | String c s' => if isDigit c then skipDigits s' else s
  | EmptyString => EmptyString
  end.

(** What is left of [s] after the group [\d+\+], when [s] starts with it.
    The run of digits has to be the longest one: a shorter run is followed
    by a digit, not by the plus sign. *)
Definition digitsPlus (s : string) : option string :=
  match s with
  | String c _ =>
      if isDigit c then
        match skipDigits s with
        | String "+" rest => Some rest
        | _ => None
        end
      else None
  | EmptyString => None
  end.

(** [new RegExp('^(\\d+\\+)?' + body + '$').test(s)] for a [body] of plain
    and escaped characters. *)
Definition testOptionalId (body s : string) : bool :=
  (match digitsPlus s with
   | Some rest => literalToEnd body rest
   | None => false
   end || literalToEnd body s)%bool.

End Regex.

Definition matchesNoreplyEmail (email username : string) : bool :=
  let lower := Str.toLowerCase email in
  let user := Str.toLowerCase username in
  Regex.testOptionalId (escapeRegex user ++ "@users\.noreply\.github\.com") lower.

Module VerifyCertificateResult.
Record t : Type := {
  valid : bool;
  results : list VerifyResult.t;
  certificateNumber : string;
  username : string
}.
End VerifyCertificateResult.

Section Verify.

Context {D : DateApi}.

Definition verifyCertificateData (cert : Certificate.t) (hashFn : HashFn)
  (token : option string) : Prog VerifyCertificateResult.t :=
  let identity := Certificate.identity cert in
  let proof := Certificate.proof cert in
  let firstCommit := CertificateProof.firstCommit proof in
  let results : list VerifyResult.t := [] in

  let expectedHash :=
    generateCertificateHash hashFn
      (CertificateIdentity.username identity)
      (CertificateIdentity.githubId identity)
      (CertificateProof.proofDate proof)
      (Certificate.era cert) in

  let actualHash :=
    Str.replace "sha256:" "" (CertificateVerification.hash (Certificate.verification cert)) in
  let results := push results {|
    VerifyResult.check := "Hash integrity";
    VerifyResult.passed := String.eqb expectedHash actualHash;
    VerifyResult.detail :=
      if String.eqb expectedHash actualHash
      then "Certificate hash is valid"
      else "Certificate hash does not match - data may have been tampered with"
  |} in

  let proofDate := getTime (CertificateProof.proofDate proof) in
  let cutoff := getTime CUTOFF_DATE in
  let isBeforeCutoff := Num.lt proofDate cutoff in
  let expectedEra := if isBeforeCutoff then LAST_GEN else AI_NATIVE in
  let results := push results {|
    VerifyResult.check := "Era classification";
    VerifyResult.passed := EraKey_eqb (Certificate.era cert) expectedEra;
    VerifyResult.detail :=
      if EraKey_eqb (Certificate.era cert) expectedEra
      then "Era " ++ EraKey_toString (Certificate.era cert)
           ++ " is correct for proof date " ++ CertificateProof.proofDate proof
      else "Era should be " ++ EraKey_toString expectedEra
           ++ " but certificate claims " ++ EraKey_toString (Certificate.era cert)
  |} in

  let reconstructedUser := {|
    GitHubUser.login := CertificateIdentity.username identity;
    GitHubUser.id := CertificateIdentity.githubId identity;
    GitHubUser.name := CertificateIdentity.name identity;
    GitHubUser.createdAt := CertificateProof.accountCreated proof
  |} in
  expectedProofDate <-
    resolveProofDate reconstructedUser
      (if Str.truthy (FirstCommit.sha firstCommit) then Some firstCommit else None) ;;
  let proofDateMatch :=
    Num.lt (Num.abs (Num.sub (getTime expectedProofDate) proofDate)) (Fin 60000) in
  let results := push results {|
    VerifyResult.check := "Proof date";
    VerifyResult.passed := proofDateMatch;
    VerifyResult.detail :=
      if proofDateMatch
      then "Proof date " ++ CertificateProof.proofDate proof
           ++ " is consistent with commit and account data"
      else "Proof date should be " ++ expectedProofDate
           ++ " but certificate claims " ++ CertificateProof.proofDate proof
  |} in

  results <-
    (if Str.truthy (FirstCommit.sha firstCommit) then
       AwaitFetchCommit (FirstCommit.repo firstCommit) (FirstCommit.sha firstCommit) token
         (fun outcome =>
          match outcome with
          | Resolved commitDetail =>
              let username := Str.toLowerCase (CertificateIdentity.username identity) in
              let authorMatch :=
                String.eqb
                  (Str.toLowerCase (Str.orEmpty (CommitDetail.authorLogin commitDetail)))
                  username in
              let committerMatch :=
                String.eqb
                  (Str.toLowerCase (Str.orEmpty (CommitDetail.committerLogin commitDetail)))
                  username in
              let emailMatch :=
                match CommitDetail.authorEmail commitDetail with
                | Some authorEmail =>
                    if Str.truthy authorEmail
                    then matchesNoreplyEmail authorEmail (CertificateIdentity.username identity)
                    else false
                | None => false
                end in

              let identityMatch := (authorMatch || committerMatch || emailMatch)%bool in
              let matchMethods : list string := [] in
              let matchMethods :=
                if authorMatch then push matchMethods "author login" else matchMethods in
              let matchMethods :=
                if committerMatch then push matchMethods "committer login" else matchMethods in
              let matchMethods :=
                if emailMatch then push matchMethods "noreply email" else matchMethods in

              let results := push results {|
                VerifyResult.check := "Identity";
                VerifyResult.passed := identityMatch;
                VerifyResult.detail :=
                  if identityMatch
                  then "Matched via: " ++ Str.join ", " matchMethods
                  else "Commit author (" ++ Str.orNull (CommitDetail.authorLogin commitDetail)
                       ++ ") does not match " ++ CertificateIdentity.username identity
              |} in

              let repoOwner :=
                match Str.split "/" (FirstCommit.repo firstCommit) with
                | owner :: _ => owner
                | [] => ""
                end in
              let isSelfOwned :=
                String.eqb (Str.toLowerCase repoOwner)
                  (Str.toLowerCase (CertificateIdentity.username identity)) in
              let results := push results {|
                VerifyResult.check := "Repo ownership";
                VerifyResult.passed := true;
                VerifyResult.detail :=
                  if isSelfOwned
                  then "Commit is in a repo owned by " ++ CertificateIdentity.username identity
                  else "Commit is in a third-party repo (" ++ FirstCommit.repo firstCommit ++ ")"
              |} in

              let results :=
                match CommitDetail.authorId commitDetail with
                | Some authorId =>
                    let idMatch := authorId =? CertificateIdentity.githubId identity in
                    push results {|
                      VerifyResult.check := "GitHub ID";
                      VerifyResult.passed := idMatch;
                      VerifyResult.detail :=
                        if idMatch
                        then "GitHub ID " ++ Num.ofZ authorId ++ " matches certificate"
                        else "Commit author ID " ++ Num.ofZ authorId
                             ++ " does not match certificate ID "
                             ++ Num.ofZ (CertificateIdentity.githubId identity)
                    |}
                | None => results
                end in

              let commitDate := getTime (Str.orEmpty (CommitDetail.authorDate commitDetail)) in
              let certDate := getTime (FirstCommit.date firstCommit) in
              let datesClose :=
                Num.lt (Num.abs (Num.sub commitDate certDate)) (Fin 60000) in
              let results := push results {|
                VerifyResult.check := "Commit date";
                VerifyResult.passed := datesClose;
                VerifyResult.detail :=
                  if datesClose
                  then "Commit date matches certificate ("
                       ++ Str.orNull (CommitDetail.authorDate commitDetail) ++ ")"
                  else "Commit date " ++ Str.orNull (CommitDetail.authorDate commitDetail)
                       ++ " differs from certificate " ++ FirstCommit.date firstCommit
              |} in

              let results :=
                match CommitDetail.authorDate commitDetail,
                      CommitDetail.committerDate commitDetail with
                | Some authorDate, Some committerDate =>
                    if (Str.truthy authorDate && Str.truthy committerDate)%bool
                    then
                      let authorTime := getTime authorDate in
                      let committerTime := getTime committerDate in
                      let driftMs := Num.abs (Num.sub committerTime authorTime) in
                      let driftDays := Num.roundDiv driftMs (24 * 60 * 60 * 1000) in
                      let consistent := Num.le driftMs (Fin THIRTY_DAYS_MS) in
                      push results {|
                        VerifyResult.check := "Date consistency";
                        VerifyResult.passed := consistent;
                        VerifyResult.detail :=
                          if consistent
                          then "Author/committer date drift: " ++ Num.toString driftDays
                               ++ "d (within 30d threshold)"
                          else "Author/committer date drift: " ++ Num.toString driftDays
                               ++ "d exceeds 30d - author date may be forged"
                      |}
                    else results
                | _, _ => results
                end in

              let results :=
                if CommitDetail.isRootCommit commitDetail
                then push results {|
                  VerifyResult.check := "Root commit";
                  VerifyResult.passed := true;
                  VerifyResult.detail :=
                    "Commit has no parents (first commit in repo - higher trust)"
                |}
                else results in

              let results :=
                if CommitDetail.verified commitDetail
                then
                  let reason := CommitDetail.verificationReason commitDetail in
                  let reasonDetail :=
                    match reason with
                    | Some r =>
                        if (Str.truthy r && negb (String.eqb r "valid"))%bool
                        then " (" ++ r ++ ")"
                        else ""
                    | None => ""
                    end in
                  push results {|
                    VerifyResult.check := "GPG signature";
                    VerifyResult.passed := true;
                    VerifyResult.detail := "Commit is GPG-signed" ++ reasonDetail
                  |}
                else results in
              Ret results
          | Rejected fetchError =>
              let message :=
                match fetchError with
                | ErrorObject message => message
                | OtherValue asString => asString
                end in
              Ret (push results {|
                VerifyResult.check := "Commit verification";
                VerifyResult.passed := false;
                VerifyResult.detail := "Could not fetch commit from GitHub: " ++ message
              |})
          end)
     else Ret results) ;;

  let allPassed := forallb VerifyResult.passed results in
  Ret {|
    VerifyCertificateResult.valid := allPassed;
    VerifyCertificateResult.results := results;
    VerifyCertificateResult.certificateNumber := Certificate.certificateNumber cert;
    VerifyCertificateResult.username := CertificateIdentity.username identity
  |}.

End Verify.

(** ** Vocabulary of the properties *)

Section Vocabulary.

Context {D : DateApi}.

(** The drift rule of the resolver: the commit carries a committer date
    [cd] that lies more than thirty days after the author date. *)
Definition CommitterDriftExceeds (commit : FirstCommit.t) (cd : string) : Prop :=
  FirstCommit.committerDate commit = Some cd
  /\ exists authorTime committerTime,
       Date_parse (FirstCommit.date commit) = Some authorTime
       /\ Date_parse cd = Some committerTime
       /\ THIRTY_DAYS_MS < committerTime - authorTime.

(** [result] is the earlier of the effective commit date and the account
    creation date: one of the two strings, and its time is the minimum. *)
Definition EarlierOfCommitAndAccount (user : GitHubUser.t) (fc : FirstCommit.t)
  (result : string) : Prop :=
  exists commitTime accountTime,
    Date_parse (getEffectiveCommitDate fc) = Some commitTime
    /\ Date_parse (GitHubUser.createdAt user) = Some accountTime
    /\ getTime result = Fin (Z.min commitTime accountTime)
    /\ (result = getEffectiveCommitDate fc \/ result = GitHubUser.createdAt user).

(** The cutoff as a time value: 2025-02-21T00:00:00Z in milliseconds. *)
Definition CUTOFF_TIME : Z := 1740096000000.

(** The digest the verifier recomputes from a certificate's own fields. *)
Definition recomputedHash (hashFn : HashFn) (cert : Certificate.t) : string :=
  generateCertificateHash hashFn
    (CertificateIdentity.username (Certificate.identity cert))
    (CertificateIdentity.githubId (Certificate.identity cert))
    (CertificateProof.proofDate (Certificate.proof cert))
    (Certificate.era cert).

(** The fields the hash covers agree on two certificates. *)
Definition SameHashedFields (c1 c2 : Certificate.t) : Prop :=
  CertificateIdentity.username (Certificate.identity c1)
    = CertificateIdentity.username (Certificate.identity c2)
  /\ CertificateIdentity.githubId (Certificate.identity c1)
     = CertificateIdentity.githubId (Certificate.identity c2)
  /\ CertificateProof.proofDate (Certificate.proof c1)
     = CertificateProof.proofDate (Certificate.proof c2)
  /\ Certificate.era c1 = Certificate.era c2.

(** The checks a verification reports, by name. *)
Definition checkNames (r : VerifyCertificateResult.t) : list string :=
  List.map VerifyResult.check (VerifyCertificateResult.results r).

(** The check of a given name in a verification report, if it is there. *)
Definition findCheck (name : string) (r : VerifyCertificateResult.t)
  : option VerifyResult.t :=
  List.find (fun c => String.eqb (VerifyResult.check c) name)
    (VerifyCertificateResult.results r).

(** The message the verifier takes from a failed fetch. *)
Definition thrownMessage (e : Thrown) : string :=
  match e with
  | ErrorObject message => message
  | OtherValue asString => asString
  end.

(** The single check that reports a failed fetch. *)
Definition commitVerificationFailure (e : Thrown) : VerifyResult.t := {|
  VerifyResult.check := "Commit verification";
  VerifyResult.passed := false;
  VerifyResult.detail := "Could not fetch commit from GitHub: " ++ thrownMessage e
|}.

(** The names of the checks that follow a successful fetch. *)
Definition commitCheckNames : list string :=
  ["Identity"; "Repo ownership"; "GitHub ID"; "Commit date";
   "Date consistency"; "Root commit"; "GPG signature"].

(** The user the verifier rebuilds from a certificate. *)
Definition reconstructedUser (cert : Certificate.t) : GitHubUser.t := {|
  GitHubUser.login := CertificateIdentity.username (Certificate.identity cert);
  GitHubUser.id := CertificateIdentity.githubId (Certificate.identity cert);
  GitHubUser.name := CertificateIdentity.name (Certificate.identity cert);
  GitHubUser.createdAt := CertificateProof.accountCreated (Certificate.proof cert)
|}.

(** Whether the stored hash, without its prefix, is the recomputed one. *)
Definition hashMatches (hashFn : HashFn) (cert : Certificate.t) : bool :=
  String.eqb (recomputedHash hashFn cert)
    (Str.replace "sha256:" ""
       (CertificateVerification.hash (Certificate.verification cert))).

(** Whether two dates, as strings, parse to times less than a minute apart. *)
Definition withinMinute (a b : string) : bool :=
  Num.lt (Num.abs (Num.sub (getTime a) (getTime b))) (Fin 60000).

End Vocabulary.

(** ** Sample inputs *)

Module Sample.

Definition alice : GitHubUser.t := {|
  GitHubUser.login := "alice";
  GitHubUser.id := 12345;
  GitHubUser.name := Some "Alice";
  GitHubUser.createdAt := "2020-01-01T00:00:00Z"
|}.

(** An early commit in a repository of which the creation date is known. *)
Definition early : FirstCommit.t := {|
  FirstCommit.date := "2019-06-01T00:00:00Z";
  FirstCommit.repo := "alice/notes";
  FirstCommit.sha := "9fceb02d0ae598e95dc970b74767f19372d61af8";
  FirstCommit.message := "first commit";
  FirstCommit.repoCreatedAt := Some "2019-01-01T00:00:00Z";
  FirstCommit.committerDate := None
|}.

(** A commit authored before its repository was created. *)
Definition imported : FirstCommit.t := {|
  FirstCommit.date := "2018-03-01T00:00:00Z";
  FirstCommit.repo := "alice/notes";
  FirstCommit.sha := "9fceb02d0ae598e95dc970b74767f19372d61af8";
  FirstCommit.message := "first commit";
  FirstCommit.repoCreatedAt := Some "2019-01-01T00:00:00Z";
  FirstCommit.committerDate := None
|}.

(** The early commit when the repository lookup gave nothing. *)
Definition earlyNoRepo : FirstCommit.t := {|
  FirstCommit.date := "2019-06-01T00:00:00Z";
  FirstCommit.repo := "alice/notes";
  FirstCommit.sha := "9fceb02d0ae598e95dc970b74767f19372d61af8";
  FirstCommit.message := "first commit";
  FirstCommit.repoCreatedAt := None;
  FirstCommit.committerDate := None
|}.

(** An author date set nine years before the commit was made. *)
Definition forged : FirstCommit.t := {|
  FirstCommit.date := "2015-01-01T00:00:00Z";
  FirstCommit.repo := "alice/notes";
  FirstCommit.sha := "9fceb02d0ae598e95dc970b74767f19372d61af8";
  FirstCommit.message := "first commit";
  FirstCommit.repoCreatedAt := Some "2019-01-01T00:00:00Z";
  FirstCommit.committerDate := Some "2024-06-01T00:00:00Z"
|}.

(** A hash function for running the examples: the digest is the payload. *)
Definition echo : HashFn := fun payload => payload.

(** The clock shows 2025-03-01T00:00:00Z at first and advances by one
    second per reading; the data source is down. *)
Definition offline : World := {|
  clock := fun n => 1740787200000 + 1000 * Z.of_nat n;
  fetchCommit := fun _ _ _ => Rejected (ErrorObject "GitHub API error: 503 Service Unavailable")
|}.

(** The data source answers with the commit as GitHub has it: authored by
    [alice] thirty seconds after the date in the certificate, committed the
    same day, a signed root commit. *)
Definition online : World := {|
  clock := fun n => 1740787200000 + 1000 * Z.of_nat n;
  fetchCommit := fun _ sha _ => Resolved {|
    CommitDetail.sha := sha;
    CommitDetail.authorLogin := Some "Alice";
    CommitDetail.committerLogin := Some "web-flow";
    CommitDetail.authorEmail := Some "12345+alice@users.noreply.github.com";
    CommitDetail.authorDate := Some "2019-06-01T00:00:30Z";
    CommitDetail.committerDate := Some "2019-06-01T09:30:00Z";
    CommitDetail.authorId := Some 12345;
    CommitDetail.verificationReason := Some "valid";
    CommitDetail.isRootCommit := true;
    CommitDetail.message := "first commit";
    CommitDetail.verified := true
  |}
|}.

(** The certificate issued to [alice] when no commit was found, at the
    first reading of that clock. *)
Definition noCommit : Certificate.t :=
  fst (run offline 0 (createCertificate (D := isoDate) echo alice None)).

(** The certificate issued to [alice] for her early commit. *)
Definition withCommit : Certificate.t :=
  fst (run offline 0 (createCertificate (D := isoDate) echo alice (Some early))).

(** The same identity and proof date, everything else different: display
    name, repository, commit, message, stored salt, number, issue time. *)
Definition withCommitRetold : Certificate.t := {|
  Certificate.version := "2.0";
  Certificate.type := "LASTGEN_CERTIFICATE";
  Certificate.identity := {|
    CertificateIdentity.username := "alice";
    CertificateIdentity.githubId := 12345;
    CertificateIdentity.name := None
  |};
  Certificate.proof := {|
    CertificateProof.accountCreated := "2021-05-05T00:00:00Z";
    CertificateProof.firstCommit := {|
      FirstCommit.date := "2019-06-01T00:00:00Z";
      FirstCommit.repo := "bob/fork";
      FirstCommit.sha := "0000000000000000000000000000000000000000";
      FirstCommit.message := "another message";
      FirstCommit.repoCreatedAt := None;
      FirstCommit.committerDate := None
    |};
    CertificateProof.proofDate := "2019-06-01T00:00:00Z"
  |};
  Certificate.era := LAST_GEN;
  Certificate.verification := {|
    CertificateVerification.hash := "sha256:";
    CertificateVerification.salt := "another salt"
  |};
  Certificate.certificateNumber := "LGC-0000-000000";
  Certificate.issuedAt := "2026-01-01T00:00:00.000Z"
|}.

(** [withCommit] with its era flipped and nothing else touched. *)
Definition withCommitEraFlipped : Certificate.t := {|
  Certificate.version := Certificate.version withCommit;
  Certificate.type := Certificate.type withCommit;
  Certificate.identity := Certificate.identity withCommit;
  Certificate.proof := Certificate.proof withCommit;
  Certificate.era := AI_NATIVE;
  Certificate.verification := Certificate.verification withCommit;
  Certificate.certificateNumber := Certificate.certificateNumber withCommit;
  Certificate.issuedAt := Certificate.issuedAt withCommit
|}.

(** A JSON document with the right tag and the right top-level types, whose
    three sections are [null]. *)
Definition nullSections : JSValue :=
  JSObject [
    ("type", JSString "LASTGEN_CERTIFICATE");
    ("version", JSString "1.0");
    ("identity", JSNull);
    ("proof", JSNull);
    ("verification", JSNull);
    ("certificateNumber", JSString "LGC-0000-000000")
  ].

(** The same with empty objects for the three sections. *)
Definition emptySections : JSValue :=
  JSObject [
    ("type", JSString "LASTGEN_CERTIFICATE");
    ("version", JSString "1.0");
    ("identity", JSObject []);
    ("proof", JSObject []);
    ("verification", JSObject []);
    ("certificateNumber", JSString "LGC-0000-000000")
  ].

End Sample.

(** ** display.ts and verify-cli.ts: the boxes of the terminal

    The text the command line prints for a certificate and for a
    verification report.  [styleText] of [node:util] decorates a text with
    escape codes; it is a parameter.  What [shouldUseColor] reads of the
    process is a record.  [new Date(s).toISOString()] throws a [RangeError]
    on a string that is not a date. *)

(** [s.replace(/c/g, rep)] for a one-character pattern. *)
Fixpoint replaceAll (c : ascii) (rep s : string) : string :=
  match s with
  | EmptyString => EmptyString
  | String x s' =>
      if Ascii.eqb x c then rep ++ replaceAll c rep s'
      else String x (replaceAll c rep s')
  end.

(** [s.slice(from)]. *)
Definition sliceFrom (from : nat) (s : string) : string :=
  substring from (String.length s - from) s.

(** The line feed, code unit 10. *)
Definition newline : string := String (ascii_of_N 10) EmptyString.

(** [types.ts]: the [ERAS] table. *)
Module EraInfo.
Record t : Type := {
  title : string;
  description : string
}.
End EraInfo.

Definition ERAS (era : EraKey) : EraInfo.t :=
  match era with
  | LAST_GEN => {|
      EraInfo.title := "Last Generation Coder";
      EraInfo.description := "Wrote code before AI agents shipped" |}
  | AI_NATIVE => {|
      EraInfo.title := "AI Native Coder";
      EraInfo.description := "First verifiable commit after AI agents shipped" |}
  end.

Module Terminal.
(** [process.env['NO_COLOR']], [process.env['TERM']], [process.argv] and
    whether [process.stdout.isTTY] is [true]. *)
Record t : Type := {
  NO_COLOR : option string;
  TERM : option string;
  argv : list string;
  isTTY : bool
}.
End Terminal.

(** [new Date(s).toISOString()]. *)
Definition toISOStringOf {D : DateApi} (s : string) : Outcome string :=
  match Date_parse s with
  | Some t => Resolved (Date_toISOString t)
  | None => Rejected (ErrorObject "Invalid time value")
  end.

(** What a computation of the display comes to: its value, an exception,
    or a loop cut short. *)
Inductive Shown (A : Type) : Type :=
| Done (a : A)
| Threw (e : Thrown)
| CutShort.

Arguments Done {A} a.
Arguments Threw {A} e.
Arguments CutShort {A}.

Definition thenShow {A B : Type} (s : Shown A) (f : A -> Shown B) : Shown B :=
  match s with
  | Done a => f a
  | Threw e => Threw e
  | CutShort => CutShort
  end.

Definition ofLoop {A : Type} (o : option A) : Shown A :=
  match o with
  | Some a => Done a
  | None => CutShort
  end.

Definition ofOutcome {A : Type} (o : Outcome A) : Shown A :=
  match o with
  | Resolved a => Done a
  | Rejected e => Threw e
  end.

Section Display.

Context {D : DateApi}.

Variable styleText : string -> string -> string.
Variable terminal : Terminal.t.

Definition shouldUseColor : bool :=
  match Terminal.NO_COLOR terminal with
  | Some _ => false
  | None =>
      if match Terminal.TERM terminal with
         | Some term => String.eqb term "dumb"
         | None => false
         end
      then false
      else if existsb (String.eqb "--no-color") (Terminal.argv terminal) then false
      else Terminal.isTTY terminal
  end.

Definition style (format text : string) : string :=
  if negb shouldUseColor then text else styleText format text.

Definition BOX_WIDTH : nat := 50.

Definition boxRule : string :=
  style "dim" ("+" ++ Str.repeat "-" (BOX_WIDTH + 2) ++ "+").

Definition boxLine (content : string) (rawLength : nat) : string :=
  let pad := Z.of_nat BOX_WIDTH - Z.of_nat rawLength in
  style "dim" "|" ++ " " ++ content ++ Str.repeat " " (Z.to_nat (Z.max pad 0))
    ++ " " ++ style "dim" "|".

Definition boxEmpty : string := boxLine "" 0.

Definition LABEL_WIDTH : nat := 13.

(** The loop of [labelLine] and of the report: one line per chunk of at
    most [max] characters, while something remains.  [fuel] bounds the
    number of rounds; [None] is a loop that was cut short. *)
Fixpoint wrapLoop (fuel : nat) (max : nat) (line : bool -> string -> string)
  (remaining : string) (isFirst : bool) (lines : list string) : option (list string) :=
  if (0 <? String.length remaining)%nat then
    match fuel with
    | O => None
    | S fuel' =>
        let chunk := Str.slice 0 max remaining in
        let remaining := sliceFrom max remaining in
        wrapLoop fuel' max line remaining false (push lines (line isFirst chunk))
    end
  else Some lines.

(** [labelLine(label, value, styledValue, lines)]: the lines after the
    call. *)
Definition labelLine (label value styledValue : string) (lines : list string)
  : option (list string) :=
  let max := (BOX_WIDTH - LABEL_WIDTH)%nat in
  if (String.length value <=? max)%nat then
    Some (push lines
            (boxLine (style "dim" label ++ styledValue)
               (LABEL_WIDTH + String.length value)))
  else
    let indent := Str.repeat " " LABEL_WIDTH in
    wrapLoop (String.length value) max
      (fun isFirst chunk =>
         let prefix := if isFirst then style "dim" label else indent in
         boxLine (prefix ++ chunk) (LABEL_WIDTH + String.length chunk))
      value true lines.

Notation "x <~ s ;; k" := (thenShow s (fun x => k))
  (at level 61, s at next level, right associativity).

(** The title line of a box. *)
Definition titleLine (titleRaw : string) : string :=
  let title := style "bold" titleRaw in
  let titlePadL := ((BOX_WIDTH - String.length titleRaw) / 2)%nat in
  let titlePadR := (BOX_WIDTH - String.length titleRaw - titlePadL)%nat in
  boxLine (Str.repeat " " titlePadL ++ title ++ Str.repeat " " titlePadR) BOX_WIDTH.

(** [displayCertificate(cert)]: the lines of the box, then the text written
    to the standard output. *)
Definition certificateLines (cert : Certificate.t) : Shown (list string) :=
  let isLastGen := EraKey_eqb (Certificate.era cert) LAST_GEN in
  let eraInfo := ERAS (Certificate.era cert) in
  let lines : list string := [] in
  let lines := push lines boxRule in
  let lines := push lines (titleLine "LASTGEN CERTIFICATE") in
  let lines := push lines boxRule in
  lines <~ ofLoop (labelLine "Certificate  " (Certificate.certificateNumber cert)
                     (Certificate.certificateNumber cert) lines) ;;
  issued <~ ofOutcome (toISOStringOf (Certificate.issuedAt cert)) ;;
  let issuedDate := Str.slice 0 10 issued in
  lines <~ ofLoop (labelLine "Issued       " issuedDate issuedDate lines) ;;
  let lines := push lines boxEmpty in
  let identity := Certificate.identity cert in
  let devValue :=
    match CertificateIdentity.name identity with
    | Some name =>
        if Str.truthy name
        then CertificateIdentity.username identity ++ " (" ++ name ++ ")"
        else CertificateIdentity.username identity
    | None => CertificateIdentity.username identity
    end in
  lines <~ ofLoop (labelLine "Developer    " devValue devValue lines) ;;
  let eraColor := if isLastGen then "green" else "cyan" in
  lines <~ ofLoop (labelLine "Era          " (EraInfo.title eraInfo)
                     (style eraColor (EraInfo.title eraInfo)) lines) ;;
  lines <~ ofLoop (labelLine "             " (EraInfo.description eraInfo)
                     (style "dim" (EraInfo.description eraInfo)) lines) ;;
  let firstCommit := CertificateProof.firstCommit (Certificate.proof cert) in
  lines <~ (if Str.truthy (FirstCommit.sha firstCommit) then
              let lines := push lines boxEmpty in
              committed <~ ofOutcome (toISOStringOf (FirstCommit.date firstCommit)) ;;
              let commitDate := Str.slice 0 10 committed in
              let repo := FirstCommit.repo firstCommit in
              lines <~ ofLoop (labelLine "Proof Commit " repo repo lines) ;;
              let shaShort := Str.slice 0 7 (FirstCommit.sha firstCommit) in
              let commitMsg :=
                shaShort ++ " "
                  ++ replaceAll (ascii_of_N 10) " " (FirstCommit.message firstCommit) in
              lines <~ ofLoop (labelLine "             " commitMsg
                                 (style "dim" commitMsg) lines) ;;
              ofLoop (labelLine "Commit Date  " commitDate commitDate lines)
            else Done lines) ;;
  let lines := push lines boxEmpty in
  let hash := CertificateVerification.hash (Certificate.verification cert) in
  lines <~ ofLoop (labelLine "Hash         " hash (style "dim" hash) lines) ;;
  let lines := push lines boxRule in
  Done lines.

Definition displayCertificate (cert : Certificate.t) : Shown string :=
  lines <~ certificateLines cert ;;
  Done (newline ++ Str.join newline lines ++ newline ++ newline).



End Display.

(** ** web/src/certificate.ts: escaping for HTML *)

Definition esc (text : string) : string :=
  replaceAll Conv.dquote "&quot;"
    (replaceAll ">" "&gt;"
       (replaceAll "<" "&lt;"
          (replaceAll "&" "&amp;" text))).

(** ** web/src/hash.ts: the digest in hexadecimal

    [crypto.subtle.digest] on the encoded text is a parameter, the bytes
    it gives are numbers below 256. *)

(** [b.toString(16)] for a byte. *)
Definition byteToString16 (b : N) : string :=
  if N.ltb b 16 then String (Conv.hexChar b) EmptyString
  else String (Conv.hexChar (N.div b 16))
         (String (Conv.hexChar (N.modulo b 16)) EmptyString).

Definition hexOfBytes (hashArray : list N) : string :=
  Str.join "" (List.map (fun b => Str.padStart 2 "0" (byteToString16 b)) hashArray).

Definition webHash (sha256 : string -> list N) : HashFn :=
  fun data => hexOfBytes (sha256 data).

(** ** web/src/app.ts: the lookup and its cache

    The module keeps one [Map] from lower-cased usernames to entries; the
    functions below take it and give it back.  [Date.now()] and
    [new Date()] read the same clock: [reads] counts the readings so far.
    [fetchUser] and [fetchFirstCommit] are the data source. *)

Module CacheEntry.
Record t : Type := {
  certificate : Certificate.t;
  timestamp : Z
}.
End CacheEntry.

Definition CACHE_TTL_MS : Z := 5 * 60 * 1000.

Definition Cache : Type := string -> option CacheEntry.t.

(** [new Map()], [cache.set(key, entry)] and [cache.delete(key)]. *)
Definition emptyCache : Cache := fun _ => None.

Definition cacheSet (key : string) (entry : CacheEntry.t) (cache : Cache) : Cache :=
  fun k => if String.eqb k key then Some entry else cache k.

Definition cacheDelete (key : string) (cache : Cache) : Cache :=
  fun k => if String.eqb k key then None else cache k.

(** [getCached(username)]: the certificate or [null], the cache and the
    number of readings of the clock afterwards. *)
Definition getCached (clock : nat -> Z) (reads : nat) (username : string)
  (cache : Cache) : option Certificate.t * Cache * nat :=
  let key := Str.toLowerCase username in
  match cache key with
  | None => (None, cache, reads)
  | Some entry =>
      if clock reads - CacheEntry.timestamp entry >? CACHE_TTL_MS
      then (None, cacheDelete key cache, S reads)
      else (Some (CacheEntry.certificate entry), cache, S reads)
  end.

Definition setCache (clock : nat -> Z) (reads : nat) (username : string)
  (certificate : Certificate.t) (cache : Cache) : Cache * nat :=
  (cacheSet (Str.toLowerCase username)
     {| CacheEntry.certificate := certificate;
        CacheEntry.timestamp := clock reads |} cache,
   S reads).

Module GitHub.
Record t : Type := {
  fetchUser : string -> Outcome GitHubUser.t;
  fetchFirstCommit : string -> Outcome (option FirstCommit.t)
}.
End GitHub.

Inductive LookupEvent : Type :=
| Status (message : string)
| UserFetch (username : string)
| FirstCommitFetch (username : string).

Module Lookup.
(** What a call of [lookupUser] leaves: the certificate or the rejection,
    the cache, the readings of the clock, and what it did, in order. *)
Record t : Type := {
  result : Outcome Certificate.t;
  cache : Cache;
  reads : nat;
  events : list LookupEvent
}.
End Lookup.

Definition lookupUser {D : DateApi} (hashFn : HashFn) (w : World) (github : GitHub.t)
  (reads : nat) (username : string) (cache : Cache) : Lookup.t :=
  let '(cached, cache, reads) := getCached (clock w) reads username cache in
  match cached with
  | Some cached =>
      {| Lookup.result := Resolved cached;
         Lookup.cache := cache;
         Lookup.reads := reads;
         Lookup.events := [Status "Using cached result..."] |}
  | None =>
      let events := [Status "Fetching GitHub profile..."; UserFetch username] in
      match GitHub.fetchUser github username with
      | Rejected e =>
          {| Lookup.result := Rejected e; Lookup.cache := cache;
             Lookup.reads := reads; Lookup.events := events |}
      | Resolved user =>
          let events :=
            (events ++ [Status "Searching for earliest commit...";
                        FirstCommitFetch (GitHubUser.login user)])%list in
          match GitHub.fetchFirstCommit github (GitHubUser.login user) with
          | Rejected e =>
              {| Lookup.result := Rejected e; Lookup.cache := cache;
                 Lookup.reads := reads; Lookup.events := events |}
          | Resolved firstCommit =>
              let events := push events (Status "Generating certificate...") in
              let '(certificate, clockReads) :=
                run w reads (createCertificate hashFn user firstCommit) in
              let reads := (reads + List.length clockReads)%nat in
              let '(cache, reads) := setCache (clock w) reads username certificate cache in
              {| Lookup.result := Resolved certificate; Lookup.cache := cache;
                 Lookup.reads := reads; Lookup.events := events |}
          end
      end
  end.

(** ** Vocabulary of the further properties *)

Section MoreVocabulary.

Context {D : DateApi}.

(** [commit] with another author date. *)
Definition withAuthorDate (commit : FirstCommit.t) (date : string) : FirstCommit.t := {|
  FirstCommit.date := date;
  FirstCommit.repo := FirstCommit.repo commit;
  FirstCommit.sha := FirstCommit.sha commit;
  FirstCommit.message := FirstCommit.message commit;
  FirstCommit.repoCreatedAt := FirstCommit.repoCreatedAt commit;
  FirstCommit.committerDate := FirstCommit.committerDate commit
|}.

(** Two certificates that differ at most in their time of issue. *)
Definition SameButIssuedAt (c1 c2 : Certificate.t) : Prop :=
  Certificate.version c1 = Certificate.version c2
  /\ Certificate.type c1 = Certificate.type c2
  /\ Certificate.identity c1 = Certificate.identity c2
  /\ Certificate.proof c1 = Certificate.proof c2
  /\ Certificate.era c1 = Certificate.era c2
  /\ Certificate.verification c1 = Certificate.verification c2
  /\ Certificate.certificateNumber c1 = Certificate.certificateNumber c2.

(** What a report says, without the explanations: the name and the verdict
    of each check, in order. *)
Definition verdicts (r : VerifyCertificateResult.t) : list (string * bool) :=
  List.map (fun c => (VerifyResult.check c, VerifyResult.passed c))
    (VerifyCertificateResult.results r).

(** The three checks on stored data, given the proof date the resolver
    gives back for the stored commit. *)
Definition baseVerdicts (hashFn : HashFn) (cert : Certificate.t) (expected : string)
  : list (string * bool) :=
  [("Hash integrity", hashMatches hashFn cert);
   ("Era classification",
    EraKey_eqb (Certificate.era cert)
      (classifyEra (CertificateProof.proofDate (Certificate.proof cert))));
   ("Proof date",
    withinMinute expected (CertificateProof.proofDate (Certificate.proof cert)))].

(** The three ways a fetched commit can name the certificate's user. *)
Definition identityMatches (cert : Certificate.t) (detail : CommitDetail.t) : bool :=
  let username := CertificateIdentity.username (Certificate.identity cert) in
  (String.eqb (Str.toLowerCase (Str.orEmpty (CommitDetail.authorLogin detail)))
     (Str.toLowerCase username)
   || String.eqb (Str.toLowerCase (Str.orEmpty (CommitDetail.committerLogin detail)))
        (Str.toLowerCase username)
   || match CommitDetail.authorEmail detail with
      | Some email =>
          if Str.truthy email then matchesNoreplyEmail email username else false
      | None => false
      end)%bool.

(** Author and committer date at most thirty days apart, either way. *)
Definition driftWithinThirtyDays (authorDate committerDate : string) : bool :=
  Num.le (Num.abs (Num.sub (getTime committerDate) (getTime authorDate)))
    (Fin THIRTY_DAYS_MS).

(** The checks on a fetched commit. *)
Definition commitVerdicts (cert : Certificate.t) (detail : CommitDetail.t)
  : list (string * bool) :=
  ([("Identity", identityMatches cert detail); ("Repo ownership", true)]
   ++ match CommitDetail.authorId detail with
      | Some authorId =>
          [("GitHub ID",
            authorId =? CertificateIdentity.githubId (Certificate.identity cert))]
      | None => []
      end
   ++ [("Commit date",
        withinMinute (Str.orEmpty (CommitDetail.authorDate detail))
          (FirstCommit.date (CertificateProof.firstCommit (Certificate.proof cert))))]
   ++ match CommitDetail.authorDate detail, CommitDetail.committerDate detail with
      | Some authorDate, Some committerDate =>
          if (Str.truthy authorDate && Str.truthy committerDate)%bool
          then [("Date consistency", driftWithinThirtyDays authorDate committerDate)]
          else []
      | _, _ => []
      end
   ++ (if CommitDetail.isRootCommit detail then [("Root commit", true)] else [])
   ++ (if CommitDetail.verified detail then [("GPG signature", true)] else []))%list.

(** The checks that only inform: the code records them as passed whatever
    they found. *)
Definition isInformational (name : string) : bool :=
  (String.eqb name "Repo ownership" || String.eqb name "Root commit"
   || String.eqb name "GPG signature")%bool.

(** Every name a report can hold, in the order the verifier records them. *)
Definition allCheckNames : list string :=
  ["Hash integrity"; "Era classification"; "Proof date"; "Identity";
   "Repo ownership"; "GitHub ID"; "Commit date"; "Date consistency";
   "Root commit"; "GPG signature"; "Commit verification"].

(** [xs] is [ys] with some elements left out. *)
Fixpoint isSubsequence (xs ys : list string) : bool :=
  match xs, ys with
  | [], _ => true
  | _ :: _, [] => false
  | x :: xs', y :: ys' =>
      if String.eqb x y then isSubsequence xs' ys' else isSubsequence xs ys'
  end.

(** [cert] with other values in the fields that are stored but take no part
    in a check: version, type, display name, commit message, salt,
    certificate number and time of issue. *)
Definition withUncheckedFields (cert : Certificate.t) (version type : string)
  (name : option string) (message salt certificateNumber issuedAt : string)
  : Certificate.t :=
  let identity := Certificate.identity cert in
  let proof := Certificate.proof cert in
  let firstCommit := CertificateProof.firstCommit proof in
  {| Certificate.version := version;
     Certificate.type := type;
     Certificate.identity := {|
       CertificateIdentity.username := CertificateIdentity.username identity;
       CertificateIdentity.githubId := CertificateIdentity.githubId identity;
       CertificateIdentity.name := name
     |};
     Certificate.proof := {|
       CertificateProof.accountCreated := CertificateProof.accountCreated proof;
       CertificateProof.firstCommit := {|
         FirstCommit.date := FirstCommit.date firstCommit;
         FirstCommit.repo := FirstCommit.repo firstCommit;
         FirstCommit.sha := FirstCommit.sha firstCommit;
         FirstCommit.message := message;
         FirstCommit.repoCreatedAt := FirstCommit.repoCreatedAt firstCommit;
         FirstCommit.committerDate := FirstCommit.committerDate firstCommit
       |};
       CertificateProof.proofDate := CertificateProof.proofDate proof
     |};
     Certificate.era := Certificate.era cert;
     Certificate.verification := {|
       CertificateVerification.hash :=
         CertificateVerification.hash (Certificate.verification cert);
       CertificateVerification.salt := salt
     |};
     Certificate.certificateNumber := certificateNumber;
     Certificate.issuedAt := issuedAt |}.

(** Whether a date string parses. *)
Definition parses (s : string) : bool :=
  match Date_parse s with
  | Some _ => true
  | None => false
  end.



(** A string of hexadecimal digits, and the number it writes. *)
Fixpoint allHex (s : string) : bool :=
  match s with
  | EmptyString => true
  | String c s' =>
      match Conv.hexDigit c with
      | Some _ => allHex s'
      | None => false
      end
  end.

Fixpoint hexValueFrom (acc : Z) (s : string) : Z :=
  match s with
  | EmptyString => acc
  | String c s' =>
      match Conv.hexDigit c with
      | Some d => hexValueFrom (16 * acc + d) s'
      | None => acc
      end
  end.

Definition hexValue (s : string) : Z := hexValueFrom 0 s.

(** Reading back what [JSON.stringify] writes for one code unit of a
    string: the code unit and the rest of the text. *)
Definition hexNibble (c : ascii) : N :=
  let n := N_of_ascii c in
  if N.ltb n 58 then n - 48 else n - 87.

Definition unquoteChar (s : string) : option (ascii * string) :=
  match s with
  | String "\" (String k rest) =>
      if Ascii.eqb k "b" then Some (ascii_of_N 8, rest)
      else if Ascii.eqb k "t" then Some (ascii_of_N 9, rest)
      else if Ascii.eqb k "n" then Some (ascii_of_N 10, rest)
      else if Ascii.eqb k "f" then Some (ascii_of_N 12, rest)
      else if Ascii.eqb k "r" then Some (ascii_of_N 13, rest)
      else if Ascii.eqb k "u" then
        match rest with
        | String _ (String _ (String h (String l rest'))) =>
            Some (ascii_of_N (16 * hexNibble h + hexNibble l), rest')
        | _ => None
        end
      else Some (k, rest)
  | String c rest => Some (c, rest)
  | EmptyString => None
  end.





(** Each character replaced by a string. *)
Fixpoint flatMap (f : ascii -> string) (s : string) : string :=
  match s with
  | EmptyString => EmptyString
  | String c s' => f c ++ flatMap f s'
  end.

(** The entity of a character that HTML reads as markup, or the character
    itself. *)
Definition escChar (c : ascii) : string :=
  if Ascii.eqb c "&" then "&amp;"
  else if Ascii.eqb c "<" then "&lt;"
  else if Ascii.eqb c ">" then "&gt;"
  else if Ascii.eqb c Conv.dquote then "&quot;"
  else String c EmptyString.

(** Reading back one character of an escaped text. *)
Definition unescChar (s : string) : option (ascii * string) :=
  match s with
  | String "&" (String "a" (String "m" (String "p" (String ";" rest)))) =>
      Some ("&"%char, rest)
  | String "&" (String "l" (String "t" (String ";" rest))) => Some ("<"%char, rest)
  | String "&" (String "g" (String "t" (String ";" rest))) => Some (">"%char, rest)
  | String "&" (String "q" (String "u" (String "o" (String "t" (String ";" rest))))) =>
      Some (Conv.dquote, rest)
  | String c rest => Some (c, rest)
  | EmptyString => None
  end.

(** Whether a character occurs in a string. *)
Fixpoint occurs (c : ascii) (s : string) : bool :=
  match s with
  | EmptyString => false
  | String x s' => (Ascii.eqb x c || occurs c s')%bool
  end.

(** Whether a string starts with a backslash. *)
Definition startsWithBackslash (s : string) : bool :=
  match s with
  | String c _ => Ascii.eqb c "\"
  | EmptyString => false
  end.

(** Four bytes read as one number, the first byte the most significant. *)
Definition bigEndian32 (b0 b1 b2 b3 : N) : Z :=
  Z.of_N (((b0 * 256 + b1) * 256 + b2) * 256 + b3).

(** Whether a lookup asked the data source for anything. *)
Definition isFetch (e : LookupEvent) : bool :=
  match e with
  | Status _ => false
  | UserFetch _ | FirstCommitFetch _ => true
  end.

End MoreVocabulary.

(** ** Further sample inputs *)

Module Cases.

(** A commit whose author date does not parse. *)
Definition undated : FirstCommit.t := {|
  FirstCommit.date := "last tuesday";
  FirstCommit.repo := "alice/notes";
  FirstCommit.sha := "9fceb02d0ae598e95dc970b74767f19372d61af8";
  FirstCommit.message := "first commit";
  FirstCommit.repoCreatedAt := Some "2019-01-01T00:00:00Z";
  FirstCommit.committerDate := None
|}.

(** A commit whose repository creation date came back as the empty
    string. *)
Definition emptyRepoDate : FirstCommit.t := {|
  FirstCommit.date := "2019-06-01T00:00:00Z";
  FirstCommit.repo := "alice/notes";
  FirstCommit.sha := "9fceb02d0ae598e95dc970b74767f19372d61af8";
  FirstCommit.message := "first commit";
  FirstCommit.repoCreatedAt := Some "";
  FirstCommit.committerDate := None
|}.

(** A commit with an author date nine months after its committer date. *)
Definition postdated : FirstCommit.t := {|
  FirstCommit.date := "2019-06-01T00:00:00Z";
  FirstCommit.repo := "alice/notes";
  FirstCommit.sha := "9fceb02d0ae598e95dc970b74767f19372d61af8";
  FirstCommit.message := "first commit";
  FirstCommit.repoCreatedAt := Some "2018-01-01T00:00:00Z";
  FirstCommit.committerDate := Some "2018-09-01T00:00:00Z"
|}.

(** A commit amended ten days after it was authored. *)
Definition amended : FirstCommit.t := {|
  FirstCommit.date := "2019-06-01T00:00:00Z";
  FirstCommit.repo := "alice/notes";
  FirstCommit.sha := "9fceb02d0ae598e95dc970b74767f19372d61af8";
  FirstCommit.message := "first commit";
  FirstCommit.repoCreatedAt := Some "2019-01-01T00:00:00Z";
  FirstCommit.committerDate := Some "2019-06-11T00:00:00Z"
|}.

(** What GitHub reports of a stored commit authored by [login]: the same
    two dates, no id, an unsigned commit with parents. *)
Definition detailOf (login : string) (commit : FirstCommit.t) : CommitDetail.t := {|
  CommitDetail.sha := FirstCommit.sha commit;
  CommitDetail.authorLogin := Some login;
  CommitDetail.committerLogin := None;
  CommitDetail.authorEmail := None;
  CommitDetail.authorDate := Some (FirstCommit.date commit);
  CommitDetail.committerDate := FirstCommit.committerDate commit;
  CommitDetail.authorId := None;
  CommitDetail.verificationReason := None;
  CommitDetail.isRootCommit := false;
  CommitDetail.message := FirstCommit.message commit;
  CommitDetail.verified := false
|}.

(** A world whose data source answers every request with [detail]. *)
Definition answering (detail : CommitDetail.t) : World := {|
  clock := fun n => 1740787200000 + 1000 * Z.of_nat n;
  fetchCommit := fun _ _ _ => Resolved detail
|}.

(** The certificate issued to [Sample.alice] for a commit. *)
Definition issuedFor (commit : FirstCommit.t) : Certificate.t :=
  fst (run Sample.offline 0
         (createCertificate (D := isoDate) Sample.echo Sample.alice (Some commit))).

(** A terminal with [NO_COLOR] set, and a stand-in for [styleText] that
    puts the format in brackets before the text. *)
Definition plainTerminal : Terminal.t := {|
  Terminal.NO_COLOR := Some "1";
  Terminal.TERM := Some "xterm-256color";
  Terminal.argv := ["node"; "lastgen"; "alice"];
  Terminal.isTTY := true
|}.

Definition bracketStyle (format text : string) : string :=
  "[" ++ format ++ "]" ++ text.

(** [Sample.withCommit] with a time of issue that is not a date. *)
Definition misdated : Certificate.t :=
  withUncheckedFields Sample.withCommit "1.0" "LASTGEN_CERTIFICATE" (Some "Alice")
    "first commit" "lastgen_v1" "LGC-0000-000000" "yesterday".

(** A data source that knows [Sample.alice] and her early commit, and
    one that is down. *)
Definition knowsAlice : GitHub.t := {|
  GitHub.fetchUser := fun _ => Resolved Sample.alice;
  GitHub.fetchFirstCommit := fun _ => Resolved (Some Sample.early)
|}.

Definition down : GitHub.t := {|
  GitHub.fetchUser := fun _ => Rejected (ErrorObject "GitHub API error: 503 Service Unavailable");
  GitHub.fetchFirstCommit :=
    fun _ => Rejected (ErrorObject "GitHub API error: 503 Service Unavailable")
|}.

End Cases.

(** * Properties *)

(** ** The ISO instance of the Date built-in *)

Section IsoFacts.

Lemma daysInMonth_cases (y m : Z) :
  Iso.daysInMonth y m =
    if m =? 2 then (if Iso.isLeap y then 29 else 28)
    else if (m =? 4) || (m =? 6) || (m =? 9) || (m =? 11) then 30 else 31.
Proof. reflexivity. Qed.

Lemma isLeap_spec (y : Z) :
  Iso.isLeap y = true <-> (y mod 4 = 0 /\ (y mod 100 <> 0 \/ y mod 400 = 0)).
Proof.
  unfold Iso.isLeap.
  rewrite andb_true_iff, orb_true_iff, negb_true_iff, !Z.eqb_eq, Z.eqb_neq. tauto.
Qed.

Lemma civil_roundtrip (z : Z) :
  let '(y, m, d) := Iso.civilFromDays z in
  Iso.daysFromCivil y m d = z
  /\ 1 <= m <= 12 /\ 1 <= d <= Iso.daysInMonth y m
  /\ (z + 719468) / 146097 * 400 <= y <= (z + 719468) / 146097 * 400 + 400.
Proof.
  unfold Iso.civilFromDays.
  set (z' := z + 719468) in *.
  set (era := z' / 146097).
  set (doe := z' - era * 146097).
  assert (Hdoe : 0 <= doe < 146097).
  { subst doe era. pose proof (Z.div_mod z' 146097). pose proof (Z.mod_pos_bound z' 146097). lia. }
  assert (Hz : z = era * 146097 + doe - 719468) by (subst doe z'; lia).
  clearbody doe era. clear z'. subst z.
  set (yoe := (doe - doe / 1460 + doe / 36524 - doe / 146096) / 365).
  set (doy := doe - (365 * yoe + yoe / 4 - yoe / 100)).
  assert (Hyoe : 0 <= yoe <= 399 /\ 0 <= doy <= 365 /\ (doy = 365 -> yoe mod 4 = 3 /\ (yoe mod 100 <> 99 \/ yoe = 399))).
  { subst doy yoe. Z.div_mod_to_equations; lia. }
  destruct Hyoe as (Hyoe & Hdoy & Hleap).
  assert (Hdoe' : doe = 365 * yoe + yoe / 4 - yoe / 100 + doy) by (subst doy; lia).
  clearbody doy yoe. subst doe.
  set (mp := (5 * doy + 2) / 153).
  set (d := doy - (153 * mp + 2) / 5 + 1).
  assert (Hmp : 0 <= mp <= 11 /\ 1 <= d <= 31 /\ doy = (153 * mp + 2) / 5 + d - 1
                /\ (mp = 11 -> d <= 29 /\ (d = 29 -> doy = 365))
                /\ (mp = 1 \/ mp = 3 \/ mp = 6 \/ mp = 8 -> d <= 30)).
  { subst d mp. Z.div_mod_to_equations; lia. }
  destruct Hmp as (Hmp & Hd & Hdoy' & Hfeb & H30).
  clearbody d mp. 
  set (m := if mp <? 10 then mp + 3 else mp - 9).
  assert (Hm : 1 <= m <= 12 /\ (m + 9) mod 12 = mp /\ (m <= 2 <-> 10 <= mp)).
  { subst m. destruct (Z.ltb_spec mp 10); Z.div_mod_to_equations; lia. }
  destruct Hm as (Hm & Hmmp & Hm2).
  clearbody m.
  split.
  - unfold Iso.daysFromCivil.
    destruct (m <=? 2) eqn:E2; [apply Z.leb_le in E2 | apply Z.leb_gt in E2].
    + replace (yoe + era * 400 + 1 - 1) with (yoe + era * 400) by lia.
      rewrite Hmmp.
      replace ((yoe + era * 400) / 400) with era by (Z.div_mod_to_equations; lia).
      replace (yoe + era * 400 - era * 400) with yoe by lia. lia.
    + rewrite Hmmp.
      replace ((yoe + era * 400) / 400) with era by (Z.div_mod_to_equations; lia).
      replace (yoe + era * 400 - era * 400) with yoe by lia. lia.
  - split; [exact Hm|]. split.
    + split; [lia|]. rewrite daysInMonth_cases.
      destruct (Z.eqb_spec m 2) as [E2|E2].
      * assert (mp = 11) by (subst m; Z.div_mod_to_equations; lia).
        destruct (Hfeb H) as (H29 & Hlast).
        destruct (Iso.isLeap _) eqn:El; [lia|].
        assert (d <> 29); [|lia]. intros ->.
        specialize (Hleap (Hlast eq_refl)).
        assert (Iso.isLeap (if m <=? 2 then yoe + era * 400 + 1 else yoe + era * 400) = true); [|congruence].
        apply isLeap_spec. subst m. simpl. Z.div_mod_to_equations; lia.
      * destruct ((m =? 4) || (m =? 6) || (m =? 9) || (m =? 11))%bool eqn:E30; [|lia].
        rewrite !orb_true_iff, !Z.eqb_eq in E30.
        assert (mp = 1 \/ mp = 3 \/ mp = 6 \/ mp = 8) by (Z.div_mod_to_equations; lia).
        specialize (H30 H). lia.
    + destruct (m <=? 2); lia.
Qed.

Lemma list_ascii_of_string_app (a b : string) :
  list_ascii_of_string (a ++ b) = (list_ascii_of_string a ++ list_ascii_of_string b)%list.
Proof. induction a as [|c a IH]; simpl; [reflexivity | rewrite IH; reflexivity]. Qed.

Lemma digit_digitChar (d : Z) :
  0 <= d <= 9 -> Iso.digit (Iso.digitChar d) = Some d.
Proof.
  intros Hd.
  assert (Hcases : d = 0 \/ d = 1 \/ d = 2 \/ d = 3 \/ d = 4 \/ d = 5 \/ d = 6
                   \/ d = 7 \/ d = 8 \/ d = 9) by lia.
  repeat (destruct Hcases as [-> | Hcases]; [reflexivity|]). subst d. reflexivity.
Qed.

(** Reading one digit more is reading the shorter number, then the digit. *)
Lemma digits_last (n : nat) : forall (acc : Z) (l : list ascii),
  Iso.digits (S n) acc l =
    match Iso.digits n acc l with
    | Some (v, c :: rest) =>
        match Iso.digit c with
        | Some d => Some (10 * v + d, rest)
        | None => None
        end
    | _ => None
    end.
Proof.
  induction n as [|n IH]; intros acc l.
  - destruct l as [|c l]; simpl; [reflexivity|].
    destruct (Iso.digit c); reflexivity.
  - destruct l as [|c l]; [reflexivity|].
    change (Iso.digits (S (S n)) acc (c :: l))
      with (Iso.bindOpt (Iso.digit c) (fun d => Iso.digits (S n) (10 * acc + d) l)).
    change (Iso.digits (S n) acc (c :: l))
      with (Iso.bindOpt (Iso.digit c) (fun d => Iso.digits n (10 * acc + d) l)).
    destruct (Iso.digit c) as [d|]; simpl Iso.bindOpt; [apply IH | reflexivity].
Qed.

(** What [Iso.pad] writes, [Iso.digits] reads. *)
Lemma pad_reads_back (width : nat) : forall (z acc : Z) (rest : list ascii),
  0 <= z < 10 ^ Z.of_nat width ->
  Iso.digits width acc (list_ascii_of_string (Iso.pad width z) ++ rest)%list
  = Some (acc * 10 ^ Z.of_nat width + z, rest).
Proof.
  induction width as [|width IH]; intros z acc rest Hz.
  - simpl in *. f_equal. f_equal. lia.
  - rewrite Nat2Z.inj_succ, Z.pow_succ_r in * by lia.
    rewrite digits_last. cbn [Iso.pad].
    rewrite list_ascii_of_string_app, <- app_assoc.
    rewrite IH by (Z.div_mod_to_equations; nia).
    cbn [list_ascii_of_string app].
    rewrite digit_digitChar by (Z.div_mod_to_equations; lia).
    f_equal. f_equal. Z.div_mod_to_equations; nia.
Qed.

Lemma pad2_reads_back (z : Z) (rest : list ascii) :
  0 <= z < 100 ->
  Iso.digits 2 0 (list_ascii_of_string (Iso.pad 2 z) ++ rest)%list = Some (z, rest).
Proof. intros Hz. rewrite pad_reads_back by (simpl; lia). reflexivity. Qed.

Lemma pad3_reads_back (z : Z) (rest : list ascii) :
  0 <= z < 1000 ->
  Iso.digits 3 0 (list_ascii_of_string (Iso.pad 3 z) ++ rest)%list = Some (z, rest).
Proof. intros Hz. rewrite pad_reads_back by (simpl; lia). reflexivity. Qed.

Lemma pad4_reads_back (z : Z) (rest : list ascii) :
  0 <= z < 10000 ->
  Iso.digits 4 0 (list_ascii_of_string (Iso.pad 4 z) ++ rest)%list = Some (z, rest).
Proof. intros Hz. rewrite pad_reads_back by (simpl; lia). reflexivity. Qed.

Lemma civil_year_range (y m d : Z) :
  1 <= m <= 12 -> 1 <= d <= 31 ->
  -719528 <= Iso.daysFromCivil y m d < 2932897 ->
  0 <= y <= 9999.
Proof.
  unfold Iso.daysFromCivil. intros Hm Hd.
  set (y' := if (m <=? 2)%Z then y - 1 else y).
  set (mp := (m + 9) mod 12).
  assert (Hy' : (m <= 2 /\ y = y' + 1 /\ 10 <= mp <= 11) \/ (3 <= m /\ y = y' /\ 0 <= mp <= 9)).
  { subst y' mp. destruct (Z.leb_spec m 2); Z.div_mod_to_equations; lia. }
  clearbody y' mp.
  set (era := y' / 400).
  set (yoe := y' - era * 400).
  assert (Hyoe : 0 <= yoe <= 399 /\ y' = era * 400 + yoe).
  { subst yoe era. Z.div_mod_to_equations; lia. }
  clearbody yoe era.
  set (doy := (153 * mp + 2) / 5 + d - 1).
  assert (Hdoy : (10 <= mp -> 306 <= doy <= 367) /\ (mp <= 9 -> 0 <= doy <= 305)).
  { subst doy. Z.div_mod_to_equations; lia. }
  clearbody doy.
  intros Hrange.
  assert (Hera : -1 <= era <= 24) by (Z.div_mod_to_equations; lia).
  assert (era = -1 \/ 0 <= era <= 23 \/ era = 24) as [He | [He | He]] by lia.
  - subst era. Z.div_mod_to_equations; lia.
  - lia.
  - subst era. Z.div_mod_to_equations; lia.
Qed.

Lemma daysInMonth_le_31 (y m : Z) : Iso.daysInMonth y m <= 31.
Proof.
  unfold Iso.daysInMonth.
  destruct (m =? 2)%Z; [destruct (Iso.isLeap y); lia|].
  destruct ((m =? 4)%Z || (m =? 6)%Z || (m =? 9)%Z || (m =? 11)%Z)%bool; lia.
Qed.

Lemma lit_reads (c : ascii) (s : string) :
  Iso.lit c (list_ascii_of_string (String c s)) = Some (list_ascii_of_string s).
Proof. simpl. rewrite Ascii.eqb_refl. reflexivity. Qed.

Lemma pad2_reads (z : Z) (s : string) :
  0 <= z < 100 ->
  Iso.digits 2 0 (list_ascii_of_string (Iso.pad 2 z ++ s))
  = Some (z, list_ascii_of_string s).
Proof. intros Hz. rewrite list_ascii_of_string_app. apply pad2_reads_back, Hz. Qed.

Lemma pad3_reads (z : Z) (s : string) :
  0 <= z < 1000 ->
  Iso.digits 3 0 (list_ascii_of_string (Iso.pad 3 z ++ s))
  = Some (z, list_ascii_of_string s).
Proof. intros Hz. rewrite list_ascii_of_string_app. apply pad3_reads_back, Hz. Qed.

Lemma pad4_reads (z : Z) (s : string) :
  0 <= z < 10000 ->
  Iso.digits 4 0 (list_ascii_of_string (Iso.pad 4 z ++ s))
  = Some (z, list_ascii_of_string s).
Proof. intros Hz. rewrite list_ascii_of_string_app. apply pad4_reads_back, Hz. Qed.

(** The ISO instance is a faithful pair: every time value of the years 0000
    to 9999 is read back from its rendering. *)
Lemma parse_toISOString (t : Z) :
  Iso.fourDigitYear t ->
  Iso.parse (Iso.toISOString t) = Some t.
Proof.
  unfold Iso.fourDigitYear. intros Ht. unfold Iso.toISOString.
  pose proof (civil_roundtrip (t / Iso.msPerDay)) as Hcivil.
  destruct (Iso.civilFromDays (t / Iso.msPerDay)) as [[y m] d].
  destruct Hcivil as (Hdays & Hm & Hd & _).
  pose proof (daysInMonth_le_31 y m) as H31.
  assert (Hday : -719528 <= t / Iso.msPerDay < 2932897).
  { unfold Iso.msPerDay. Z.div_mod_to_equations; lia. }
  assert (Hy : 0 <= y <= 9999).
  { apply (@civil_year_range y m d); [lia | lia | rewrite Hdays; exact Hday]. }
  set (ms := t mod Iso.msPerDay).
  assert (Hms : 0 <= ms < 86400000) by (subst ms; apply Z.mod_pos_bound; reflexivity).
  assert (Hsplit : t = Iso.daysFromCivil y m d * Iso.msPerDay + ms).
  { rewrite Hdays. subst ms. unfold Iso.msPerDay. Z.div_mod_to_equations; lia. }
  clearbody ms.
  unfold Iso.year.
  replace ((0 <=? y)%Z && (y <=? 9999)%Z)%bool with true
    by (symmetry; apply andb_true_iff; split; apply Z.leb_le; lia).
  unfold Iso.parse.
  rewrite pad4_reads by lia. cbn [Iso.bindOpt].
  change ("-" ++ ?x) with (String "-" x).
  rewrite lit_reads. cbn [Iso.bindOpt].
  rewrite pad2_reads by lia. cbn [Iso.bindOpt].
  change ("-" ++ ?x) with (String "-" x).
  rewrite lit_reads. cbn [Iso.bindOpt].
  rewrite pad2_reads by lia. cbn [Iso.bindOpt].
  replace ((1 <=? m)%Z && (m <=? 12)%Z && (1 <=? d)%Z && (d <=? Iso.daysInMonth y m)%Z)%bool
    with true
    by (symmetry; rewrite !andb_true_iff, !Z.leb_le; lia).
  change ("T" ++ ?x) with (String "T" x).
  cbn [list_ascii_of_string]. fold (list_ascii_of_string).
  unfold Iso.parseTime.
  change ("T"%char :: list_ascii_of_string ?x) with (list_ascii_of_string (String "T" x)).
  rewrite lit_reads. cbn [Iso.bindOpt].
  rewrite pad2_reads by (Z.div_mod_to_equations; lia). cbn [Iso.bindOpt].
  change (":" ++ ?x) with (String ":" x).
  rewrite lit_reads. cbn [Iso.bindOpt].
  rewrite pad2_reads by (Z.div_mod_to_equations; lia). cbn [Iso.bindOpt].
  change (":" ++ ?x) with (String ":" x).
  rewrite lit_reads. cbn [Iso.bindOpt].
  rewrite pad2_reads by (Z.div_mod_to_equations; lia). cbn [Iso.bindOpt].
  change ("." ++ ?x) with (String "." x).
  rewrite lit_reads.
  rewrite pad3_reads by (Z.div_mod_to_equations; lia). cbn [Iso.bindOpt].
  rewrite lit_reads. cbn [Iso.bindOpt list_ascii_of_string].
  replace ((ms / 3600000 <? 24)%Z && ((ms / 60000) mod 60 <? 60)%Z
           && ((ms / 1000) mod 60 <? 60)%Z)%bool with true
    by (symmetry; rewrite !andb_true_iff, !Z.ltb_lt; Z.div_mod_to_equations; lia).
  cbn [Iso.bindOpt]. rewrite Hsplit. do 2 f_equal. clear -Hms.
  Z.div_mod_to_equations; lia.
Qed.

End IsoFacts.

(** ** Resolver *)

Section ResolverFacts.

Context {D : DateApi}.

Lemma getTime_parsed (s : string) (t : Z) :
  Date_parse s = Some t -> getTime s = Fin t.
Proof. unfold getTime; intros ->; reflexivity. Qed.

Lemma parsed_truthy (s : string) (t : Z) :
  Date_parse s = Some t -> Str.truthy s = true.
Proof.
  destruct s as [|c s]; [|reflexivity].
  rewrite Date_parse_empty; discriminate.
Qed.

Lemma getTime_cutoff : getTime CUTOFF_DATE = Fin 1740096000000.
Proof. apply getTime_parsed, Date_parse_cutoff. Qed.

(** With a commit at hand the resolver never looks at the clock. *)
Lemma resolveProofDate_commit_pure (user : GitHubUser.t) (fc : FirstCommit.t) :
  exists result, resolveProofDate user (Some fc) = Ret result.
Proof.
  unfold resolveProofDate.
  destruct (Num.lt _ _); eexists; reflexivity.
Qed.

(** C3. The effective commit date is the committer date exactly when a
    committer date exists and committer time minus author time exceeds
    thirty days, and the author date in every other case (no committer
    date, an unparseable date on either side, or a drift of thirty days or
    less). *)
Theorem getEffectiveCommitDate_drift_rule (commit : FirstCommit.t) :
  (forall cd, CommitterDriftExceeds commit cd ->
     getEffectiveCommitDate commit = cd /\ cd <> FirstCommit.date commit)
  /\ (getEffectiveCommitDate commit = FirstCommit.date commit
      <-> forall cd, ~ CommitterDriftExceeds commit cd).
Proof.
  assert (Hyes : forall cd, CommitterDriftExceeds commit cd ->
            getEffectiveCommitDate commit = cd /\ cd <> FirstCommit.date commit).
  { unfold getEffectiveCommitDate, CommitterDriftExceeds.
    intros cd (Hcd & ta & tc & Ha & Hc & Hgt). split.
    - rewrite Hcd, (parsed_truthy _ Hc); simpl.
      rewrite (getTime_parsed _ Ha), (getTime_parsed _ Hc); simpl.
      unfold Num.gt; simpl.
      destruct (Z.ltb_spec THIRTY_DAYS_MS (tc - ta)); [reflexivity | lia].
    - intros ->. rewrite Ha in Hc. injection Hc as <-.
      unfold THIRTY_DAYS_MS in Hgt. lia. }
  split; [exact Hyes|]. split.
  - intros Hdate cd Hcd. destruct (Hyes cd Hcd) as (Heq & Hneq). congruence.
  - unfold getEffectiveCommitDate, CommitterDriftExceeds. intros Hno.
    destruct (FirstCommit.committerDate commit) as [cd|] eqn:Hcd; [|reflexivity].
    destruct (Str.truthy cd); simpl; [|reflexivity].
    unfold getTime.
    destruct (Date_parse cd) as [tc|] eqn:Hc; [|reflexivity].
    destruct (Date_parse (FirstCommit.date commit)) as [ta|] eqn:Ha; [|reflexivity].
    unfold Num.gt; simpl.
    destruct (Z.ltb_spec THIRTY_DAYS_MS (tc - ta)) as [Hgt|]; [|reflexivity].
    exfalso. apply (Hno cd). split; [reflexivity|].
    exists ta, tc. auto.
Qed.

(** C1. With a repository creation date that parses, and parseable commit
    and account dates, the resolver returns the repository creation date
    when the effective commit date is strictly earlier than it, and
    otherwise the earlier of the effective commit date and the account
    creation date. *)
Theorem resolveProofDate_repo_known (user : GitHubUser.t) (fc : FirstCommit.t)
  (repoCreatedAt : string) (repoTime commitTime accountTime : Z) :
  FirstCommit.repoCreatedAt fc = Some repoCreatedAt ->
  Date_parse repoCreatedAt = Some repoTime ->
  Date_parse (getEffectiveCommitDate fc) = Some commitTime ->
  Date_parse (GitHubUser.createdAt user) = Some accountTime ->
  exists result,
    resolveProofDate user (Some fc) = Ret result
    /\ (commitTime < repoTime -> result = repoCreatedAt)
    /\ (repoTime <= commitTime ->
        EarlierOfCommitAndAccount user fc result
        /\ result = (if commitTime <? accountTime
                     then getEffectiveCommitDate fc
                     else GitHubUser.createdAt user)).
Proof.
  intros Hrepo Hr Hc Ha.
  unfold resolveProofDate. rewrite Hrepo, (parsed_truthy _ Hr).
  rewrite (getTime_parsed _ Hr), (getTime_parsed _ Hc), (getTime_parsed _ Ha).
  simpl.
  destruct (Z.ltb_spec commitTime repoTime) as [Hlt|Hge].
  - eexists; split; [reflexivity|]. split; [reflexivity | lia].
  - eexists; split; [reflexivity|]. split; [lia|]. intros _.
    split; [|reflexivity].
    exists commitTime, accountTime. split; [exact Hc|]. split; [exact Ha|].
    destruct (Z.ltb_spec commitTime accountTime).
    + rewrite (getTime_parsed _ Hc), Z.min_l by lia. auto.
    + rewrite (getTime_parsed _ Ha), Z.min_r by lia. auto.
Qed.

(** C2, as the code has it.  Without a repository creation date the
    comparison against [Infinity] always succeeds, so for a parseable
    effective commit date the resolver returns the account creation date,
    whatever the two dates are; that is the earlier of the two only when the
    account is not younger than the commit. *)
Theorem resolveProofDate_repo_absent (user : GitHubUser.t) (fc : FirstCommit.t)
  (commitTime accountTime : Z) :
  FirstCommit.repoCreatedAt fc = None ->
  Date_parse (getEffectiveCommitDate fc) = Some commitTime ->
  Date_parse (GitHubUser.createdAt user) = Some accountTime ->
  resolveProofDate user (Some fc) = Ret (GitHubUser.createdAt user)
  /\ (EarlierOfCommitAndAccount user fc (GitHubUser.createdAt user)
      <-> accountTime <= commitTime).
Proof.
  intros Hrepo Hc Ha. split.
  - unfold resolveProofDate. rewrite Hrepo, (getTime_parsed _ Hc). reflexivity.
  - unfold EarlierOfCommitAndAccount. split.
    + intros (tc & ta & Hc' & Ha' & Hmin & _).
      rewrite Hc in Hc'. rewrite Ha in Ha'.
      injection Hc' as <-. injection Ha' as <-.
      rewrite (getTime_parsed _ Ha) in Hmin. injection Hmin as Hmin. lia.
    + intros Hle. exists commitTime, accountTime.
      rewrite (getTime_parsed _ Ha), Z.min_r by lia. auto.
Qed.

End ResolverFacts.

Lemma getEffectiveCommitDate_drift_rule_witness :
  CommitterDriftExceeds (D := isoDate) Sample.forged "2024-06-01T00:00:00Z"
  /\ getEffectiveCommitDate (D := isoDate) Sample.forged = "2024-06-01T00:00:00Z"
  /\ (forall cd, ~ CommitterDriftExceeds (D := isoDate) Sample.early cd)
  /\ getEffectiveCommitDate (D := isoDate) Sample.early = "2019-06-01T00:00:00Z".
Proof.
  assert (H : CommitterDriftExceeds (D := isoDate) Sample.forged "2024-06-01T00:00:00Z").
  { split; [reflexivity|].
    exists 1420070400000, 1717200000000.
    split; [reflexivity|]. split; [reflexivity|]. vm_compute; reflexivity. }
  assert (Hno : forall cd, ~ CommitterDriftExceeds (D := isoDate) Sample.early cd).
  { intros cd (Hcd & _). discriminate Hcd. }
  split; [exact H|]. split.
  - exact (proj1 (proj1 (getEffectiveCommitDate_drift_rule (D := isoDate) Sample.forged) _ H)).
  - split; [exact Hno|].
    exact (proj2 (proj2 (getEffectiveCommitDate_drift_rule (D := isoDate) Sample.early)) Hno).
Defined.

Lemma resolveProofDate_repo_known_witness :
  (FirstCommit.repoCreatedAt Sample.early = Some "2019-01-01T00:00:00Z"
   /\ Date_parse (DateApi := isoDate) "2019-01-01T00:00:00Z" = Some 1546300800000
   /\ Date_parse (DateApi := isoDate) (getEffectiveCommitDate (D := isoDate) Sample.early)
      = Some 1559347200000
   /\ Date_parse (DateApi := isoDate) (GitHubUser.createdAt Sample.alice)
      = Some 1577836800000
   /\ resolveProofDate (D := isoDate) Sample.alice (Some Sample.early)
      = Ret "2019-06-01T00:00:00Z")
  /\ (FirstCommit.repoCreatedAt Sample.imported = Some "2019-01-01T00:00:00Z"
      /\ Date_parse (DateApi := isoDate)
           (getEffectiveCommitDate (D := isoDate) Sample.imported)
         = Some 1519862400000
      /\ resolveProofDate (D := isoDate) Sample.alice (Some Sample.imported)
         = Ret "2019-01-01T00:00:00Z").
Proof.
  assert (Hrepo : Date_parse (DateApi := isoDate) "2019-01-01T00:00:00Z"
                  = Some 1546300800000) by reflexivity.
  assert (Hacct : Date_parse (DateApi := isoDate) (GitHubUser.createdAt Sample.alice)
                  = Some 1577836800000) by reflexivity.
  assert (Hearly : Date_parse (DateApi := isoDate)
                     (getEffectiveCommitDate (D := isoDate) Sample.early)
                   = Some 1559347200000) by reflexivity.
  assert (Himported : Date_parse (DateApi := isoDate)
                        (getEffectiveCommitDate (D := isoDate) Sample.imported)
                      = Some 1519862400000) by reflexivity.
  split.
  - do 4 (split; [first [reflexivity | assumption]|]).
    destruct (@resolveProofDate_repo_known isoDate Sample.alice Sample.early
                _ _ _ _ eq_refl Hrepo Hearly Hacct) as (result & Hret & _ & Hlater).
    rewrite Hret. f_equal.
    exact (proj2 (Hlater ltac:(vm_compute; discriminate))).
  - do 2 (split; [first [reflexivity | assumption]|]).
    destruct (@resolveProofDate_repo_known isoDate Sample.alice Sample.imported
                _ _ _ _ eq_refl Hrepo Himported Hacct) as (result & Hret & Hsooner & _).
    rewrite Hret. f_equal.
    exact (Hsooner ltac:(vm_compute; reflexivity)).
Defined.

Lemma resolveProofDate_repo_absent_witness :
  FirstCommit.repoCreatedAt Sample.earlyNoRepo = None
  /\ Date_parse (DateApi := isoDate)
       (getEffectiveCommitDate (D := isoDate) Sample.earlyNoRepo) = Some 1559347200000
  /\ Date_parse (DateApi := isoDate) (GitHubUser.createdAt Sample.alice)
     = Some 1577836800000
  /\ resolveProofDate (D := isoDate) Sample.alice (Some Sample.earlyNoRepo)
     = Ret "2020-01-01T00:00:00Z".
Proof.
  assert (Hc : Date_parse (DateApi := isoDate)
                 (getEffectiveCommitDate (D := isoDate) Sample.earlyNoRepo)
               = Some 1559347200000) by reflexivity.
  assert (Ha : Date_parse (DateApi := isoDate) (GitHubUser.createdAt Sample.alice)
               = Some 1577836800000) by reflexivity.
  split; [reflexivity|]. split; [exact Hc|]. split; [exact Ha|].
  exact (proj1 (@resolveProofDate_repo_absent isoDate Sample.alice Sample.earlyNoRepo
                  _ _ eq_refl Hc Ha)).
Defined.

(** C2 as the specification words it fails: account created 2020-01-01,
    commit authored 2019-06-01, repository creation date unknown.  The
    earlier date is the commit's, the resolver answers with the account's. *)
Lemma resolveProofDate_repo_absent_counterexample :
  FirstCommit.repoCreatedAt Sample.earlyNoRepo = None
  /\ Date_parse (DateApi := isoDate)
       (getEffectiveCommitDate (D := isoDate) Sample.earlyNoRepo) = Some 1559347200000
  /\ Date_parse (DateApi := isoDate) (GitHubUser.createdAt Sample.alice) = Some 1577836800000
  /\ resolveProofDate (D := isoDate) Sample.alice (Some Sample.earlyNoRepo)
       = Ret "2020-01-01T00:00:00Z"
  /\ ~ EarlierOfCommitAndAccount (D := isoDate) Sample.alice Sample.earlyNoRepo
         "2020-01-01T00:00:00Z".
Proof.
  split; [reflexivity|]. split; [reflexivity|]. split; [reflexivity|].
  split; [reflexivity|].
  intros (tc & ta & Hc & Ha & Hmin & _).
  vm_compute in Hc, Ha, Hmin.
  injection Hc as <-. injection Ha as <-.
  discriminate Hmin.
Qed.

(** ** Era classifier *)

Section ClassifierFacts.

Context {D : DateApi}.

(** C4. For a parseable proof date the era is LAST_GEN exactly when the
    date is strictly before the cutoff and AI_NATIVE otherwise; one
    millisecond before the cutoff is LAST_GEN, the cutoff itself is
    AI_NATIVE. *)
Theorem classifyEra_strict_cutoff (proofDate : string) (t : Z) :
  Date_parse proofDate = Some t ->
  (classifyEra proofDate = LAST_GEN <-> t < CUTOFF_TIME)
  /\ (classifyEra proofDate = AI_NATIVE <-> CUTOFF_TIME <= t)
  /\ (t = CUTOFF_TIME - 1 -> classifyEra proofDate = LAST_GEN)
  /\ (t = CUTOFF_TIME -> classifyEra proofDate = AI_NATIVE)
  /\ classifyEra CUTOFF_DATE = AI_NATIVE.
Proof.
  intros Ht. unfold classifyEra, CUTOFF_TIME.
  rewrite getTime_cutoff, (getTime_parsed _ Ht). simpl.
  destruct (Z.ltb_spec t 1740096000000) as [Hlt|Hge].
  - repeat split; intros; try reflexivity; try lia; discriminate.
  - repeat split; intros; try reflexivity; try lia; discriminate.
Qed.

End ClassifierFacts.

Lemma classifyEra_strict_cutoff_witness :
  Date_parse (DateApi := isoDate) "2025-02-20T23:59:59.999Z" = Some (CUTOFF_TIME - 1)
  /\ classifyEra (D := isoDate) "2025-02-20T23:59:59.999Z" = LAST_GEN
  /\ classifyEra (D := isoDate) CUTOFF_DATE = AI_NATIVE.
Proof.
  assert (H : Date_parse (DateApi := isoDate) "2025-02-20T23:59:59.999Z"
              = Some (CUTOFF_TIME - 1)) by reflexivity.
  split; [exact H|].
  pose proof (classifyEra_strict_cutoff (D := isoDate) _ H) as (_ & _ & Hb & _ & Hc).
  split; [apply Hb; reflexivity | exact Hc].
Defined.

(** ** Verifier *)

Section VerifierFacts.

Context {D : DateApi}.

Lemma truthy_nonempty (s : string) : s <> "" -> Str.truthy s = true.
Proof. destruct s; [congruence | reflexivity]. Qed.

Lemma replace_sha256_prefix (digest : string) :
  Str.replace "sha256:" "" ("sha256:" ++ digest) = digest.
Proof. reflexivity. Qed.

(** A certificate without a commit: the resolver reads the clock, nothing
    is fetched, and the report is the three checks on stored data. *)
Lemma verify_without_commit (cert : Certificate.t) (hashFn : HashFn)
  (token : option string) (w : World) (reads : nat) :
  FirstCommit.sha (CertificateProof.firstCommit (Certificate.proof cert)) = "" ->
  let r := run w reads (verifyCertificateData cert hashFn token) in
  snd r = [ClockRead (clock w reads)]
  /\ exists h e p,
       VerifyCertificateResult.results (fst r) = [h; e; p]
       /\ VerifyResult.check h = "Hash integrity"
       /\ VerifyResult.passed h = hashMatches hashFn cert
       /\ VerifyResult.check e = "Era classification"
       /\ VerifyResult.check p = "Proof date"
       /\ VerifyResult.passed p =
            withinMinute (Date_toISOString (clock w reads))
              (CertificateProof.proofDate (Certificate.proof cert)).
Proof.
  intros Hsha. unfold verifyCertificateData. cbv zeta.
  rewrite Hsha. cbn [Str.truthy resolveProofDate bind run fst snd].
  split; [reflexivity|].
  do 3 eexists. cbn [VerifyCertificateResult.results push app].
  split; [reflexivity|]. repeat split.
Qed.

(** A certificate with a commit: the resolver runs on the stored commit, the
    commit is fetched once, the three checks on stored data do not depend on
    the world, and a failed fetch adds one failing check and nothing else. *)
Lemma verify_with_commit (cert : Certificate.t) (hashFn : HashFn)
  (token : option string) :
  let fc := CertificateProof.firstCommit (Certificate.proof cert) in
  Str.truthy (FirstCommit.sha fc) = true ->
  exists h e p,
    VerifyResult.check h = "Hash integrity"
    /\ VerifyResult.passed h = hashMatches hashFn cert
    /\ VerifyResult.check e = "Era classification"
    /\ VerifyResult.check p = "Proof date"
    /\ forall (w : World) (reads : nat),
         let r := run w reads (verifyCertificateData cert hashFn token) in
         snd r = [CommitFetch (FirstCommit.repo fc) (FirstCommit.sha fc) token]
         /\ firstn 3 (VerifyCertificateResult.results (fst r)) = [h; e; p]
         /\ forall err,
              fetchCommit w (FirstCommit.repo fc) (FirstCommit.sha fc) token
                = Rejected err ->
              VerifyCertificateResult.results (fst r)
                = [h; e; p; commitVerificationFailure err].
Proof.
  intros fc Hsha.
  destruct (resolveProofDate_commit_pure (reconstructedUser cert) fc)
    as [expected Hexpected].
  unfold reconstructedUser in Hexpected.
  do 3 eexists. split; [|split; [|split; [|split]]]. all: cycle 4.
  - intros w reads. unfold verifyCertificateData. cbv zeta.
    fold fc. rewrite Hsha, Hexpected.
    cbn [bind run fst snd].
    destruct (fetchCommit w (FirstCommit.repo fc) (FirstCommit.sha fc) token)
      as [detail|err] eqn:Hfetch;
      cbn [bind run fst snd VerifyCertificateResult.results].
    + split; [reflexivity|]. split; [|discriminate].
      destruct (CommitDetail.authorId detail);
        destruct (CommitDetail.authorDate detail) as [authorDate|];
        destruct (CommitDetail.committerDate detail) as [committerDate|];
        try destruct (Str.truthy authorDate && Str.truthy committerDate)%bool;
        destruct (CommitDetail.isRootCommit detail);
        destruct (CommitDetail.verified detail);
        cbn [firstn push app]; reflexivity.
    + split; [reflexivity|]. split; [cbn [firstn push app]; reflexivity|].
      intros err' Herr. injection Herr as <-. destruct err; reflexivity.
  - reflexivity.
  - reflexivity.
  - reflexivity.
  - reflexivity.
Qed.

(** Whatever the world does, the report opens with the hash check, and the
    check passes exactly when the stored hash is the recomputed one. *)
Lemma verify_hash_check_first (cert : Certificate.t) (hashFn : HashFn)
  (token : option string) (w : World) (reads : nat) :
  exists c,
    findCheck "Hash integrity" (fst (run w reads (verifyCertificateData cert hashFn token)))
      = Some c
    /\ VerifyResult.passed c = hashMatches hashFn cert.
Proof.
  unfold findCheck.
  destruct (FirstCommit.sha (CertificateProof.firstCommit (Certificate.proof cert)))
    as [|c0 s0] eqn:Hsha.
  - destruct (verify_without_commit cert hashFn token w reads Hsha)
      as (_ & h & e & p & -> & Hh & Hp & _).
    exists h. simpl. rewrite Hh. simpl. auto.
  - assert (Htruthy : Str.truthy (FirstCommit.sha
              (CertificateProof.firstCommit (Certificate.proof cert))) = true)
      by (rewrite Hsha; reflexivity).
    destruct (verify_with_commit cert hashFn token Htruthy)
      as (h & e & p & Hh & Hp & _ & _ & Hrun).
    destruct (Hrun w reads) as (_ & Hfirst & _).
    exists h. split; [|exact Hp].
    destruct (VerifyCertificateResult.results
                (fst (run w reads (verifyCertificateData cert hashFn token))))
      as [|x rest]; [discriminate|].
    simpl in Hfirst. injection Hfirst as -> _.
    simpl. rewrite Hh. reflexivity.
Qed.

End VerifierFacts.

(** ** Hasher and builder *)

Section HasherFacts.

Context {D : DateApi}.

(** The builder stores the digest it computed from the fields it stores. *)
Lemma createCertificate_stored_hash (hashFn : HashFn) (user : GitHubUser.t)
  (firstCommit : option FirstCommit.t) (w : World) (reads : nat) :
  let cert := fst (run w reads (createCertificate hashFn user firstCommit)) in
  CertificateVerification.hash (Certificate.verification cert)
    = "sha256:" ++ recomputedHash hashFn cert.
Proof.
  unfold createCertificate.
  destruct firstCommit as [fc|].
  - destruct (resolveProofDate_commit_pure user fc) as [proofDate ->].
    reflexivity.
  - reflexivity.
Qed.

(** C5. For every certificate the builder produces, hashing again its
    username, GitHub id, proof date and era gives the digest stored, behind
    the [sha256:] prefix, in its verification hash; so the verifier's check
    "Hash integrity" passes on it untouched, whatever the clock and the data
    source do. *)
Theorem createCertificate_hash_roundtrip (hashFn : HashFn) (user : GitHubUser.t)
  (firstCommit : option FirstCommit.t) (w : World) (reads : nat) :
  let cert := fst (run w reads (createCertificate hashFn user firstCommit)) in
  CertificateVerification.hash (Certificate.verification cert)
    = "sha256:" ++ generateCertificateHash hashFn
        (CertificateIdentity.username (Certificate.identity cert))
        (CertificateIdentity.githubId (Certificate.identity cert))
        (CertificateProof.proofDate (Certificate.proof cert))
        (Certificate.era cert)
  /\ forall (w' : World) (reads' : nat) (token : option string),
       exists c,
         findCheck "Hash integrity"
           (fst (run w' reads' (verifyCertificateData cert hashFn token))) = Some c
         /\ VerifyResult.passed c = true.
Proof.
  intros cert.
  pose proof (createCertificate_stored_hash hashFn user firstCommit w reads) as Hstored.
  fold cert in Hstored. cbv zeta in Hstored.
  split; [exact Hstored|].
  intros w' reads' token.
  destruct (verify_hash_check_first cert hashFn token w' reads') as (c & Hfind & Hpassed).
  exists c. split; [exact Hfind|].
  rewrite Hpassed. unfold hashMatches.
  rewrite Hstored, replace_sha256_prefix. apply String.eqb_refl.
Qed.

(** C6. The hash is a function of the username, the GitHub id, the proof
    date and the era, with the fixed salt: two certificates that agree on
    those four fields have the same recomputed hash, whatever their other
    fields hold (display name, commit, message, repository, stored salt,
    number, issue time); if they also store the same hash, "Hash integrity"
    gives the same verdict on both. *)
Theorem generateCertificateHash_hashed_fields_only (hashFn : HashFn)
  (c1 c2 : Certificate.t) :
  SameHashedFields c1 c2 ->
  generateCertificateHash hashFn
    (CertificateIdentity.username (Certificate.identity c1))
    (CertificateIdentity.githubId (Certificate.identity c1))
    (CertificateProof.proofDate (Certificate.proof c1))
    (Certificate.era c1)
  = generateCertificateHash hashFn
      (CertificateIdentity.username (Certificate.identity c2))
      (CertificateIdentity.githubId (Certificate.identity c2))
      (CertificateProof.proofDate (Certificate.proof c2))
      (Certificate.era c2)
  /\ (CertificateVerification.hash (Certificate.verification c1)
        = CertificateVerification.hash (Certificate.verification c2) ->
      forall (w1 w2 : World) (reads1 reads2 : nat) (token1 token2 : option string),
      exists k1 k2,
        findCheck "Hash integrity"
          (fst (run w1 reads1 (verifyCertificateData c1 hashFn token1))) = Some k1
        /\ findCheck "Hash integrity"
             (fst (run w2 reads2 (verifyCertificateData c2 hashFn token2))) = Some k2
        /\ VerifyResult.passed k1 = VerifyResult.passed k2).
Proof.
  intros (Hu & Hi & Hp & He).
  assert (Hsame : recomputedHash hashFn c1 = recomputedHash hashFn c2).
  { unfold recomputedHash. rewrite Hu, Hi, Hp, He. reflexivity. }
  split; [exact Hsame|].
  intros Hstored w1 w2 reads1 reads2 token1 token2.
  destruct (verify_hash_check_first c1 hashFn token1 w1 reads1) as (k1 & Hk1 & Hp1).
  destruct (verify_hash_check_first c2 hashFn token2 w2 reads2) as (k2 & Hk2 & Hp2).
  exists k1, k2. split; [exact Hk1|]. split; [exact Hk2|].
  rewrite Hp1, Hp2. unfold hashMatches. rewrite Hsame, Hstored. reflexivity.
Qed.

End HasherFacts.

Lemma generateCertificateHash_hashed_fields_only_witness :
  SameHashedFields Sample.withCommit Sample.withCommitRetold
  /\ Sample.withCommit <> Sample.withCommitRetold
  /\ recomputedHash Sample.echo Sample.withCommit
     = recomputedHash Sample.echo Sample.withCommitRetold.
Proof.
  assert (H : SameHashedFields Sample.withCommit Sample.withCommitRetold)
    by (repeat split).
  split; [exact H|]. split; [discriminate|].
  exact (proj1 (generateCertificateHash_hashed_fields_only (D := isoDate) Sample.echo H)).
Defined.

(** ** Verification reports *)

Section ReportFacts.

Context {D : DateApi}.

(** C7. For a certificate whose first commit has an empty sha the verifier
    fetches nothing, and its report is exactly the three checks "Hash
    integrity", "Era classification" and "Proof date", in that order. *)
Theorem verify_empty_sha_three_checks (cert : Certificate.t) (hashFn : HashFn)
  (token : option string) (w : World) (reads : nat) :
  FirstCommit.sha (CertificateProof.firstCommit (Certificate.proof cert)) = "" ->
  let r := run w reads (verifyCertificateData cert hashFn token) in
  existsb isCommitFetch (snd r) = false
  /\ checkNames (fst r) = ["Hash integrity"; "Era classification"; "Proof date"]
  /\ forall name, In name commitCheckNames \/ name = "Commit verification" ->
       findCheck name (fst r) = None.
Proof.
  intros Hsha r.
  destruct (verify_without_commit cert hashFn token w reads Hsha)
    as (Hevents & h & e & p & Hresults & Hh & _ & He & Hp & _).
  fold r in Hevents, Hresults.
  split; [rewrite Hevents; reflexivity|].
  unfold checkNames, findCheck. rewrite Hresults. simpl. rewrite Hh, He, Hp.
  split; [reflexivity|].
  intros name [Hin | ->]; [|reflexivity].
  unfold commitCheckNames in Hin. simpl in Hin.
  repeat (destruct Hin as [<- | Hin]; [reflexivity|]). contradiction.
Qed.

(** C8. For a certificate with a non-empty sha, when the fetch of the commit
    fails the verifier still returns: the report is the three checks on
    stored data, the same as under any other behaviour of the data source,
    followed by the single failing check "Commit verification" whose detail
    carries the error message; none of the checks on a fetched commit is
    there. *)
Theorem verify_fetch_failure_single_check (cert : Certificate.t) (hashFn : HashFn)
  (token : option string) (w : World) (reads : nat) (err : Thrown) :
  let fc := CertificateProof.firstCommit (Certificate.proof cert) in
  FirstCommit.sha fc <> "" ->
  fetchCommit w (FirstCommit.repo fc) (FirstCommit.sha fc) token = Rejected err ->
  let r := run w reads (verifyCertificateData cert hashFn token) in
  exists h e p,
    VerifyCertificateResult.results (fst r)
      = [h; e; p;
         {| VerifyResult.check := "Commit verification";
            VerifyResult.passed := false;
            VerifyResult.detail :=
              "Could not fetch commit from GitHub: " ++ thrownMessage err |}]
    /\ checkNames (fst r)
       = ["Hash integrity"; "Era classification"; "Proof date"; "Commit verification"]
    /\ (forall name, In name commitCheckNames -> findCheck name (fst r) = None)
    /\ (forall (w' : World) (reads' : nat),
          firstn 3 (VerifyCertificateResult.results
                      (fst (run w' reads' (verifyCertificateData cert hashFn token))))
          = [h; e; p]).
Proof.
  intros fc Hsha Hfetch r.
  destruct (verify_with_commit cert hashFn token (truthy_nonempty Hsha))
    as (h & e & p & Hh & _ & He & Hp & Hrun).
  destruct (Hrun w reads) as (_ & _ & Hfail).
  specialize (Hfail err Hfetch). fold r in Hfail.
  exists h, e, p.
  split; [exact Hfail|].
  unfold checkNames, findCheck. rewrite Hfail. simpl. rewrite Hh, He, Hp.
  split; [reflexivity|]. split.
  - intros name Hin. unfold commitCheckNames in Hin. simpl in Hin.
    repeat (destruct Hin as [<- | Hin]; [reflexivity|]). contradiction.
  - intros w' reads'. exact (proj1 (proj2 (Hrun w' reads'))).
Qed.

(** The "Proof date" check of a certificate without a commit compares the
    stored proof date with the clock. *)
Lemma verify_without_commit_proof_date (cert : Certificate.t) (hashFn : HashFn)
  (token : option string) (w : World) (reads : nat) :
  FirstCommit.sha (CertificateProof.firstCommit (Certificate.proof cert)) = "" ->
  exists c,
    findCheck "Proof date" (fst (run w reads (verifyCertificateData cert hashFn token)))
      = Some c
    /\ VerifyResult.passed c =
         withinMinute (Date_toISOString (clock w reads))
           (CertificateProof.proofDate (Certificate.proof cert)).
Proof.
  intros Hsha.
  destruct (verify_without_commit cert hashFn token w reads Hsha)
    as (_ & h & e & p & Hresults & Hh & _ & He & Hp & Hpassed).
  exists p. split; [|exact Hpassed].
  unfold findCheck. rewrite Hresults. simpl. rewrite Hh, He, Hp. reflexivity.
Qed.

Lemma withinMinute_parsed (a b : string) (ta : Z) :
  Date_parse a = Some ta ->
  withinMinute a b = true
  <-> exists tb, Date_parse b = Some tb /\ Z.abs (ta - tb) < 60000.
Proof.
  intros Ha. unfold withinMinute. rewrite (getTime_parsed _ Ha).
  unfold getTime. destruct (Date_parse b) as [tb|]; simpl.
  - rewrite Z.ltb_lt. split.
    + intros H. exists tb. auto.
    + intros (tb' & Heq & H). injection Heq as <-. exact H.
  - split; [discriminate|]. intros (tb & Heq & _). discriminate.
Qed.

(** The builder without a commit stores the clock as proof date and an
    empty sha. *)
Lemma createCertificate_no_commit (hashFn : HashFn) (user : GitHubUser.t)
  (w : World) (reads : nat) :
  let cert := fst (run w reads (createCertificate hashFn user None)) in
  FirstCommit.sha (CertificateProof.firstCommit (Certificate.proof cert)) = ""
  /\ CertificateProof.proofDate (Certificate.proof cert)
     = Date_toISOString (clock w reads).
Proof. split; reflexivity. Qed.

(** C10. For a certificate whose first commit has an empty sha the verifier
    re-runs the resolver without a commit, which answers with the current
    time; the "Proof date" check therefore passes exactly when the clock of
    the verification is less than sixty seconds away from the stored proof
    date.  A certificate issued without a commit stores its time of issue
    as proof date, so it fails the check from one minute after issue on. *)
Theorem verify_no_commit_proof_date_is_clock (cert : Certificate.t) (hashFn : HashFn)
  (token : option string) (w : World) (reads : nat) :
  let now := clock w reads in
  FirstCommit.sha (CertificateProof.firstCommit (Certificate.proof cert)) = "" ->
  Date_parse (Date_toISOString now) = Some now ->
  resolveProofDate (reconstructedUser cert) None
    = ReadClock (fun t => Ret (Date_toISOString t))
  /\ exists c,
       findCheck "Proof date" (fst (run w reads (verifyCertificateData cert hashFn token)))
         = Some c
       /\ (VerifyResult.passed c = true
           <-> exists stored,
                 Date_parse (CertificateProof.proofDate (Certificate.proof cert))
                   = Some stored
                 /\ Z.abs (now - stored) < 60000)
       /\ (forall (issuer : HashFn) (user : GitHubUser.t) (w0 : World) (reads0 : nat),
             let issued := clock w0 reads0 in
             cert = fst (run w0 reads0 (createCertificate issuer user None)) ->
             Date_parse (Date_toISOString issued) = Some issued ->
             (VerifyResult.passed c = true <-> Z.abs (now - issued) < 60000)
             /\ (issued + 60000 <= now -> VerifyResult.passed c = false)).
Proof.
  intros now Hsha Hclock.
  split; [reflexivity|].
  destruct (verify_without_commit_proof_date cert hashFn token w reads Hsha)
    as (c & Hfind & Hpassed).
  fold now in Hpassed.
  assert (Hiff : VerifyResult.passed c = true
                 <-> exists stored,
                       Date_parse (CertificateProof.proofDate (Certificate.proof cert))
                         = Some stored
                       /\ Z.abs (now - stored) < 60000).
  { rewrite Hpassed. apply withinMinute_parsed, Hclock. }
  exists c. split; [exact Hfind|]. split; [exact Hiff|].
  intros issuer user w0 reads0 issued Hcert Hissued.
  assert (Hstored : Date_parse (CertificateProof.proofDate (Certificate.proof cert))
                    = Some issued).
  { rewrite Hcert.
    rewrite (proj2 (createCertificate_no_commit issuer user w0 reads0)).
    exact Hissued. }
  assert (Hiff' : VerifyResult.passed c = true <-> Z.abs (now - issued) < 60000).
  { rewrite Hiff. split.
    - intros (stored & Hs & Habs). rewrite Hstored in Hs. injection Hs as <-. exact Habs.
    - intros Habs. exists issued. auto. }
  split; [exact Hiff'|].
  intros Hlate. destruct (VerifyResult.passed c); [|reflexivity].
  assert (Z.abs (now - issued) < 60000) by (apply Hiff'; reflexivity). lia.
Qed.

End ReportFacts.

Lemma verify_empty_sha_three_checks_witness :
  FirstCommit.sha (CertificateProof.firstCommit (Certificate.proof Sample.noCommit)) = ""
  /\ let r := run Sample.offline 2
                (verifyCertificateData (D := isoDate) Sample.noCommit Sample.echo None) in
     existsb isCommitFetch (snd r) = false
     /\ checkNames (fst r) = ["Hash integrity"; "Era classification"; "Proof date"]
     /\ forall name, In name commitCheckNames \/ name = "Commit verification" ->
          findCheck name (fst r) = None.
Proof.
  split; [reflexivity|].
  apply (verify_empty_sha_three_checks (D := isoDate)). reflexivity.
Defined.

Lemma verify_fetch_failure_single_check_witness :
  let fc := CertificateProof.firstCommit (Certificate.proof Sample.withCommit) in
  let err := ErrorObject "GitHub API error: 503 Service Unavailable" in
  FirstCommit.sha fc <> ""
  /\ fetchCommit Sample.offline (FirstCommit.repo fc) (FirstCommit.sha fc) None
     = Rejected err
  /\ let r := run Sample.offline 2
                (verifyCertificateData (D := isoDate) Sample.withCommit Sample.echo None) in
     exists h e p,
       VerifyCertificateResult.results (fst r)
         = [h; e; p;
            {| VerifyResult.check := "Commit verification";
               VerifyResult.passed := false;
               VerifyResult.detail :=
                 "Could not fetch commit from GitHub: " ++ thrownMessage err |}]
       /\ checkNames (fst r)
          = ["Hash integrity"; "Era classification"; "Proof date"; "Commit verification"]
       /\ (forall name, In name commitCheckNames -> findCheck name (fst r) = None)
       /\ (forall (w' : World) (reads' : nat),
             firstn 3 (VerifyCertificateResult.results
                         (fst (run w' reads'
                                 (verifyCertificateData (D := isoDate)
                                    Sample.withCommit Sample.echo None))))
             = [h; e; p]).
Proof.
  intros fc err.
  assert (Hsha : FirstCommit.sha fc <> "") by discriminate.
  assert (Hfetch : fetchCommit Sample.offline (FirstCommit.repo fc)
                     (FirstCommit.sha fc) None = Rejected err) by reflexivity.
  split; [exact Hsha|]. split; [exact Hfetch|].
  exact (@verify_fetch_failure_single_check isoDate Sample.withCommit
           Sample.echo None Sample.offline 2 err Hsha Hfetch).
Defined.

Lemma verify_no_commit_proof_date_is_clock_witness :
  let now := clock Sample.offline 100 in
  let issued := clock Sample.offline 0 in
  FirstCommit.sha (CertificateProof.firstCommit (Certificate.proof Sample.noCommit)) = ""
  /\ Date_parse (DateApi := isoDate) (Date_toISOString now) = Some now
  /\ Date_parse (DateApi := isoDate) (Date_toISOString issued) = Some issued
  /\ issued + 60000 <= now
  /\ exists c,
       findCheck "Proof date"
         (fst (run Sample.offline 100
                 (verifyCertificateData (D := isoDate) Sample.noCommit Sample.echo None)))
         = Some c
       /\ VerifyResult.passed c = false.
Proof.
  intros now issued.
  assert (Hsha : FirstCommit.sha (CertificateProof.firstCommit
                   (Certificate.proof Sample.noCommit)) = "") by reflexivity.
  assert (Hclock : Date_parse (DateApi := isoDate) (Date_toISOString now) = Some now)
    by reflexivity.
  assert (Hissued : Date_parse (DateApi := isoDate) (Date_toISOString issued) = Some issued)
    by reflexivity.
  assert (Hlate : issued + 60000 <= now) by (vm_compute; discriminate).
  split; [exact Hsha|]. split; [exact Hclock|].
  split; [exact Hissued|]. split; [exact Hlate|].
  destruct (@verify_no_commit_proof_date_is_clock isoDate Sample.noCommit
              Sample.echo None Sample.offline 100 Hsha Hclock)
    as (_ & c & Hfind & _ & Hissue).
  exists c. split; [exact Hfind|].
  exact (proj2 (Hissue Sample.echo Sample.alice Sample.offline O eq_refl Hissued) Hlate).
Defined.

(** With the ISO instance nothing is assumed of the clock beyond a
    four-digit year: a certificate issued without a commit verifies its
    proof date exactly during the minute around its time of issue. *)
Lemma iso_no_commit_certificate_expires (issuer hashFn : HashFn) (user : GitHubUser.t)
  (token : option string) (w0 w : World) (reads0 reads : nat) :
  let issued := clock w0 reads0 in
  let now := clock w reads in
  let cert := fst (run w0 reads0 (createCertificate (D := isoDate) issuer user None)) in
  Iso.fourDigitYear issued ->
  Iso.fourDigitYear now ->
  exists c,
    findCheck "Proof date"
      (fst (run w reads (verifyCertificateData (D := isoDate) cert hashFn token))) = Some c
    /\ (VerifyResult.passed c = true <-> Z.abs (now - issued) < 60000).
Proof.
  intros issued now cert Hissued Hnow.
  destruct (createCertificate_no_commit (D := isoDate) issuer user w0 reads0)
    as (Hsha & Hdate).
  fold cert in Hsha, Hdate.
  destruct (verify_without_commit_proof_date (D := isoDate) cert hashFn token w reads Hsha)
    as (c & Hfind & Hpassed).
  assert (Hn : Date_parse (DateApi := isoDate) (Date_toISOString now) = Some now)
    by exact (parse_toISOString Hnow).
  assert (Hi : Date_parse (DateApi := isoDate) (Date_toISOString issued) = Some issued)
    by exact (parse_toISOString Hissued).
  exists c. split; [exact Hfind|].
  rewrite Hpassed, Hdate.
  fold now issued.
  rewrite (withinMinute_parsed _ (Date_toISOString issued) Hn).
  split.
  - intros (tb & Hparse & Habs).
    rewrite Hi in Hparse. injection Hparse as <-. exact Habs.
  - intros Habs. exists issued. split; [exact Hi | exact Habs].
Qed.

(** Two runs of the whole verifier.  An untouched certificate passes every
    check against live data; flipping its era makes both the hash check and
    the era check fail. *)
Example verify_live_commit_all_pass :
  let r := fst (run Sample.online 0
                  (verifyCertificateData (D := isoDate) Sample.withCommit Sample.echo None)) in
  VerifyCertificateResult.valid r = true
  /\ checkNames r
     = ["Hash integrity"; "Era classification"; "Proof date"; "Identity";
        "Repo ownership"; "GitHub ID"; "Commit date"; "Date consistency";
        "Root commit"; "GPG signature"].
Proof. split; vm_compute; reflexivity. Qed.

Example verify_flipped_era_fails :
  let r := fst (run Sample.online 0
                  (verifyCertificateData (D := isoDate) Sample.withCommitEraFlipped
                     Sample.echo None)) in
  VerifyCertificateResult.valid r = false
  /\ List.map VerifyResult.passed (firstn 3 (VerifyCertificateResult.results r))
     = [false; false; true].
Proof. split; vm_compute; reflexivity. Qed.

(** ** Shape check *)

(** C9, where the code falls short of it.  [isValidCertificate] accepts a
    document whose [identity], [proof] and [verification] are [null]
    ([typeof null] is ['object']), and one where they are empty objects;
    on the first the verifier leaves with a [TypeError] at
    [cert.identity.username], on the second at
    [cert.verification.hash.replace], before any check is recorded. *)
Theorem isValidCertificate_admits_unreadable_sections :
  isValidCertificate Sample.nullSections = true
  /\ Untyped.readHashOperands Sample.nullSections
     = Rejected (ErrorObject "Cannot read properties of null (reading 'username')")
  /\ isValidCertificate Sample.emptySections = true
  /\ Untyped.readHashOperands Sample.emptySections
     = Rejected (ErrorObject "Cannot read properties of undefined (reading 'replace')").
Proof. repeat split. Qed.

(** * Further properties *)

(** ** Resolver: edge cases and bounds *)

Section ResolverEdges.

Context {D : DateApi}.

(** X1. With a commit the resolver invents nothing: its answer is one of
    the strings it was given, the author date, the committer date, the
    repository creation date or the account creation date. *)
Theorem resolveProofDate_returns_an_input (user : GitHubUser.t) (fc : FirstCommit.t) :
  exists result,
    resolveProofDate user (Some fc) = Ret result
    /\ (result = FirstCommit.date fc
        \/ FirstCommit.committerDate fc = Some result
        \/ FirstCommit.repoCreatedAt fc = Some result
        \/ result = GitHubUser.createdAt user).
Proof.
  assert (Heff : getEffectiveCommitDate fc = FirstCommit.date fc
                 \/ FirstCommit.committerDate fc = Some (getEffectiveCommitDate fc)).
  { unfold getEffectiveCommitDate.
    destruct (FirstCommit.committerDate fc) as [cd|]; [|auto].
    destruct (negb (Str.truthy cd)); [auto|].
    destruct (Num.gt _ _); auto. }
  unfold resolveProofDate.
  destruct (Num.lt (getTime (getEffectiveCommitDate fc)) _).
  - eexists; split; [reflexivity|].
    destruct (FirstCommit.repoCreatedAt fc); auto.
  - eexists; split; [reflexivity|].
    destruct (Num.lt _ _); [|auto]. destruct Heff; auto.
Qed.

(** X2. When the effective commit date and the account creation date parse
    and the repository creation date is not the empty string, the proof
    date parses too and is never earlier than both of them. *)
Theorem resolveProofDate_not_before_evidence (user : GitHubUser.t) (fc : FirstCommit.t)
  (commitTime accountTime : Z) :
  FirstCommit.repoCreatedAt fc <> Some "" ->
  Date_parse (getEffectiveCommitDate fc) = Some commitTime ->
  Date_parse (GitHubUser.createdAt user) = Some accountTime ->
  exists result proofTime,
    resolveProofDate user (Some fc) = Ret result
    /\ Date_parse result = Some proofTime
    /\ Z.min commitTime accountTime <= proofTime.
Proof.
  intros Hrepo Hc Ha. unfold resolveProofDate.
  rewrite (getTime_parsed _ Hc), (getTime_parsed _ Ha).
  destruct (FirstCommit.repoCreatedAt fc) as [r|].
  - destruct r as [|c r]; [congruence|]. cbn [Str.truthy].
    unfold getTime at 1.
    destruct (Date_parse (String c r)) as [tr|] eqn:Hr; simpl.
    + destruct (Z.ltb_spec commitTime tr).
      * exists (String c r), tr. repeat split; auto. lia.
      * destruct (Z.ltb_spec commitTime accountTime);
          eexists; eexists; (split; [reflexivity|]); split; eauto; lia.
    + destruct (Z.ltb_spec commitTime accountTime);
        eexists; eexists; (split; [reflexivity|]); split; eauto; lia.
  - simpl. exists (GitHubUser.createdAt user), accountTime. repeat split; auto. lia.
Qed.

(** X3. An author date that lies more than thirty days before the committer
    date has no say: the resolver answers as if the commit had been
    authored on its committer date. *)
Theorem resolveProofDate_ignores_backdated_author (user : GitHubUser.t)
  (fc : FirstCommit.t) (cd : string) :
  CommitterDriftExceeds fc cd ->
  resolveProofDate user (Some fc) = resolveProofDate user (Some (withAuthorDate fc cd)).
Proof.
  intros Hdrift.
  assert (Heff : getEffectiveCommitDate fc = cd).
  { unfold getEffectiveCommitDate, CommitterDriftExceeds in *.
    destruct Hdrift as (Hcd & ta & tc & Ha & Hc & Hgt).
    rewrite Hcd, (parsed_truthy _ Hc); simpl.
    rewrite (getTime_parsed _ Ha), (getTime_parsed _ Hc); simpl.
    unfold Num.gt; simpl.
    destruct (Z.ltb_spec THIRTY_DAYS_MS (tc - ta)); [reflexivity | lia]. }
  assert (Heff' : getEffectiveCommitDate (withAuthorDate fc cd) = cd).
  { unfold getEffectiveCommitDate, withAuthorDate; simpl.
    destruct Hdrift as (Hcd & _ & tc & _ & Hc & _).
    rewrite Hcd.
    repeat match goal with
           | |- context [if ?b then _ else _] => destruct b
           end; reflexivity. }
  unfold resolveProofDate. rewrite Heff, Heff'. reflexivity.
Qed.

(** X4. A commit date that does not parse loses every comparison: the
    resolver falls through both tests and answers with the account creation
    date, whatever the repository and account dates are. *)
Theorem resolveProofDate_unparseable_commit (user : GitHubUser.t) (fc : FirstCommit.t) :
  Date_parse (getEffectiveCommitDate fc) = None ->
  resolveProofDate user (Some fc) = Ret (GitHubUser.createdAt user).
Proof.
  intros Hc. unfold resolveProofDate.
  unfold getTime at 1 3. rewrite Hc. simpl. reflexivity.
Qed.

(** X5. The drift rule only ever moves a commit forward in time: when the
    author date parses, the effective commit date parses too and is not
    earlier than the author date, so the rule cannot make a commit look
    older than its author date says. *)
Theorem getEffectiveCommitDate_never_earlier (commit : FirstCommit.t) (authorTime : Z) :
  Date_parse (FirstCommit.date commit) = Some authorTime ->
  exists effectiveTime,
    Date_parse (getEffectiveCommitDate commit) = Some effectiveTime
    /\ authorTime <= effectiveTime.
Proof.
  intros Ha. unfold getEffectiveCommitDate.
  destruct (FirstCommit.committerDate commit) as [cd|];
    [|exists authorTime; split; [exact Ha | lia]].
  destruct (negb (Str.truthy cd)); [exists authorTime; split; [exact Ha | lia]|].
  rewrite (getTime_parsed _ Ha). unfold getTime.
  destruct (Date_parse cd) as [committerTime|] eqn:Hc;
    [|exists authorTime; split; [exact Ha | lia]].
  unfold Num.gt. simpl.
  destruct (Z.ltb_spec THIRTY_DAYS_MS (committerTime - authorTime)) as [Hgt|Hle].
  - exists committerTime. split; [exact Hc|]. unfold THIRTY_DAYS_MS in Hgt. lia.
  - exists authorTime. split; [exact Ha | lia].
Qed.

End ResolverEdges.

(** ** Verifier: the whole report *)

Section ReportShape.

Context {D : DateApi}.

Lemma forallb_of_map {A B : Type} (f : B -> bool) (g : A -> B) (l : list A) :
  forallb f (List.map g l) = forallb (fun a => f (g a)) l.
Proof. induction l as [|a l IH]; simpl; [reflexivity | rewrite IH; reflexivity]. Qed.

Lemma run_bind_inv {A B : Type} (w : World) (p : Prog A) (f : A -> Prog B) :
  forall reads, exists a reads',
    fst (run w reads (bind p f)) = fst (run w reads' (f a)).
Proof.
  induction p as [a|k IH|r s tok k IH]; intros reads.
  - exists a, reads. reflexivity.
  - destruct (IH (clock w reads) (S reads)) as (a & reads' & E).
    exists a, reads'. rewrite <- E. simpl.
    destruct (run w (S reads) (bind (k (clock w reads)) f)). reflexivity.
  - destruct (IH (fetchCommit w r s tok) reads) as (a & reads' & E).
    exists a, reads'. rewrite <- E. simpl.
    destruct (run w reads (bind (k (fetchCommit w r s tok)) f)). reflexivity.
Qed.

(** Moves the binding at the head of the program being run into the
    context: a list of results stays a name, anything else is put in. *)
Ltac run_let :=
  lazymatch goal with
  | |- context G [run ?w ?n ?p] =>
      lazymatch p with
      | (let x := ?v in @?b x) =>
          lazymatch type of v with
          | list VerifyResult.t =>
              let x' := fresh x in
              pose (x' := v);
              let t := eval cbv beta in (b x') in
              let g := context G [run w n t] in
              change g
          | _ =>
              let t := eval cbv beta in (b v) in
              let g := context G [run w n t] in
              change g
          end
      end
  end.

(** Runs the program up to the continuation of the binding at its head. *)
Ltac run_bind a :=
  lazymatch goal with
  | |- context [run ?w ?n (bind ?p ?f)] =>
      let reads' := fresh "reads" in
      let E := fresh "E" in
      destruct (run_bind_inv w p f n) as (a & reads' & E);
      rewrite E; clear E; cbv beta
  end.

(** A report is built from one list of checks. *)
Lemma report_of_checks (cert : Certificate.t) (hashFn : HashFn)
  (token : option string) (w : World) (reads : nat) :
  exists checks,
    fst (run w reads (verifyCertificateData cert hashFn token))
    = {| VerifyCertificateResult.valid := forallb VerifyResult.passed checks;
         VerifyCertificateResult.results := checks;
         VerifyCertificateResult.certificateNumber := Certificate.certificateNumber cert;
         VerifyCertificateResult.username :=
           CertificateIdentity.username (Certificate.identity cert) |}.
Proof.
  cbv delta [verifyCertificateData]; cbv beta.
  repeat run_let. run_bind expected.
  repeat run_let. run_bind checks.
  exists checks. reflexivity.
Qed.

(** The verdict of the run is the conjunction of the verdicts listed. *)
Lemma valid_is_all_verdicts (cert : Certificate.t) (hashFn : HashFn)
  (token : option string) (w : World) (reads : nat) :
  let r := fst (run w reads (verifyCertificateData cert hashFn token)) in
  VerifyCertificateResult.valid r = forallb snd (verdicts r).
Proof.
  intros r. subst r.
  destruct (report_of_checks cert hashFn token w reads) as [checks ->].
  unfold verdicts. rewrite forallb_of_map. reflexivity.
Qed.

(** The report without a commit. *)
Lemma verdicts_without_commit (cert : Certificate.t) (hashFn : HashFn)
  (token : option string) (w : World) (reads : nat) :
  FirstCommit.sha (CertificateProof.firstCommit (Certificate.proof cert)) = "" ->
  verdicts (fst (run w reads (verifyCertificateData cert hashFn token)))
  = baseVerdicts hashFn cert (Date_toISOString (clock w reads)).
Proof.
  intros Hsha.
  cbv delta [verifyCertificateData]; cbv beta.
  repeat run_let. rewrite Hsha. reflexivity.
Qed.

Lemma fst_run_await {A B : Type} (w : World) (reads : nat) (r s : string)
  (tok : option string) (k : Outcome CommitDetail.t -> Prog A) (f : A -> Prog B) :
  fst (run w reads (bind (AwaitFetchCommit r s tok k) f))
  = fst (run w reads (bind (k (fetchCommit w r s tok)) f)).
Proof. simpl. destruct (run w reads (bind (k (fetchCommit w r s tok)) f)). reflexivity. Qed.

(** The report with a commit, fetched or not. *)
Lemma verdicts_with_commit (cert : Certificate.t) (hashFn : HashFn)
  (token : option string) (w : World) (reads : nat) :
  let fc := CertificateProof.firstCommit (Certificate.proof cert) in
  FirstCommit.sha fc <> "" ->
  exists expected,
    resolveProofDate (reconstructedUser cert) (Some fc) = Ret expected
    /\ verdicts (fst (run w reads (verifyCertificateData cert hashFn token)))
       = (baseVerdicts hashFn cert expected
          ++ match fetchCommit w (FirstCommit.repo fc) (FirstCommit.sha fc) token with
             | Resolved detail => commitVerdicts cert detail
             | Rejected _ => [("Commit verification", false)]
             end)%list.
Proof.
  intros fc Hsha.
  destruct (resolveProofDate_commit_pure (reconstructedUser cert) fc)
    as [expected Hexpected].
  exists expected. split; [exact Hexpected|].
  unfold reconstructedUser in Hexpected.
  pose proof (truthy_nonempty Hsha) as Htruthy.
  cbv delta [verifyCertificateData]; cbv beta.
  repeat run_let.
  fold fc. 
  rewrite Htruthy, Hexpected.
  change (bind (Ret expected) ?f) with (f expected). cbv beta.
  repeat run_let.
  rewrite fst_run_await.

  destruct (fetchCommit w (FirstCommit.repo fc) (FirstCommit.sha fc) token)
    as [detail|err]; [|reflexivity].
  destruct detail as [sha authorLogin committerLogin authorEmail authorDate
                        committerDate authorId reason isRoot message verified].
  destruct authorId as [authorId|];
    destruct authorDate as [[|a authorDate]|];
    destruct committerDate as [[|c committerDate]|];
    destruct isRoot; destruct verified; reflexivity.
Qed.

Lemma checkNames_of_verdicts (r : VerifyCertificateResult.t) :
  checkNames r = List.map fst (verdicts r).
Proof. unfold checkNames, verdicts. rewrite List.map_map. reflexivity. Qed.

Lemma EraKey_eqb_eq (a b : EraKey) : EraKey_eqb a b = true <-> a = b.
Proof. destruct a, b; simpl; split; congruence. Qed.

(** Splits on everything the list of commit checks branches on. *)
Ltac commit_cases detail :=
  unfold commitVerdicts;
  destruct (CommitDetail.authorId detail);
  destruct (CommitDetail.authorDate detail) as [?authorDate|];
  destruct (CommitDetail.committerDate detail) as [?committerDate|];
  try match goal with
      | |- context [(Str.truthy ?a && Str.truthy ?c)%bool] =>
          destruct (Str.truthy a && Str.truthy c)%bool
      end;
  destruct (CommitDetail.isRootCommit detail);
  destruct (CommitDetail.verified detail).

(** The verdicts of a run, whatever the certificate holds. *)
Lemma verdicts_cases (cert : Certificate.t) (hashFn : HashFn)
  (token : option string) (w : World) (reads : nat) :
  let fc := CertificateProof.firstCommit (Certificate.proof cert) in
  exists expected,
    verdicts (fst (run w reads (verifyCertificateData cert hashFn token)))
    = (baseVerdicts hashFn cert expected
       ++ if Str.truthy (FirstCommit.sha fc) then
            match fetchCommit w (FirstCommit.repo fc) (FirstCommit.sha fc) token with
            | Resolved detail => commitVerdicts cert detail
            | Rejected _ => [("Commit verification", false)]
            end
          else [])%list.
Proof.
  intros fc.
  destruct (FirstCommit.sha fc) as [|c s] eqn:Hsha.
  - exists (Date_toISOString (clock w reads)).
    rewrite (verdicts_without_commit cert hashFn token w reads Hsha).
    reflexivity.
  - assert (Hne : FirstCommit.sha fc <> "") by (rewrite Hsha; discriminate).
    destruct (verdicts_with_commit cert hashFn token w reads Hne)
      as (expected & _ & Heq).
    exists expected. fold fc in Heq. rewrite Hsha in Heq. exact Heq.
Qed.


(** X6. Three checks only inform: "Repo ownership", "Root commit" and "GPG
    signature" are never reported as failed, so a commit in somebody else's
    repository, a commit with parents or an unsigned commit does not make a
    certificate invalid; the verdict of the run is the conjunction of the
    other checks. *)
Theorem verify_informational_checks_never_fail (cert : Certificate.t)
  (hashFn : HashFn) (token : option string) (w : World) (reads : nat) :
  let r := fst (run w reads (verifyCertificateData cert hashFn token)) in
  (forall name passed,
     In (name, passed) (verdicts r) -> isInformational name = true -> passed = true)
  /\ VerifyCertificateResult.valid r
     = forallb (fun v => (isInformational (fst v) || snd v)%bool) (verdicts r).
Proof.
  intros r.
  assert (Hall : forallb (fun v => implb (isInformational (fst v)) (snd v)) (verdicts r)
                 = true).
  { subst r.
    destruct (verdicts_cases cert hashFn token w reads) as (expected & ->).
    rewrite forallb_app. apply andb_true_intro. split; [reflexivity|].
    destruct (Str.truthy _); [|reflexivity].
    destruct (fetchCommit w _ _ token) as [detail|err]; [|reflexivity].
    commit_cases detail; reflexivity. }
  split.
  - intros name passed Hin Hinfo.
    rewrite forallb_forall in Hall. specialize (Hall _ Hin). simpl in Hall.
    rewrite Hinfo in Hall. exact Hall.
  - subst r. rewrite valid_is_all_verdicts.
    set (l := verdicts _) in *. clearbody l.
    induction l as [|[name passed] l IH]; [reflexivity|].
    simpl in *. apply andb_prop in Hall. destruct Hall as [H1 H2].
    rewrite (IH H2). destruct (isInformational name); simpl in *; [|reflexivity].
    rewrite H1. reflexivity.
Qed.

(** X7. The names of a report come in one fixed order and none comes
    twice: they are the eleven names of the verifier with some left out, and
    the first three are always the checks on stored data. *)
Theorem verify_check_names_in_fixed_order (cert : Certificate.t)
  (hashFn : HashFn) (token : option string) (w : World) (reads : nat) :
  let r := fst (run w reads (verifyCertificateData cert hashFn token)) in
  isSubsequence (checkNames r) allCheckNames = true
  /\ firstn 3 (checkNames r) = ["Hash integrity"; "Era classification"; "Proof date"].
Proof.
  intros r. subst r. rewrite checkNames_of_verdicts.
  destruct (verdicts_cases cert hashFn token w reads) as (expected & ->).
  destruct (Str.truthy _); [|split; reflexivity].
  destruct (fetchCommit w _ _ token) as [detail|err]; [|split; reflexivity].
  commit_cases detail; split; reflexivity.
Qed.

(** X8. What "valid" means for a certificate with a commit: the stored hash
    is the recomputed one, the era is the one of the proof date, the proof
    date is within a minute of what the resolver gives for the stored
    commit, the commit could be fetched, it names the user, its author id
    (when GitHub gives one) is the certificate's, its author date is within
    a minute of the stored one, and its author and committer dates (when
    both are there) are at most thirty days apart. *)
Theorem verify_valid_with_commit_iff (cert : Certificate.t) (hashFn : HashFn)
  (token : option string) (w : World) (reads : nat) (expected : string) :
  let fc := CertificateProof.firstCommit (Certificate.proof cert) in
  let proofDate := CertificateProof.proofDate (Certificate.proof cert) in
  let r := fst (run w reads (verifyCertificateData cert hashFn token)) in
  FirstCommit.sha fc <> "" ->
  resolveProofDate (reconstructedUser cert) (Some fc) = Ret expected ->
  VerifyCertificateResult.valid r = true
  <-> hashMatches hashFn cert = true
      /\ Certificate.era cert = classifyEra proofDate
      /\ withinMinute expected proofDate = true
      /\ exists detail,
           fetchCommit w (FirstCommit.repo fc) (FirstCommit.sha fc) token = Resolved detail
           /\ identityMatches cert detail = true
           /\ (forall id, CommitDetail.authorId detail = Some id ->
                 id = CertificateIdentity.githubId (Certificate.identity cert))
           /\ withinMinute (Str.orEmpty (CommitDetail.authorDate detail))
                (FirstCommit.date fc) = true
           /\ (forall a c,
                 CommitDetail.authorDate detail = Some a ->
                 CommitDetail.committerDate detail = Some c ->
                 a <> "" -> c <> "" ->
                 driftWithinThirtyDays a c = true).
Proof.
  intros fc proofDate r Hsha Hexpected. subst r.
  rewrite valid_is_all_verdicts.
  destruct (verdicts_with_commit cert hashFn token w reads Hsha)
    as (expected' & Hexpected' & ->).
  fold fc in Hexpected'. rewrite Hexpected in Hexpected'.
  injection Hexpected' as <-.
  rewrite forallb_app. unfold baseVerdicts. cbn [forallb snd].
  fold proofDate fc.
  rewrite !andb_true_iff, EraKey_eqb_eq.
  split.
  - intros ((Hh & He & Hp & _) & Hcommit).
    split; [exact Hh|]. split; [exact He|]. split; [exact Hp|].
    destruct (fetchCommit w _ _ token) as [detail|err]; [|discriminate].
    exists detail. split; [reflexivity|].
    unfold commitVerdicts in Hcommit.
    rewrite !forallb_app in Hcommit. cbn [forallb snd] in Hcommit.
    rewrite !andb_true_iff in Hcommit.
    destruct Hcommit as ((Hid & _) & Hgid & (Hdate & _) & Hdrift & _).
    split; [exact Hid|]. split; [|split; [exact Hdate|]].
    + intros id Hsome. rewrite Hsome in Hgid. simpl in Hgid.
      rewrite andb_true_r in Hgid. apply Z.eqb_eq in Hgid. exact Hgid.
    + intros a c Ha Hc Hane Hcne. rewrite Ha, Hc in Hdrift.
      rewrite (truthy_nonempty Hane), (truthy_nonempty Hcne) in Hdrift.
      simpl in Hdrift. rewrite andb_true_r in Hdrift. exact Hdrift.
  - intros (Hh & He & Hp & detail & Hfetch & Hid & Hgid & Hdate & Hdrift).
    split; [auto|]. rewrite Hfetch.
    unfold commitVerdicts.
    rewrite !forallb_app. cbn [forallb snd].
    rewrite !andb_true_iff.
    split; [auto|]. split; [|split; [auto|split]].
    + destruct (CommitDetail.authorId detail) as [id|]; [|reflexivity].
      simpl. rewrite (Hgid id eq_refl), Z.eqb_refl. reflexivity.
    + destruct (CommitDetail.authorDate detail) as [a|]; [|reflexivity].
      destruct (CommitDetail.committerDate detail) as [c|]; [|reflexivity].
      destruct a as [|a0 a]; [reflexivity|].
      destruct c as [|c0 c]; [reflexivity|].
      simpl. rewrite (Hdrift _ _ eq_refl eq_refl); [reflexivity|discriminate|discriminate].
    + destruct (CommitDetail.isRootCommit detail), (CommitDetail.verified detail);
        split; reflexivity.
Qed.

End ReportShape.

(** ** Issuing a certificate, then verifying it *)

Section IssueAndVerify.

Context {D : DateApi}.

(** The certificate the builder makes for a commit, field by field. *)
Lemma createCertificate_with_commit (hashFn : HashFn) (user : GitHubUser.t)
  (fc : FirstCommit.t) (w : World) (reads : nat) (proofDate : string) :
  resolveProofDate user (Some fc) = Ret proofDate ->
  run w reads (createCertificate hashFn user (Some fc))
  = ({| Certificate.version := CERTIFICATE_VERSION;
        Certificate.type := "LASTGEN_CERTIFICATE";
        Certificate.identity := {|
          CertificateIdentity.username := GitHubUser.login user;
          CertificateIdentity.githubId := GitHubUser.id user;
          CertificateIdentity.name := GitHubUser.name user |};
        Certificate.proof := {|
          CertificateProof.accountCreated := GitHubUser.createdAt user;
          CertificateProof.firstCommit := fc;
          CertificateProof.proofDate := proofDate |};
        Certificate.era := classifyEra proofDate;
        Certificate.verification := {|
          CertificateVerification.hash :=
            "sha256:" ++ generateCertificateHash hashFn (GitHubUser.login user)
                           (GitHubUser.id user) proofDate (classifyEra proofDate);
          CertificateVerification.salt := CERTIFICATE_SALT |};
        Certificate.certificateNumber :=
          generateCertificateNumber
            (generateCertificateHash hashFn (GitHubUser.login user)
               (GitHubUser.id user) proofDate (classifyEra proofDate));
        Certificate.issuedAt := Date_toISOString (clock w reads) |},
     [ClockRead (clock w reads)]).
Proof. intros H. unfold createCertificate. rewrite H. reflexivity. Qed.

(** Of the user the resolver reads the creation date and nothing else. *)
Lemma resolveProofDate_reads_createdAt (u1 u2 : GitHubUser.t)
  (firstCommit : option FirstCommit.t) :
  GitHubUser.createdAt u1 = GitHubUser.createdAt u2 ->
  resolveProofDate u1 firstCommit = resolveProofDate u2 firstCommit.
Proof.
  intros H. destruct firstCommit as [fc|]; [|reflexivity].
  unfold resolveProofDate. rewrite H. reflexivity.
Qed.

Lemma withinMinute_self (s : string) : withinMinute s s = parses s.
Proof.
  unfold withinMinute, parses, getTime.
  destruct (Date_parse s) as [t|]; [|reflexivity].
  simpl. rewrite Z.sub_diag. reflexivity.
Qed.

Lemma classifyEra_unparsed (s : string) :
  Date_parse s = None -> classifyEra s = AI_NATIVE.
Proof. intros H. unfold classifyEra, getTime. rewrite H. destruct (match Date_parse CUTOFF_DATE with Some t => Fin t | None => NaN end); reflexivity. Qed.

(** A failed check makes the run invalid. *)
Lemma failed_check_invalid (cert : Certificate.t) (hashFn : HashFn)
  (token : option string) (w : World) (reads : nat) (name : string) :
  In (name, false) (verdicts (fst (run w reads (verifyCertificateData cert hashFn token)))) ->
  VerifyCertificateResult.valid (fst (run w reads (verifyCertificateData cert hashFn token)))
  = false.
Proof.
  intros Hin. rewrite valid_is_all_verdicts.
  destruct (forallb snd _) eqn:Hall; [|reflexivity].
  rewrite forallb_forall in Hall. specialize (Hall _ Hin). discriminate Hall.
Qed.

(** X9. With a commit the builder is deterministic up to the time of
    issue: it reads the clock once, for [issuedAt], fetches nothing, and
    two runs in any two worlds give certificates that differ at most in
    [issuedAt]; in particular the hash and the certificate number of a user
    with a commit do not depend on when the certificate is made. *)
Theorem createCertificate_with_commit_deterministic (hashFn : HashFn)
  (user : GitHubUser.t) (fc : FirstCommit.t) (w1 w2 : World) (reads1 reads2 : nat) :
  let r1 := run w1 reads1 (createCertificate hashFn user (Some fc)) in
  let r2 := run w2 reads2 (createCertificate hashFn user (Some fc)) in
  snd r1 = [ClockRead (clock w1 reads1)]
  /\ Certificate.issuedAt (fst r1) = Date_toISOString (clock w1 reads1)
  /\ SameButIssuedAt (fst r1) (fst r2).
Proof.
  intros r1 r2. subst r1 r2.
  destruct (resolveProofDate_commit_pure user fc) as [proofDate Hpd].
  rewrite !(createCertificate_with_commit hashFn user fc _ _ Hpd).
  split; [reflexivity|]. split; [reflexivity|].
  repeat split.
Qed.

(** The three checks on stored data, for a certificate the builder made
    for a commit. *)
Lemma issued_base_verdicts (hashFn : HashFn) (user : GitHubUser.t)
  (fc : FirstCommit.t) (w0 : World) (reads0 : nat) (proofDate : string) :
  let cert := fst (run w0 reads0 (createCertificate hashFn user (Some fc))) in
  resolveProofDate user (Some fc) = Ret proofDate ->
  resolveProofDate (reconstructedUser cert)
    (Some (CertificateProof.firstCommit (Certificate.proof cert))) = Ret proofDate
  /\ baseVerdicts hashFn cert proofDate
     = [("Hash integrity", true); ("Era classification", true);
        ("Proof date", parses proofDate)].
Proof.
  intros cert Hpd. subst cert.
  rewrite (createCertificate_with_commit hashFn user fc w0 reads0 Hpd).
  cbn [fst]. split.
  - rewrite <- Hpd. apply resolveProofDate_reads_createdAt. reflexivity.
  - unfold baseVerdicts, hashMatches, recomputedHash.
    cbn [Certificate.identity Certificate.proof Certificate.era
         Certificate.verification CertificateIdentity.username
         CertificateIdentity.githubId CertificateProof.proofDate
         CertificateVerification.hash].
    rewrite replace_sha256_prefix, String.eqb_refl, withinMinute_self.
    destruct (classifyEra proofDate); reflexivity.
Qed.

(** The report on a certificate the builder made for a commit opens with
    these three verdicts. *)
Lemma issued_report_opening (hashFn : HashFn)
  (user : GitHubUser.t) (fc : FirstCommit.t) (w0 w : World) (reads0 reads : nat)
  (token : option string) :
  let cert := fst (run w0 reads0 (createCertificate hashFn user (Some fc))) in
  FirstCommit.sha fc <> "" ->
  exists others,
    verdicts (fst (run w reads (verifyCertificateData cert hashFn token)))
    = ([("Hash integrity", true); ("Era classification", true);
        ("Proof date", parses (CertificateProof.proofDate (Certificate.proof cert)))]
       ++ others)%list.
Proof.
  intros cert Hsha.
  destruct (resolveProofDate_commit_pure user fc) as [proofDate Hpd].
  destruct (issued_base_verdicts hashFn user fc w0 reads0 Hpd) as [Hre Hbase].
  fold cert in Hre, Hbase.
  assert (Hfc : CertificateProof.firstCommit (Certificate.proof cert) = fc).
  { subst cert. rewrite (createCertificate_with_commit hashFn user fc w0 reads0 Hpd).
    reflexivity. }
  assert (Hdate : CertificateProof.proofDate (Certificate.proof cert) = proofDate).
  { subst cert. rewrite (createCertificate_with_commit hashFn user fc w0 reads0 Hpd).
    reflexivity. }
  assert (Hsha' : FirstCommit.sha (CertificateProof.firstCommit (Certificate.proof cert))
                  <> "") by (rewrite Hfc; exact Hsha).
  destruct (verdicts_with_commit cert hashFn token w reads Hsha')
    as (expected & Hexpected & ->).
  rewrite Hre in Hexpected. injection Hexpected as <-.
  rewrite Hbase, Hdate. eexists. reflexivity.
Qed.

(** X10. A certificate the builder made for a commit passes "Hash
    integrity" and "Era classification" whenever and wherever it is
    verified with the same hash function, and it passes "Proof date"
    exactly when its proof date is a string that parses. *)
Theorem issued_certificate_stored_data_checks (hashFn : HashFn)
  (user : GitHubUser.t) (fc : FirstCommit.t) (w0 w : World) (reads0 reads : nat)
  (token : option string) :
  let cert := fst (run w0 reads0 (createCertificate hashFn user (Some fc))) in
  FirstCommit.sha fc <> "" ->
  firstn 3 (verdicts (fst (run w reads (verifyCertificateData cert hashFn token))))
  = [("Hash integrity", true); ("Era classification", true);
     ("Proof date", parses (CertificateProof.proofDate (Certificate.proof cert)))].
Proof.
  intros cert Hsha.
  destruct (issued_report_opening hashFn user fc w0 w reads0 reads token Hsha)
    as (others & Hopening).
  fold cert in Hopening. rewrite Hopening.
  reflexivity.
Qed.

(** X11. An empty string for the repository creation date is not taken as
    a missing one by the second test of the resolver: when the commit date
    parses, the proof date of the certificate is the empty string, the era
    is AI_NATIVE however old the commit is, and the certificate fails
    "Proof date" at every verification. *)
Theorem createCertificate_empty_repo_date (hashFn : HashFn) (user : GitHubUser.t)
  (fc : FirstCommit.t) (commitTime : Z) (w0 w : World) (reads0 reads : nat)
  (token : option string) :
  let cert := fst (run w0 reads0 (createCertificate hashFn user (Some fc))) in
  let r := fst (run w reads (verifyCertificateData cert hashFn token)) in
  FirstCommit.repoCreatedAt fc = Some "" ->
  Date_parse (getEffectiveCommitDate fc) = Some commitTime ->
  FirstCommit.sha fc <> "" ->
  CertificateProof.proofDate (Certificate.proof cert) = ""
  /\ Certificate.era cert = AI_NATIVE
  /\ In ("Proof date", false) (verdicts r)
  /\ VerifyCertificateResult.valid r = false.
Proof.
  intros cert r Hrepo Hcommit Hsha.
  assert (Hpd : resolveProofDate user (Some fc) = Ret "").
  { unfold resolveProofDate. rewrite Hrepo, (getTime_parsed _ Hcommit). reflexivity. }
  pose proof (createCertificate_with_commit hashFn user fc w0 reads0 Hpd) as Hcert.
  assert (Hdate : CertificateProof.proofDate (Certificate.proof cert) = "").
  { subst cert. rewrite Hcert. reflexivity. }
  assert (Hera : Certificate.era cert = AI_NATIVE).
  { subst cert. rewrite Hcert. cbn [fst Certificate.era].
    apply classifyEra_unparsed, Date_parse_empty. }
  assert (Hin : In ("Proof date", false) (verdicts r)).
  { destruct (issued_report_opening hashFn user fc w0 w reads0 reads token Hsha)
      as (others & Hopening).
    fold cert in Hopening. rewrite Hdate in Hopening.
    unfold parses in Hopening. rewrite Date_parse_empty in Hopening.
    subst r. rewrite Hopening. simpl. auto. }
  split; [exact Hdate|]. split; [exact Hera|]. split; [exact Hin|].
  exact (failed_check_invalid _ _ _ _ _ _ Hin).
Qed.

(** X12. An honest round trip.  A certificate the builder made for a
    commit is valid when it is verified, with the same hash function,
    against a data source that reports the commit as it was stored:
    authored by the user's login, with the same author and committer
    dates, no more than thirty days apart, and the user's id if any;
    provided the author date and the proof date parse. *)
Theorem issued_certificate_verifies (hashFn : HashFn) (user : GitHubUser.t)
  (fc : FirstCommit.t) (detail : CommitDetail.t) (authorTime : Z)
  (w0 w : World) (reads0 reads : nat) (token : option string) :
  let cert := fst (run w0 reads0 (createCertificate hashFn user (Some fc))) in
  FirstCommit.sha fc <> "" ->
  parses (CertificateProof.proofDate (Certificate.proof cert)) = true ->
  Date_parse (FirstCommit.date fc) = Some authorTime ->
  fetchCommit w (FirstCommit.repo fc) (FirstCommit.sha fc) token = Resolved detail ->
  CommitDetail.authorLogin detail = Some (GitHubUser.login user) ->
  (forall id, CommitDetail.authorId detail = Some id -> id = GitHubUser.id user) ->
  CommitDetail.authorDate detail = Some (FirstCommit.date fc) ->
  (forall cd, CommitDetail.committerDate detail = Some cd -> cd <> "" ->
     exists committerTime,
       Date_parse cd = Some committerTime
       /\ Z.abs (committerTime - authorTime) <= THIRTY_DAYS_MS) ->
  VerifyCertificateResult.valid
    (fst (run w reads (verifyCertificateData cert hashFn token))) = true.
Proof.
  intros cert Hsha Hparses Hauthor Hfetch Hlogin Hid Hdate Hdrift.
  destruct (resolveProofDate_commit_pure user fc) as [proofDate Hpd].
  destruct (issued_base_verdicts hashFn user fc w0 reads0 Hpd) as [Hre Hbase].
  pose proof (createCertificate_with_commit hashFn user fc w0 reads0 Hpd) as Hcert.
  fold cert in Hre, Hbase.
  assert (Hfc : CertificateProof.firstCommit (Certificate.proof cert) = fc)
    by (subst cert; rewrite Hcert; reflexivity).
  assert (Hpdate : CertificateProof.proofDate (Certificate.proof cert) = proofDate)
    by (subst cert; rewrite Hcert; reflexivity).
  assert (Huser : CertificateIdentity.username (Certificate.identity cert)
                  = GitHubUser.login user)
    by (subst cert; rewrite Hcert; reflexivity).
  assert (Hgid : CertificateIdentity.githubId (Certificate.identity cert)
                 = GitHubUser.id user)
    by (subst cert; rewrite Hcert; reflexivity).
  assert (Hsha' : FirstCommit.sha (CertificateProof.firstCommit (Certificate.proof cert))
                  <> "") by (rewrite Hfc; exact Hsha).
  rewrite valid_is_all_verdicts.
  destruct (verdicts_with_commit cert hashFn token w reads Hsha')
    as (expected & Hexpected & ->).
  rewrite Hre in Hexpected. injection Hexpected as <-.
  rewrite Hbase, Hfc, Hfetch. rewrite Hpdate in Hparses. rewrite Hparses.
  clearbody cert.
  unfold commitVerdicts, identityMatches.
  rewrite Hlogin, Huser, Hgid, Hdate, Hfc.
  cbn [Str.orEmpty]. rewrite String.eqb_refl.
  assert (Hclose : withinMinute (FirstCommit.date fc) (FirstCommit.date fc) = true).
  { rewrite withinMinute_self. unfold parses. rewrite Hauthor. reflexivity. }
  rewrite Hclose.
  rewrite !forallb_app. cbn [forallb snd orb andb].
  rewrite !andb_true_iff. repeat split.
  - destruct (CommitDetail.authorId detail) as [id|]; [|reflexivity].
    rewrite (Hid id eq_refl). simpl. rewrite Z.eqb_refl. reflexivity.
  - destruct (CommitDetail.committerDate detail) as [cd|]; [|reflexivity].
    destruct (Str.truthy (FirstCommit.date fc) && Str.truthy cd)%bool eqn:Hboth;
      [|reflexivity].
    apply andb_prop in Hboth. destruct Hboth as [_ Hcd].
    assert (Hne : cd <> "") by (destruct cd; [discriminate | discriminate]).
    destruct (Hdrift cd eq_refl Hne) as (committerTime & Hc & Habs).
    unfold driftWithinThirtyDays.
    rewrite (getTime_parsed _ Hc), (getTime_parsed _ Hauthor). simpl.
    rewrite andb_true_r. apply negb_true_iff, Z.ltb_ge. exact Habs.
  - destruct (CommitDetail.isRootCommit detail); reflexivity.
  - destruct (CommitDetail.verified detail); reflexivity.
Qed.

(** X13. Drift beyond thirty days, either way, ends in an invalid
    certificate.  The resolver looks at committer date minus author date
    and takes the committer date when that exceeds thirty days; a
    committer date that much before the author date leaves the author date
    in place.  The verifier looks at the distance between the two dates:
    once GitHub reports them, "Date consistency" fails in both cases, and
    with it the certificate. *)
Theorem verify_rejects_drift_beyond_thirty_days (cert : Certificate.t)
  (hashFn : HashFn) (token : option string) (w : World) (reads : nat)
  (detail : CommitDetail.t) (cd : string) (authorTime committerTime : Z) :
  let fc := CertificateProof.firstCommit (Certificate.proof cert) in
  let r := fst (run w reads (verifyCertificateData cert hashFn token)) in
  FirstCommit.sha fc <> "" ->
  FirstCommit.committerDate fc = Some cd ->
  Date_parse (FirstCommit.date fc) = Some authorTime ->
  Date_parse cd = Some committerTime ->
  THIRTY_DAYS_MS < Z.abs (committerTime - authorTime) ->
  fetchCommit w (FirstCommit.repo fc) (FirstCommit.sha fc) token = Resolved detail ->
  CommitDetail.authorDate detail = Some (FirstCommit.date fc) ->
  CommitDetail.committerDate detail = Some cd ->
  getEffectiveCommitDate fc
    = (if authorTime <? committerTime then cd else FirstCommit.date fc)
  /\ In ("Date consistency", false) (verdicts r)
  /\ VerifyCertificateResult.valid r = false.
Proof.
  intros fc r Hsha Hcd Ha Hc Hgap Hfetch Had Hcdd.
  assert (Heff : getEffectiveCommitDate fc
                 = if authorTime <? committerTime then cd else FirstCommit.date fc).
  { unfold getEffectiveCommitDate. rewrite Hcd.
    rewrite (getTime_parsed _ Ha), (getTime_parsed _ Hc), (parsed_truthy _ Hc).
    unfold Num.gt. simpl.
    destruct (Z.ltb_spec THIRTY_DAYS_MS (committerTime - authorTime));
      destruct (Z.ltb_spec authorTime committerTime);
      first [reflexivity | unfold THIRTY_DAYS_MS in *; lia]. }
  assert (Hin : In ("Date consistency", false) (verdicts r)).
  { subst r.
    destruct (verdicts_with_commit cert hashFn token w reads Hsha)
      as (expected & _ & ->).
    fold fc. rewrite Hfetch. apply in_or_app. right.
    unfold commitVerdicts. rewrite Had, Hcdd.
    rewrite (parsed_truthy _ Ha), (parsed_truthy _ Hc). cbn [andb].
    assert (Hd : driftWithinThirtyDays (FirstCommit.date fc) cd = false).
    { unfold driftWithinThirtyDays.
      rewrite (getTime_parsed _ Ha), (getTime_parsed _ Hc). simpl.
      apply negb_false_iff, Z.ltb_lt. exact Hgap. }
    rewrite Hd.
    destruct (CommitDetail.authorId detail); simpl; auto 10. }
  split; [exact Heff|]. split; [exact Hin|].
  exact (failed_check_invalid _ _ _ _ _ _ Hin).
Qed.

(** X14. What the verifier never looks at.  The version, the type tag, the
    display name, the commit message, the stored salt, the certificate
    number and the time of issue take no part in any check: a certificate
    with other values there gets the same names and verdicts. *)
Theorem verify_ignores_unchecked_fields (cert : Certificate.t) (hashFn : HashFn)
  (token : option string) (w : World) (reads : nat)
  (version type : string) (name : option string)
  (message salt certificateNumber issuedAt : string) :
  let cert' := withUncheckedFields cert version type name message salt
                 certificateNumber issuedAt in
  verdicts (fst (run w reads (verifyCertificateData cert' hashFn token)))
  = verdicts (fst (run w reads (verifyCertificateData cert hashFn token))).
Proof.
  intros cert'.
  destruct (FirstCommit.sha (CertificateProof.firstCommit (Certificate.proof cert)))
    as [|c s] eqn:Hsha.
  - rewrite (verdicts_without_commit cert hashFn token w reads Hsha).
    rewrite (verdicts_without_commit cert' hashFn token w reads Hsha).
    reflexivity.
  - assert (Hne : FirstCommit.sha (CertificateProof.firstCommit (Certificate.proof cert))
                  <> "") by (rewrite Hsha; discriminate).
    destruct (verdicts_with_commit cert hashFn token w reads Hne)
      as (expected & Hexpected & ->).
    destruct (verdicts_with_commit cert' hashFn token w reads Hne)
      as (expected' & Hexpected' & ->).
    assert (Hsame : expected' = expected).
    { assert (H : Ret expected' = Ret expected :> Prog string).
      { rewrite <- Hexpected, <- Hexpected'. reflexivity. }
      injection H as H. exact H. }
    rewrite Hsame. reflexivity.
Qed.

End IssueAndVerify.

(** ** Identity: the noreply address *)

Section NoreplyEmail.









End NoreplyEmail.

(** ** The properties above at sample inputs *)

Lemma resolveProofDate_not_before_evidence_witness :
  FirstCommit.repoCreatedAt Sample.early <> Some ""
  /\ Date_parse (DateApi := isoDate) (getEffectiveCommitDate (D := isoDate) Sample.early)
     = Some 1559347200000
  /\ Date_parse (DateApi := isoDate) (GitHubUser.createdAt Sample.alice)
     = Some 1577836800000
  /\ exists result proofTime,
       resolveProofDate (D := isoDate) Sample.alice (Some Sample.early) = Ret result
       /\ Date_parse (DateApi := isoDate) result = Some proofTime
       /\ Z.min 1559347200000 1577836800000 <= proofTime.
Proof.
  assert (Hrepo : FirstCommit.repoCreatedAt Sample.early <> Some "") by discriminate.
  assert (Hc : Date_parse (DateApi := isoDate)
                 (getEffectiveCommitDate (D := isoDate) Sample.early)
               = Some 1559347200000) by reflexivity.
  assert (Ha : Date_parse (DateApi := isoDate) (GitHubUser.createdAt Sample.alice)
               = Some 1577836800000) by reflexivity.
  split; [exact Hrepo|]. split; [exact Hc|]. split; [exact Ha|].
  exact (@resolveProofDate_not_before_evidence isoDate Sample.alice Sample.early
           _ _ Hrepo Hc Ha).
Defined.

Lemma resolveProofDate_ignores_backdated_author_witness :
  CommitterDriftExceeds (D := isoDate) Sample.forged "2024-06-01T00:00:00Z"
  /\ resolveProofDate (D := isoDate) Sample.alice (Some Sample.forged)
     = resolveProofDate (D := isoDate) Sample.alice
         (Some (withAuthorDate Sample.forged "2024-06-01T00:00:00Z")).
Proof.
  assert (H : CommitterDriftExceeds (D := isoDate) Sample.forged "2024-06-01T00:00:00Z").
  { split; [reflexivity|].
    exists 1420070400000, 1717200000000.
    split; [reflexivity|]. split; [reflexivity|]. vm_compute; reflexivity. }
  split; [exact H|].
  exact (@resolveProofDate_ignores_backdated_author isoDate Sample.alice Sample.forged _ H).
Defined.

Lemma getEffectiveCommitDate_never_earlier_witness :
  Date_parse (DateApi := isoDate) (FirstCommit.date Sample.forged) = Some 1420070400000
  /\ exists effectiveTime,
       Date_parse (DateApi := isoDate) (getEffectiveCommitDate (D := isoDate) Sample.forged)
       = Some effectiveTime
       /\ 1420070400000 <= effectiveTime.
Proof.
  assert (Ha : Date_parse (DateApi := isoDate) (FirstCommit.date Sample.forged)
               = Some 1420070400000) by reflexivity.
  split; [exact Ha|].
  exact (@getEffectiveCommitDate_never_earlier isoDate Sample.forged _ Ha).
Defined.

Lemma resolveProofDate_unparseable_commit_witness :
  Date_parse (DateApi := isoDate) (getEffectiveCommitDate (D := isoDate) Cases.undated)
  = None
  /\ resolveProofDate (D := isoDate) Sample.alice (Some Cases.undated)
     = Ret "2020-01-01T00:00:00Z".
Proof.
  assert (H : Date_parse (DateApi := isoDate)
                (getEffectiveCommitDate (D := isoDate) Cases.undated) = None)
    by reflexivity.
  split; [exact H|].
  exact (@resolveProofDate_unparseable_commit isoDate Sample.alice Cases.undated H).
Defined.

Lemma verify_valid_with_commit_iff_witness :
  let cert := Sample.withCommit in
  let fc := CertificateProof.firstCommit (Certificate.proof cert) in
  FirstCommit.sha fc <> ""
  /\ resolveProofDate (D := isoDate) (reconstructedUser cert) (Some fc)
     = Ret "2019-06-01T00:00:00Z"
  /\ VerifyCertificateResult.valid
       (fst (run Sample.online 0
               (verifyCertificateData (D := isoDate) cert Sample.echo None))) = true
  /\ VerifyCertificateResult.valid
       (fst (run Sample.offline 0
               (verifyCertificateData (D := isoDate) cert Sample.echo None))) = false.
Proof.
  intros cert fc.
  assert (Hsha : FirstCommit.sha fc <> "") by discriminate.
  assert (Hexpected : resolveProofDate (D := isoDate) (reconstructedUser cert) (Some fc)
                      = Ret "2019-06-01T00:00:00Z") by reflexivity.
  split; [exact Hsha|]. split; [exact Hexpected|]. split.
  - apply (proj2 (@verify_valid_with_commit_iff isoDate cert Sample.echo None
                    Sample.online 0 _ Hsha Hexpected)).
    split; [reflexivity|]. split; [reflexivity|]. split; [reflexivity|].
    eexists. split; [reflexivity|].
    split; [reflexivity|]. split.
    + intros id H. injection H as <-. reflexivity.
    + split; [reflexivity|].
      intros a c Ha Hc _ _. injection Ha as <-. injection Hc as <-. reflexivity.
  - destruct (VerifyCertificateResult.valid _) eqn:Hvalid; [|reflexivity].
    destruct (proj1 (@verify_valid_with_commit_iff isoDate cert Sample.echo None
                       Sample.offline 0 _ Hsha Hexpected) Hvalid)
      as (_ & _ & _ & detail & Hfetch & _).
    discriminate Hfetch.
Defined.

Lemma issued_certificate_stored_data_checks_witness :
  FirstCommit.sha Sample.early <> ""
  /\ firstn 3
       (verdicts
          (fst (run Sample.offline 7
                  (verifyCertificateData (D := isoDate) Sample.withCommit
                     Sample.echo None))))
     = [("Hash integrity", true); ("Era classification", true); ("Proof date", true)].
Proof.
  assert (Hsha : FirstCommit.sha Sample.early <> "") by discriminate.
  split; [exact Hsha|].
  exact (@issued_certificate_stored_data_checks isoDate Sample.echo Sample.alice
           Sample.early Sample.offline Sample.offline 0 7 None Hsha).
Defined.

Lemma createCertificate_empty_repo_date_witness :
  let cert := Cases.issuedFor Cases.emptyRepoDate in
  let r := fst (run Sample.online 0
                  (verifyCertificateData (D := isoDate) cert Sample.echo None)) in
  FirstCommit.repoCreatedAt Cases.emptyRepoDate = Some ""
  /\ Date_parse (DateApi := isoDate)
       (getEffectiveCommitDate (D := isoDate) Cases.emptyRepoDate) = Some 1559347200000
  /\ FirstCommit.sha Cases.emptyRepoDate <> ""
  /\ CertificateProof.proofDate (Certificate.proof cert) = ""
  /\ Certificate.era cert = AI_NATIVE
  /\ In ("Proof date", false) (verdicts r)
  /\ VerifyCertificateResult.valid r = false.
Proof.
  intros cert r.
  assert (Hc : Date_parse (DateApi := isoDate)
                 (getEffectiveCommitDate (D := isoDate) Cases.emptyRepoDate)
               = Some 1559347200000) by reflexivity.
  assert (Hsha : FirstCommit.sha Cases.emptyRepoDate <> "") by discriminate.
  split; [reflexivity|]. split; [exact Hc|]. split; [exact Hsha|].
  exact (@createCertificate_empty_repo_date isoDate Sample.echo Sample.alice
           Cases.emptyRepoDate _ Sample.offline Sample.online 0 0 None
           eq_refl Hc Hsha).
Defined.

Lemma issued_certificate_verifies_witness :
  let detail := Cases.detailOf "alice" Cases.amended in
  let cert := Cases.issuedFor Cases.amended in
  FirstCommit.sha Cases.amended <> ""
  /\ parses (D := isoDate) (CertificateProof.proofDate (Certificate.proof cert)) = true
  /\ Date_parse (DateApi := isoDate) (FirstCommit.date Cases.amended)
     = Some 1559347200000
  /\ Date_parse (DateApi := isoDate) "2019-06-11T00:00:00Z" = Some 1560211200000
  /\ Z.abs (1560211200000 - 1559347200000) <= THIRTY_DAYS_MS
  /\ VerifyCertificateResult.valid
       (fst (run (Cases.answering detail) 0
               (verifyCertificateData (D := isoDate) cert Sample.echo None))) = true.
Proof.
  intros detail cert.
  assert (Hsha : FirstCommit.sha Cases.amended <> "") by discriminate.
  assert (Hparses : parses (D := isoDate)
                      (CertificateProof.proofDate (Certificate.proof cert)) = true)
    by reflexivity.
  assert (Ha : Date_parse (DateApi := isoDate) (FirstCommit.date Cases.amended)
               = Some 1559347200000) by reflexivity.
  assert (Hc : Date_parse (DateApi := isoDate) "2019-06-11T00:00:00Z"
               = Some 1560211200000) by reflexivity.
  assert (Hdrift : Z.abs (1560211200000 - 1559347200000) <= THIRTY_DAYS_MS)
    by (vm_compute; discriminate).
  split; [exact Hsha|]. split; [exact Hparses|]. split; [exact Ha|].
  split; [exact Hc|]. split; [exact Hdrift|].
  apply (@issued_certificate_verifies isoDate Sample.echo Sample.alice Cases.amended
           detail 1559347200000 Sample.offline (Cases.answering detail) 0 0 None
           Hsha Hparses Ha eq_refl eq_refl).
  - intros id H. discriminate H.
  - reflexivity.
  - intros cd H _. injection H as <-. exists 1560211200000. split; [exact Hc | exact Hdrift].
Defined.

Lemma verify_rejects_drift_beyond_thirty_days_witness :
  let reported := Cases.detailOf "alice" Cases.postdated in
  let early := fst (run (Cases.answering reported) 0
                      (verifyCertificateData (D := isoDate)
                         (Cases.issuedFor Cases.postdated) Sample.echo None)) in
  let reported' := Cases.detailOf "alice" Sample.forged in
  let late := fst (run (Cases.answering reported') 0
                     (verifyCertificateData (D := isoDate)
                        (Cases.issuedFor Sample.forged) Sample.echo None)) in
  (THIRTY_DAYS_MS < Z.abs (1535760000000 - 1559347200000)
   /\ getEffectiveCommitDate (D := isoDate) Cases.postdated = "2019-06-01T00:00:00Z"
   /\ VerifyCertificateResult.valid early = false)
  /\ (THIRTY_DAYS_MS < Z.abs (1717200000000 - 1420070400000)
      /\ getEffectiveCommitDate (D := isoDate) Sample.forged = "2024-06-01T00:00:00Z"
      /\ VerifyCertificateResult.valid late = false).
Proof.
  intros reported early reported' late.
  assert (Hback : THIRTY_DAYS_MS < Z.abs (1535760000000 - 1559347200000))
    by (vm_compute; reflexivity).
  assert (Hforth : THIRTY_DAYS_MS < Z.abs (1717200000000 - 1420070400000))
    by (vm_compute; reflexivity).
  split.
  - destruct (@verify_rejects_drift_beyond_thirty_days isoDate
                (Cases.issuedFor Cases.postdated) Sample.echo None
                (Cases.answering reported) 0 reported "2018-09-01T00:00:00Z"
                1559347200000 1535760000000
                ltac:(discriminate) eq_refl eq_refl eq_refl Hback eq_refl eq_refl eq_refl)
      as (Heff & _ & Hinvalid).
    split; [exact Hback|]. split; [exact Heff | exact Hinvalid].
  - destruct (@verify_rejects_drift_beyond_thirty_days isoDate
                (Cases.issuedFor Sample.forged) Sample.echo None
                (Cases.answering reported') 0 reported' "2024-06-01T00:00:00Z"
                1420070400000 1717200000000
                ltac:(discriminate) eq_refl eq_refl eq_refl Hforth eq_refl eq_refl eq_refl)
      as (Heff & _ & Hinvalid).
    split; [exact Hforth|]. split; [exact Heff | exact Hinvalid].
Defined.

(** ** The certificate number *)

Section CertificateNumber.

(** The number a string of decimal digits writes, read from the left. *)
Fixpoint uintValue (d : Decimal.uint) (acc : Z) : Z :=
  match d with
  | Decimal.Nil => acc
  | Decimal.D0 l => uintValue l (10 * acc + 0)
  | Decimal.D1 l => uintValue l (10 * acc + 1)
  | Decimal.D2 l => uintValue l (10 * acc + 2)
  | Decimal.D3 l => uintValue l (10 * acc + 3)
  | Decimal.D4 l => uintValue l (10 * acc + 4)
  | Decimal.D5 l => uintValue l (10 * acc + 5)
  | Decimal.D6 l => uintValue l (10 * acc + 6)
  | Decimal.D7 l => uintValue l (10 * acc + 7)
  | Decimal.D8 l => uintValue l (10 * acc + 8)
  | Decimal.D9 l => uintValue l (10 * acc + 9)
  end.

Lemma digits_string_of_uint (d : Decimal.uint) : forall (acc : Z) (rest : list ascii),
  Iso.digits (Decimal.nb_digits d) acc
    (list_ascii_of_string (NilEmpty.string_of_uint d) ++ rest)%list
  = Some (uintValue d acc, rest).
Proof.
  induction d; intros acc rest; [reflexivity| ..];
    cbn [Decimal.nb_digits NilEmpty.string_of_uint list_ascii_of_string app uintValue];
    rewrite <- IHd; reflexivity.
Qed.

Lemma of_uint_acc_value (d : Decimal.uint) : forall acc : positive,
  Z.pos (Pos.of_uint_acc d acc) = uintValue d (Z.pos acc).
Proof.
  induction d; intros acc; [reflexivity| ..];
    cbn [Pos.of_uint_acc uintValue]; rewrite IHd; f_equal; lia.
Qed.

Lemma of_uint_value (d : Decimal.uint) : Z.of_N (Pos.of_uint d) = uintValue d 0.
Proof.
  induction d; [reflexivity| exact IHd | ..];
    cbn [Pos.of_uint uintValue Z.of_N]; rewrite of_uint_acc_value; reflexivity.
Qed.

Lemma to_uint_value (p : positive) : uintValue (Pos.to_uint p) 0 = Z.pos p.
Proof. rewrite <- of_uint_value, DecimalPos.Unsigned.of_to. reflexivity. Qed.

Lemma uintValue_bounds (d : Decimal.uint) : forall acc : Z,
  0 <= acc ->
  acc * 10 ^ Z.of_nat (Decimal.nb_digits d) <= uintValue d acc
  < (acc + 1) * 10 ^ Z.of_nat (Decimal.nb_digits d).
Proof.
  induction d; intros acc Hacc;
    [simpl; lia | ..];
    cbn [Decimal.nb_digits uintValue];
    rewrite Nat2Z.inj_succ, Z.pow_succ_r by lia;
    match goal with
    | |- _ <= uintValue _ ?a < _ =>
        specialize (IHd a ltac:(lia));
        pose proof (Z.pow_pos_nonneg 10 (Z.of_nat (Decimal.nb_digits d))
                      ltac:(lia) ltac:(lia));
        nia
    end.
Qed.

Lemma to_uint_normal (p : positive) : Decimal.nzhead (Pos.to_uint p) = Pos.to_uint p.
Proof.
  pose proof (DecimalPos.Unsigned.to_of (Pos.to_uint p)) as H.
  rewrite DecimalPos.Unsigned.of_to in H. cbn [N.to_uint] in H.
  pose proof (DecimalPos.Unsigned.to_uint_nonzero p) as Hnz.
  unfold Decimal.unorm in H.
  destruct (Decimal.nzhead (Pos.to_uint p)); [congruence | symmetry; exact H ..].
Qed.

Lemma normal_lower_bound (d : Decimal.uint) :
  Decimal.nzhead d = d -> d <> Decimal.Nil ->
  10 ^ (Z.of_nat (Decimal.nb_digits d) - 1) <= uintValue d 0.
Proof.
  intros Hn Hd.
  destruct d; [congruence | | ..];
    [exfalso; cbn [Decimal.nzhead] in Hn;
     pose proof (DecimalFacts.nb_digits_nzhead d) as Hle;
     rewrite Hn in Hle; cbn [Decimal.nb_digits] in Hle; lia
    | ..];
    cbn [Decimal.nb_digits uintValue]; rewrite Nat2Z.inj_succ;
    replace (Z.succ (Z.of_nat (Decimal.nb_digits d)) - 1)
      with (Z.of_nat (Decimal.nb_digits d)) by lia;
    match goal with
    | |- _ <= uintValue d ?a =>
        pose proof (uintValue_bounds d (acc := a) ltac:(lia)); lia
    end.
Qed.

(** A positive number below [10 ^ width] is written with at most [width]
    digits. *)
Lemma to_uint_nb_digits (p : positive) (width : nat) :
  Z.pos p < 10 ^ Z.of_nat width ->
  (Decimal.nb_digits (Pos.to_uint p) <= width)%nat.
Proof.
  intros Hp.
  pose proof (normal_lower_bound (to_uint_normal p)
                (DecimalPos.Unsigned.to_uint_nonnil p)) as Hlow.
  rewrite to_uint_value in Hlow.
  destruct (le_lt_dec (Decimal.nb_digits (Pos.to_uint p)) width) as [Hle|Hgt];
    [exact Hle|].
  exfalso.
  assert (10 ^ Z.of_nat width <= 10 ^ (Z.of_nat (Decimal.nb_digits (Pos.to_uint p)) - 1))
    by (apply Z.pow_le_mono_r; lia).
  lia.
Qed.

Lemma length_string_of_uint (d : Decimal.uint) :
  String.length (NilEmpty.string_of_uint d) = Decimal.nb_digits d.
Proof. induction d; simpl; congruence. Qed.

Lemma digits_leading_zeros (k m : nat) (l : list ascii) :
  Iso.digits (k + m) 0 (list_ascii_of_string (Str.repeat "0" k) ++ l)%list
  = Iso.digits m 0 l.
Proof. induction k as [|k IH]; [reflexivity | exact IH]. Qed.

(** [String(n).padStart(width, '0')] reads back as [n]. *)
Lemma padStart_ofZ_reads_back (width : nat) (n : Z) :
  (1 <= width)%nat -> 0 <= n < 10 ^ Z.of_nat width ->
  Iso.digits width 0 (list_ascii_of_string (Str.padStart width "0" (Num.ofZ n)))
  = Some (n, []).
Proof.
  intros Hw Hn. unfold Str.padStart, Num.ofZ.
  destruct n as [|p|p]; [| |lia].
  - cbn [Z.to_int NilZero.string_of_int NilZero.string_of_uint
         NilEmpty.string_of_uint String.length].
    replace width with ((width - 1) + 1)%nat at 1 by lia.
    rewrite list_ascii_of_string_app, digits_leading_zeros. reflexivity.
  - cbn [Z.to_int NilZero.string_of_int].
    assert (Hs : NilZero.string_of_uint (Pos.to_uint p)
                 = NilEmpty.string_of_uint (Pos.to_uint p)).
    { pose proof (DecimalPos.Unsigned.to_uint_nonnil p).
      destruct (Pos.to_uint p); [congruence | reflexivity ..]. }
    rewrite Hs, length_string_of_uint.
    pose proof (@to_uint_nb_digits p width (proj2 Hn)) as Hle.
    replace width with ((width - Decimal.nb_digits (Pos.to_uint p))
                        + Decimal.nb_digits (Pos.to_uint p))%nat at 1 by lia.
    rewrite list_ascii_of_string_app, digits_leading_zeros.
    rewrite <- (app_nil_r (list_ascii_of_string _)).
    rewrite digits_string_of_uint, to_uint_value. reflexivity.
Qed.

Lemma digit_range (c : ascii) (d : Z) : Iso.digit c = Some d -> 0 <= d <= 9.
Proof.
  unfold Iso.digit, Str.between.
  destruct (N.leb 48 (N_of_ascii c) && N.leb (N_of_ascii c) 57)%bool eqn:H;
    [|discriminate].
  intros Heq. injection Heq as <-.
  apply andb_prop in H. destruct H as [H1 H2].
  apply N.leb_le in H1, H2. lia.
Qed.

Lemma digit_inj (c1 c2 : ascii) (d : Z) :
  Iso.digit c1 = Some d -> Iso.digit c2 = Some d -> c1 = c2.
Proof.
  unfold Iso.digit, Str.between.
  destruct (N.leb 48 (N_of_ascii c1) && N.leb (N_of_ascii c1) 57)%bool eqn:H1;
    [|discriminate].
  destruct (N.leb 48 (N_of_ascii c2) && N.leb (N_of_ascii c2) 57)%bool eqn:H2;
    [|discriminate].
  intros E1 E2. injection E1 as E1. injection E2 as E2.
  apply andb_prop in H1, H2. destruct H1 as [H1 _], H2 as [H2 _].
  apply N.leb_le in H1, H2.
  assert (E : N_of_ascii c1 = N_of_ascii c2) by lia.
  rewrite <- (ascii_N_embedding c1), <- (ascii_N_embedding c2), E. reflexivity.
Qed.

Lemma digits_bounds (k : nat) : forall (acc v : Z) (l rest : list ascii),
  0 <= acc ->
  Iso.digits k acc l = Some (v, rest) ->
  acc * 10 ^ Z.of_nat k <= v < (acc + 1) * 10 ^ Z.of_nat k.
Proof.
  induction k as [|k IH]; intros acc v l rest Hacc H.
  - simpl in H. injection H as <- _. simpl. lia.
  - destruct l as [|c l]; [discriminate|].
    cbn [Iso.digits] in H.
    destruct (Iso.digit c) as [d|] eqn:Hd; [|discriminate].
    cbn [Iso.bindOpt] in H.
    pose proof (digit_range _ Hd) as Hr.
    assert (Hacc' : 0 <= 10 * acc + d) by lia.
    specialize (IH _ _ _ _ Hacc' H).
    rewrite Nat2Z.inj_succ, Z.pow_succ_r by lia.
    pose proof (Z.pow_pos_nonneg 10 (Z.of_nat k) ltac:(lia) ltac:(lia)).
    nia.
Qed.

(** Two strings of [k] digits that write the same number are the same. *)
Lemma digits_inj (k : nat) : forall (acc v : Z) (l1 l2 : list ascii),
  0 <= acc ->
  Iso.digits k acc l1 = Some (v, []) ->
  Iso.digits k acc l2 = Some (v, []) ->
  l1 = l2.
Proof.
  induction k as [|k IH]; intros acc v l1 l2 Hacc H1 H2.
  - simpl in H1, H2. injection H1 as _ ->. injection H2 as _ ->. reflexivity.
  - destruct l1 as [|c1 l1]; [discriminate|].
    destruct l2 as [|c2 l2]; [discriminate|].
    cbn [Iso.digits] in H1, H2.
    destruct (Iso.digit c1) as [d1|] eqn:Hd1; [|discriminate].
    destruct (Iso.digit c2) as [d2|] eqn:Hd2; [|discriminate].
    cbn [Iso.bindOpt] in H1, H2.
    pose proof (digit_range _ Hd1) as Hr1.
    pose proof (digit_range _ Hd2) as Hr2.
    assert (Hacc1 : 0 <= 10 * acc + d1) by lia.
    assert (Hacc2 : 0 <= 10 * acc + d2) by lia.
    pose proof (digits_bounds _ _ Hacc1 H1) as B1.
    pose proof (digits_bounds _ _ Hacc2 H2) as B2.
    pose proof (Z.pow_pos_nonneg 10 (Z.of_nat k) ltac:(lia) ltac:(lia)) as Hpow.
    assert (Hd : d1 = d2) by nia.
    subst d2. rewrite (digit_inj _ _ Hd1 Hd2).
    f_equal. exact (IH _ _ _ _ Hacc1 H1 H2).
Qed.

Lemma list_ascii_of_string_inj (a b : string) :
  list_ascii_of_string a = list_ascii_of_string b -> a = b.
Proof.
  intros H. rewrite <- (string_of_list_ascii_of_string a),
              <- (string_of_list_ascii_of_string b), H. reflexivity.
Qed.

(** [String(n).padStart(width, '0')] is [n] in [width] decimal digits. *)
Lemma padStart_ofZ (width : nat) (n : Z) :
  (1 <= width)%nat -> 0 <= n < 10 ^ Z.of_nat width ->
  Str.padStart width "0" (Num.ofZ n) = Iso.pad width n.
Proof.
  intros Hw Hn. apply list_ascii_of_string_inj.
  apply (@digits_inj width 0 n); [lia | apply padStart_ofZ_reads_back; assumption |].
  rewrite <- (app_nil_r (list_ascii_of_string _)).
  rewrite pad_reads_back by exact Hn. reflexivity.
Qed.

Lemma hexDigit_range (c : ascii) (d : Z) : Conv.hexDigit c = Some d -> 0 <= d < 16.
Proof.
  unfold Conv.hexDigit, Str.between. cbv zeta.
  repeat match goal with
         | |- context [(N.leb ?a ?b && N.leb ?x ?y)%bool] =>
             let H := fresh "H" in
             destruct (N.leb a b && N.leb x y)%bool eqn:H;
             [apply andb_prop in H; destruct H as [?H ?H];
              match goal with
              | H1 : N.leb _ _ = true, H2 : N.leb _ _ = true |- _ =>
                  apply N.leb_le in H1, H2
              end;
              intros Heq; injection Heq as <-; lia|]
         end.
  discriminate.
Qed.

Lemma hexPrefix_value (s : string) : forall (acc : Z) (read : nat),
  fst (Conv.hexPrefix s acc read) = hexValueFrom acc s.
Proof.
  induction s as [|c s IH]; intros acc read; [reflexivity|].
  cbn [Conv.hexPrefix hexValueFrom].
  destruct (Conv.hexDigit c); [apply IH | reflexivity].
Qed.

Lemma hexPrefix_read (s : string) : forall (acc : Z) (read : nat),
  (read <= snd (Conv.hexPrefix s acc read))%nat.
Proof.
  induction s as [|c s IH]; intros acc read; [apply le_n|].
  cbn [Conv.hexPrefix].
  destruct (Conv.hexDigit c); [|apply le_n].
  specialize (IH (16 * acc + z) (S read)). lia.
Qed.

Lemma hexValueFrom_nonneg (s : string) : forall acc : Z,
  0 <= acc -> 0 <= hexValueFrom acc s.
Proof.
  induction s as [|c s IH]; intros acc Hacc; [exact Hacc|].
  cbn [hexValueFrom]. destruct (Conv.hexDigit c) as [d|] eqn:Hd; [|exact Hacc].
  pose proof (hexDigit_range _ Hd). apply IH. lia.
Qed.

(** [parseInt(s, 16)] of a non-empty string of hexadecimal digits is the
    number they write: there is no white space, sign or [0x] to skip. *)
Lemma parseInt16_allHex (s : string) :
  s <> "" -> allHex s = true -> Conv.parseInt16 s = Fin (hexValue s).
Proof.
  intros Hne Hhex. destruct s as [|c s]; [congruence|].
  assert (Hskip : Conv.parseInt16 (String c s)
                  = match Conv.hexPrefix (String c s) 0 O with
                    | (_, O) => NaN
                    | (v, S _) => Fin (1 * v)
                    end).
  { cbn [allHex] in Hhex.
    destruct c as [b0 b1 b2 b3 b4 b5 b6 b7].
    destruct b0, b1, b2, b3, b4, b5, b6, b7;
      try discriminate Hhex; try reflexivity.
    destruct s as [|c2 s]; [reflexivity|].
    cbn [allHex] in Hhex.
    destruct c2 as [b0 b1 b2 b3 b4 b5 b6 b7].
    destruct b0, b1, b2, b3, b4, b5, b6, b7;
      try discriminate Hhex; reflexivity. }
  rewrite Hskip.
  pose proof (hexPrefix_value (String c s) 0 O) as Hv.
  assert (Hr : (1 <= snd (Conv.hexPrefix (String c s) 0 O))%nat).
  { cbn [allHex] in Hhex. cbn [Conv.hexPrefix].
    destruct (Conv.hexDigit c); [|discriminate].
    apply hexPrefix_read. }
  destruct (Conv.hexPrefix (String c s) 0 O) as [v read].
  cbn [fst snd] in Hv, Hr. destruct read as [|read]; [lia|].
  unfold hexValue. rewrite <- Hv. f_equal. lia.
Qed.



Lemma length_app (a b : string) :
  String.length (a ++ b) = (String.length a + String.length b)%nat.
Proof. induction a as [|c a IH]; simpl; congruence. Qed.

Lemma length_pad (width : nat) : forall z : Z, String.length (Iso.pad width z) = width.
Proof.
  induction width as [|width IH]; intros z; [reflexivity|].
  cbn [Iso.pad]. rewrite length_app, IH. simpl. lia.
Qed.

(** The number of a digest whose characters 4 to 11 are hexadecimal. *)
Lemma generateCertificateNumber_hex (hash : string) :
  Str.slice 4 12 hash <> "" ->
  allHex (Str.slice 4 12 hash) = true ->
  generateCertificateNumber hash
  = "LGC-" ++ Str.toUpperCase (Str.slice 0 4 hash) ++ "-"
      ++ Iso.pad 6 (hexValue (Str.slice 4 12 hash) mod 1000000).
Proof.
  intros Hne Hhex.
  unfold generateCertificateNumber. cbv zeta.
  rewrite (parseInt16_allHex Hne Hhex).
  cbn [Conv.rem Num.toString].
  pose proof (hexValueFrom_nonneg (Str.slice 4 12 hash) (acc := 0) ltac:(lia)) as Hv.
  fold (hexValue (Str.slice 4 12 hash)) in Hv.
  rewrite Z.rem_mod_nonneg by lia.
  rewrite padStart_ofZ; [reflexivity | lia |].
  change (10 ^ Z.of_nat 6) with 1000000.
  apply Z.mod_pos_bound. lia.
Qed.


Lemma hexDigit_hexChar (n : N) :
  (n < 16)%N -> Conv.hexDigit (Conv.hexChar n) = Some (Z.of_N n).
Proof.
  intros Hn. destruct n as [|p]; [reflexivity|].
  do 4 (destruct p as [p|p|]; try reflexivity); exfalso; lia.
Qed.

(** A byte is written with two hexadecimal digits. *)
Lemma byte_two_digits (b : N) :
  (b < 256)%N ->
  Str.padStart 2 "0" (byteToString16 b)
  = String (Conv.hexChar (N.div b 16)) (String (Conv.hexChar (N.modulo b 16)) "").
Proof.
  intros Hb. unfold byteToString16.
  destruct (N.ltb_spec b 16) as [Hsmall|Hbig].
  - rewrite N.div_small, N.mod_small by exact Hsmall. reflexivity.
  - reflexivity.
Qed.

Lemma hexOfBytes_cons (b : N) (rest : list N) :
  hexOfBytes (b :: rest) = Str.padStart 2 "0" (byteToString16 b) ++ hexOfBytes rest.
Proof.
  unfold hexOfBytes. cbn [List.map Str.join].
  destruct (List.map _ rest) as [|x xs] eqn:E.
  - cbn [Str.join]. clear E. induction (Str.padStart 2 "0" (byteToString16 b)) as [|c s IH].
    + reflexivity.
    + cbn [append]. rewrite <- IH. reflexivity.
  - reflexivity.
Qed.

(** X17. The certificate number in terms of the digest.  With the hash of
    the web front end, which writes each byte of the digest with two
    hexadecimal digits, the number of a digest of at least six bytes is
    [LGC-], the first two bytes in upper-case hexadecimal, a dash, and the
    next four bytes, read as one number with the first byte the most
    significant, modulo one million in six decimal digits. *)
Theorem webHash_certificate_number (sha256 : string -> list N) (data : string)
  (b0 b1 b2 b3 b4 b5 : N) (rest : list N) :
  sha256 data = b0 :: b1 :: b2 :: b3 :: b4 :: b5 :: rest ->
  Forall (fun b => (b < 256)%N) (sha256 data) ->
  generateCertificateNumber (webHash sha256 data)
  = "LGC-" ++ Str.toUpperCase (hexOfBytes [b0; b1]) ++ "-"
      ++ Iso.pad 6 (bigEndian32 b2 b3 b4 b5 mod 1000000)
  /\ String.length (generateCertificateNumber (webHash sha256 data)) = 15%nat.
Proof.
  intros Hbytes Hrange. unfold webHash. rewrite Hbytes in *.
  repeat match goal with
         | H : Forall _ (_ :: _) |- _ => inversion H; clear H; subst
         end.
  rewrite !hexOfBytes_cons.
  rewrite !byte_two_digits by assumption.
  generalize (hexOfBytes rest) as tail. intros tail.
  cbn [hexOfBytes List.map Str.join].
  match goal with
  | |- context [generateCertificateNumber ?h] => set (hash := h)
  end.
  assert (Hslice : Str.slice 4 12 hash
                   = String (Conv.hexChar (b2 / 16)) (String (Conv.hexChar (b2 mod 16))
                       (String (Conv.hexChar (b3 / 16)) (String (Conv.hexChar (b3 mod 16))
                          (String (Conv.hexChar (b4 / 16)) (String (Conv.hexChar (b4 mod 16))
                             (String (Conv.hexChar (b5 / 16))
                                (String (Conv.hexChar (b5 mod 16)) "")))))))).
  { subst hash. unfold Str.slice. cbn [Nat.sub append substring].
    destruct tail; reflexivity. }
  assert (Hprefix : Str.slice 0 4 hash
                    = String (Conv.hexChar (b0 / 16)) (String (Conv.hexChar (b0 mod 16))
                        (String (Conv.hexChar (b1 / 16))
                           (String (Conv.hexChar (b1 mod 16)) "")))).
  { subst hash. unfold Str.slice. cbn [Nat.sub append substring].
    destruct (_ ++ tail); reflexivity. }
  assert (Hnib : forall b, (b < 256)%N -> (b / 16 < 16)%N /\ (b mod 16 < 16)%N).
  { intros b Hb. split.
    - apply N.Div0.div_lt_upper_bound. exact Hb.
    - apply N.mod_lt. discriminate. }
  assert (Hhex : allHex (Str.slice 4 12 hash) = true).
  { rewrite Hslice. cbn [allHex].
    rewrite !hexDigit_hexChar by (apply Hnib; assumption). reflexivity. }
  assert (Hvalue : hexValue (Str.slice 4 12 hash) = bigEndian32 b2 b3 b4 b5).
  { rewrite Hslice. unfold hexValue. cbn [hexValueFrom].
    rewrite !hexDigit_hexChar by (apply Hnib; assumption).
    unfold bigEndian32.
    pose proof (N.div_mod b2 16 ltac:(discriminate)).
    pose proof (N.div_mod b3 16 ltac:(discriminate)).
    pose proof (N.div_mod b4 16 ltac:(discriminate)).
    pose proof (N.div_mod b5 16 ltac:(discriminate)).
    lia. }
  assert (Hne : Str.slice 4 12 hash <> "") by (rewrite Hslice; discriminate).
  rewrite (generateCertificateNumber_hex hash Hne Hhex), Hvalue, Hprefix.
  split; [reflexivity|].
  rewrite !length_app, length_pad. reflexivity.
Qed.

(** X18. A digest of at most four characters leaves [parseInt] nothing to
    read: the numeric part is [NaN], and the number ends in [000NaN]. *)
Theorem generateCertificateNumber_short_hash (hash : string) :
  (String.length hash <= 4)%nat ->
  generateCertificateNumber hash = "LGC-" ++ Str.toUpperCase hash ++ "-000NaN".
Proof.
  intros Hlen.
  destruct hash as [|a [|b [|c [|d [|e rest]]]]];
    try reflexivity.
  simpl in Hlen. lia.
Qed.

End CertificateNumber.


Lemma generateCertificateNumber_short_hash_witness :
  (String.length "ab" <= 4)%nat
  /\ generateCertificateNumber "ab" = "LGC-AB-000NaN".
Proof.
  assert (Hlen : (String.length "ab" <= 4)%nat) by (simpl; lia).
  split; [exact Hlen|].
  exact (@generateCertificateNumber_short_hash "ab" Hlen).
Defined.

Lemma webHash_certificate_number_witness :
  let sha256 := fun _ : string => [52; 118; 5; 208; 30; 94; 56; 18]%N in
  Forall (fun b => (b < 256)%N) (sha256 "payload")
  /\ webHash sha256 "payload" = "347605d01e5e3812"
  /\ generateCertificateNumber (webHash sha256 "payload") = "LGC-3476-525342".
Proof.
  intros sha256.
  assert (Hrange : Forall (fun b => (b < 256)%N) (sha256 "payload"))
    by (repeat constructor).
  split; [exact Hrange|]. split; [reflexivity|].
  rewrite (proj1 (@webHash_certificate_number sha256 "payload" _ _ _ _ _ _ _
                    eq_refl Hrange)).
  reflexivity.
Defined.

(** ** The hash pins the fields it covers *)

Section HashedFields.

Lemma append_assoc (a b c : string) : (a ++ b) ++ c = a ++ (b ++ c).
Proof. induction a as [|x a IH]; simpl; congruence. Qed.

Lemma unquote_quoteChar (c : ascii) (rest : string) :
  unquoteChar (Conv.quoteChar c ++ rest) = Some (c, rest).
Proof.
  destruct c as [b0 b1 b2 b3 b4 b5 b6 b7].
  destruct b0, b1, b2, b3, b4, b5, b6, b7; reflexivity.
Qed.

(** The body of a JSON string ends at the first quote that is not
    escaped: two bodies followed by a quote that agree are the same. *)
Lemma quoteBody_terminated_inj (a : string) : forall (b r1 r2 : string),
  Conv.quoteBody a ++ String Conv.dquote r1 = Conv.quoteBody b ++ String Conv.dquote r2 ->
  a = b /\ r1 = r2.
Proof.
  induction a as [|c1 a IH]; intros [|c2 b] r1 r2 H.
  - simpl in H. injection H as ->. auto.
  - exfalso. cbn [Conv.quoteBody] in H. rewrite append_assoc in H.
    pose proof (f_equal unquoteChar H) as Hu.
    rewrite unquote_quoteChar in Hu. cbn in Hu. injection Hu as <- _.
    apply (f_equal startsWithBackslash) in H. vm_compute in H. discriminate H.
  - exfalso. cbn [Conv.quoteBody] in H. rewrite append_assoc in H.
    pose proof (f_equal unquoteChar H) as Hu.
    rewrite unquote_quoteChar in Hu. cbn in Hu. injection Hu as -> _.
    apply (f_equal startsWithBackslash) in H. vm_compute in H. discriminate H.
  - cbn [Conv.quoteBody] in H. rewrite !append_assoc in H.
    pose proof (f_equal unquoteChar H) as Hu.
    rewrite !unquote_quoteChar in Hu. injection Hu as -> Hrest.
    destruct (IH _ _ _ Hrest) as [-> ->]. auto.
Qed.

Lemma jsonString_terminated_inj (a b r1 r2 : string) :
  Conv.jsonString a ++ r1 = Conv.jsonString b ++ r2 -> a = b /\ r1 = r2.
Proof.
  unfold Conv.jsonString. cbn [append]. rewrite !append_assoc. cbn [append].
  intros H. injection H as H. exact (quoteBody_terminated_inj _ _ _ _ H).
Qed.








End HashedFields.


(** ** The cache of the web lookup *)

Section LookupCache.

Context {D : DateApi}.

(** X20. What is put in the cache is found again for five minutes, under
    any spelling of the username that differs in case only, and the
    boundary is inside: at exactly five minutes the entry still counts.
    The cache is left as it was. *)
Theorem getCached_after_setCache (clock : nat -> Z) (stored asked : nat)
  (username username' : string) (certificate : Certificate.t) (cache : Cache) :
  let cache' := fst (setCache clock stored username certificate cache) in
  Str.toLowerCase username' = Str.toLowerCase username ->
  clock asked - clock stored <= CACHE_TTL_MS ->
  getCached clock asked username' cache' = (Some certificate, cache', S asked).
Proof.
  intros cache' Hname Hfresh.
  unfold getCached. cbv zeta. rewrite Hname.
  subst cache'. unfold setCache, cacheSet. cbn [fst].
  rewrite String.eqb_refl. cbn [CacheEntry.timestamp CacheEntry.certificate].
  destruct (Z.gtb_spec (clock asked - clock stored) CACHE_TTL_MS); [lia | reflexivity].
Qed.

(** X21. After five minutes the entry is not only passed over but
    deleted: the call answers [null], and from then on every call for
    that user answers [null] without even reading the clock, whatever
    time it is; the entries of other users stay. *)
Theorem getCached_expired_entry_is_deleted (clock : nat -> Z) (stored asked : nat)
  (username username' : string) (certificate : Certificate.t) (cache : Cache) :
  let key := Str.toLowerCase username in
  let cache' := fst (setCache clock stored username certificate cache) in
  let after := getCached clock asked username' cache' in
  Str.toLowerCase username' = key ->
  CACHE_TTL_MS < clock asked - clock stored ->
  fst (fst after) = None
  /\ snd after = S asked
  /\ (forall (clock2 : nat -> Z) (later : nat) (username2 : string),
        Str.toLowerCase username2 = key ->
        getCached clock2 later username2 (snd (fst after))
        = (None, snd (fst after), later))
  /\ (forall other, other <> key -> snd (fst after) other = cache other).
Proof.
  intros key cache' after Hname Hold.
  assert (Hafter : after = (None, cacheDelete key cache', S asked)).
  { subst after. unfold getCached. cbv zeta. rewrite Hname.
    subst cache'. unfold setCache, cacheSet at 1. cbn [fst].
    rewrite String.eqb_refl. cbn [CacheEntry.timestamp].
    destruct (Z.gtb_spec (clock asked - clock stored) CACHE_TTL_MS); [reflexivity | lia]. }
  rewrite Hafter. cbn [fst snd].
  split; [reflexivity|]. split; [reflexivity|]. split.
  - intros clock2 later username2 Hname2.
    unfold getCached. cbv zeta. rewrite Hname2.
    unfold cacheDelete at 1. rewrite String.eqb_refl. reflexivity.
  - intros other Hother.
    subst cache'. unfold cacheDelete, setCache, cacheSet. cbn [fst].
    subst key.
    destruct (String.eqb_spec other (Str.toLowerCase username));
      [contradiction | reflexivity].
Qed.

(** The number of events of the builder is the number of its readings of
    the clock. *)
Lemma createCertificate_result (hashFn : HashFn) (user : GitHubUser.t)
  (firstCommit : option FirstCommit.t) (w : World) (reads : nat) :
  exists certificate clockReads,
    run w reads (createCertificate hashFn user firstCommit) = (certificate, clockReads).
Proof. destruct (run w reads _) as [c e]. exists c, e. reflexivity. Qed.

(** X22. A lookup that had to ask the data source leaves its certificate in
    the cache: the next lookup of that user, under any spelling that
    differs in case only, made while the clock is within five minutes of
    the time the entry was stored, gives the same certificate, says so
    in one status message, and asks the data source nothing, so it
    succeeds even when the data source is down. *)
Theorem lookupUser_second_lookup_is_cached (hashFn : HashFn) (w : World)
  (github github' : GitHub.t) (reads asked : nat) (username username' : string)
  (cache : Cache) (user : GitHubUser.t) (firstCommit : option FirstCommit.t) :
  let first := lookupUser hashFn w github reads username cache in
  let second := lookupUser hashFn w github' asked username' (Lookup.cache first) in
  cache (Str.toLowerCase username) = None ->
  GitHub.fetchUser github username = Resolved user ->
  GitHub.fetchFirstCommit github (GitHubUser.login user) = Resolved firstCommit ->
  Str.toLowerCase username' = Str.toLowerCase username ->
  clock w asked - clock w (pred (Lookup.reads first)) <= CACHE_TTL_MS ->
  Lookup.result first
    = Resolved (fst (run w reads (createCertificate hashFn user firstCommit)))
  /\ Lookup.result second = Lookup.result first
  /\ Lookup.cache second = Lookup.cache first
  /\ Lookup.events second = [Status "Using cached result..."]
  /\ existsb isFetch (Lookup.events second) = false.
Proof.
  intros first second Hmiss Huser Hcommit Hname Hfresh.
  destruct (createCertificate_result hashFn user firstCommit w reads)
    as (certificate & clockReads & Hrun).
  assert (Hfirst : first
                   = {| Lookup.result := Resolved certificate;
                        Lookup.cache :=
                          fst (setCache (clock w) (reads + List.length clockReads)
                                 username certificate cache);
                        Lookup.reads := S (reads + List.length clockReads);
                        Lookup.events :=
                          [Status "Fetching GitHub profile..."; UserFetch username;
                           Status "Searching for earliest commit...";
                           FirstCommitFetch (GitHubUser.login user);
                           Status "Generating certificate..."] |}).
  { subst first. unfold lookupUser, getCached. cbv zeta.
    rewrite Hmiss, Huser, Hcommit, Hrun. reflexivity. }
  subst second. rewrite Hfirst in *. cbn [Lookup.cache Lookup.result Lookup.reads] in *.
  rewrite Hrun. cbn [fst]. split; [reflexivity|].
  cbn [pred] in Hfresh.
  assert (Hhit : getCached (clock w) asked username'
                   (fst (setCache (clock w) (reads + List.length clockReads)
                           username certificate cache))
                 = (Some certificate,
                    fst (setCache (clock w) (reads + List.length clockReads)
                           username certificate cache),
                    S asked)).
  { unfold getCached. cbv zeta. rewrite Hname.
    unfold setCache, cacheSet. cbn [fst].
    rewrite String.eqb_refl. cbn [CacheEntry.timestamp CacheEntry.certificate].
    destruct (Z.gtb_spec (clock w asked - clock w (reads + List.length clockReads))
                CACHE_TTL_MS); [lia | reflexivity]. }
  unfold lookupUser. rewrite Hhit. repeat split.
Qed.

End LookupCache.

Lemma getCached_after_setCache_witness :
  let cache' := fst (setCache (clock Sample.offline) 0 "Alice" Sample.withCommit emptyCache) in
  Str.toLowerCase "alice" = Str.toLowerCase "Alice"
  /\ clock Sample.offline 300 - clock Sample.offline 0 = CACHE_TTL_MS
  /\ getCached (clock Sample.offline) 300 "alice" cache'
     = (Some Sample.withCommit, cache', 301%nat).
Proof.
  intros cache'.
  assert (Hname : Str.toLowerCase "alice" = Str.toLowerCase "Alice") by reflexivity.
  assert (Hedge : clock Sample.offline 300 - clock Sample.offline 0 = CACHE_TTL_MS)
    by reflexivity.
  split; [exact Hname|]. split; [exact Hedge|].
  apply (@getCached_after_setCache (clock Sample.offline) 0 300 "Alice" "alice"
           Sample.withCommit emptyCache Hname).
  rewrite Hedge. apply Z.le_refl.
Defined.

Lemma getCached_expired_entry_is_deleted_witness :
  let cache' := fst (setCache (clock Sample.offline) 0 "Alice" Sample.withCommit emptyCache) in
  let after := getCached (clock Sample.offline) 301 "alice" cache' in
  CACHE_TTL_MS < clock Sample.offline 301 - clock Sample.offline 0
  /\ fst (fst after) = None
  /\ getCached (clock Sample.offline) 0 "ALICE" (snd (fst after))
     = (None, snd (fst after), 0%nat).
Proof.
  intros cache' after.
  assert (Hold : CACHE_TTL_MS < clock Sample.offline 301 - clock Sample.offline 0)
    by reflexivity.
  split; [exact Hold|].
  destruct (@getCached_expired_entry_is_deleted (clock Sample.offline) 0 301
              "Alice" "alice" Sample.withCommit emptyCache eq_refl Hold)
    as (Hnone & _ & Hgone & _).
  split; [exact Hnone|].
  exact (Hgone (clock Sample.offline) 0%nat "ALICE" eq_refl).
Defined.

Lemma lookupUser_second_lookup_is_cached_witness :
  let first := lookupUser (D := isoDate) Sample.echo Sample.offline Cases.knowsAlice 0
                 "Alice" emptyCache in
  let second := lookupUser (D := isoDate) Sample.echo Sample.offline Cases.down 100
                  "alice" (Lookup.cache first) in
  clock Sample.offline 100 - clock Sample.offline (pred (Lookup.reads first))
  <= CACHE_TTL_MS
  /\ Lookup.result second = Resolved Sample.withCommit
  /\ Lookup.events second = [Status "Using cached result..."].
Proof.
  intros first second.
  assert (Hfresh : clock Sample.offline 100
                   - clock Sample.offline (pred (Lookup.reads first))
                   <= CACHE_TTL_MS) by (vm_compute; discriminate).
  split; [exact Hfresh|].
  destruct (@lookupUser_second_lookup_is_cached isoDate Sample.echo Sample.offline
              Cases.knowsAlice Cases.down 0 100 "Alice" "alice" emptyCache
              Sample.alice (Some Sample.early) eq_refl eq_refl eq_refl eq_refl Hfresh)
    as (Hfirst & Hsecond & _ & Hevents & _).
  split; [|exact Hevents].
  exact (eq_trans Hsecond Hfirst).
Defined.

(** ** The boxes of the terminal *)

Section Boxes.

Context {D : DateApi}.

Variable styleText : string -> string -> string.
Variable terminal : Terminal.t.

Lemma length_repeat (c : ascii) (n : nat) : String.length (Str.repeat c n) = n.
Proof. induction n as [|n IH]; simpl; congruence. Qed.

Lemma length_substring_min (s : string) : forall n m : nat,
  String.length (substring n m s) = Nat.min m (String.length s - n).
Proof.
  induction s as [|c s IH]; intros n m.
  - destruct n, m; reflexivity.
  - destruct n as [|n].
    + destruct m as [|m]; [reflexivity|].
      cbn [substring String.length]. rewrite IH. simpl. lia.
    + cbn [substring String.length]. rewrite IH. reflexivity.
Qed.

Lemma style_plain (format text : string) :
  shouldUseColor terminal = false -> style styleText terminal format text = text.
Proof. intros H. unfold style. rewrite H. reflexivity. Qed.



Lemma Forall_push {A : Type} (P : A -> Prop) (xs : list A) (x : A) :
  Forall P xs -> P x -> Forall P (push xs x).
Proof. intros Hxs Hx. unfold push. apply Forall_app. split; [exact Hxs | auto]. Qed.

(** The loop comes to an end when it may run once per character, and every
    line it adds is made from a chunk of one to [max] characters. *)
Lemma wrapLoop_lines (P : string -> Prop) (max : nat) (line : bool -> string -> string) :
  (0 < max)%nat ->
  (forall isFirst chunk,
     (1 <= String.length chunk <= max)%nat -> P (line isFirst chunk)) ->
  forall (fuel : nat) (remaining : string) (isFirst : bool) (lines : list string),
    (String.length remaining <= fuel)%nat ->
    Forall P lines ->
    exists lines',
      wrapLoop fuel max line remaining isFirst lines = Some lines'
      /\ Forall P lines'.
Proof.
  intros Hmax Hline.
  induction fuel as [|fuel IH]; intros remaining isFirst lines Hfuel Hlines.
  - assert (E : String.length remaining = O) by lia.
    exists lines. split; [|exact Hlines].
    cbn [wrapLoop]. rewrite E. reflexivity.
  - cbn [wrapLoop].
    destruct (Nat.ltb_spec 0 (String.length remaining)) as [Hpos|Hzero].
    + apply IH.
      * unfold sliceFrom. rewrite length_substring_min. lia.
      * apply Forall_push; [exact Hlines|]. apply Hline.
        unfold Str.slice. rewrite length_substring_min. lia.
    + exists lines. split; [reflexivity | exact Hlines].
Qed.

(** [labelLine] always comes to an end. *)
Lemma labelLine_returns (label value styledValue : string) (lines : list string) :
  exists lines', labelLine styleText terminal label value styledValue lines = Some lines'.
Proof.
  unfold labelLine. cbv zeta.
  destruct (String.length value <=? BOX_WIDTH - LABEL_WIDTH)%nat; [eexists; reflexivity|].
  assert (Hmax : (0 < BOX_WIDTH - LABEL_WIDTH)%nat)
    by (unfold BOX_WIDTH, LABEL_WIDTH; lia).
  assert (Hall : Forall (fun _ : string => True) lines)
    by (apply Forall_forall; intros; exact I).
  match goal with
  | |- exists lines', wrapLoop ?fuel ?max ?line ?remaining ?b lines = Some lines' =>
      destruct (@wrapLoop_lines (fun _ : string => True) max line Hmax
                  (fun _ _ _ => I) fuel remaining b lines (le_n _) Hall)
        as (lines' & H & _)
  end.
  exists lines'. exact H.
Qed.


Lemma substring_middle (a : string) : forall (b c : string) (n m : nat),
  String.length a = n -> String.length b = m ->
  substring n m (a ++ b ++ c) = b.
Proof.
  induction a as [|x a IH]; intros b c n m Hn Hm.
  - simpl in Hn. subst n. cbn [append]. subst m.
    induction b as [|y b IHb].
    + destruct c; reflexivity.
    + cbn [append String.length substring]. rewrite IHb. reflexivity.
  - simpl in Hn. subst n. cbn [append substring]. apply IH; [reflexivity | exact Hm].
Qed.

Lemma slice_sliceFrom (max : nat) (s : string) :
  Str.slice 0 max s ++ sliceFrom max s = s.
Proof.
  unfold Str.slice, sliceFrom. rewrite Nat.sub_0_r.
  revert max. induction s as [|c s IH]; intros max.
  - destruct max; reflexivity.
  - destruct max as [|max].
    + cbn [substring String.length Nat.sub append]. f_equal.
      specialize (IH O). cbn [substring append] in IH.
      rewrite Nat.sub_0_r in IH.
      destruct s; [reflexivity | exact IH].
    + cbn [substring String.length Nat.sub append]. f_equal. apply IH.
Qed.

Lemma join_cons (x : string) (xs : list string) :
  Str.join "" (x :: xs) = x ++ Str.join "" xs.
Proof.
  destruct xs as [|y ys]; [|reflexivity].
  cbn [Str.join]. induction x as [|c x IH]; [reflexivity|].
  cbn [append]. rewrite <- IH. reflexivity.
Qed.

Lemma join_app (xs ys : list string) :
  Str.join "" (xs ++ ys) = Str.join "" xs ++ Str.join "" ys.
Proof.
  induction xs as [|x xs IH]; [reflexivity|].
  rewrite <- app_comm_cons, !join_cons, IH, append_assoc. reflexivity.
Qed.

Lemma append_nil_r (s : string) : s ++ "" = s.
Proof. induction s as [|c s IH]; [reflexivity|]. cbn [append]. rewrite IH. reflexivity. Qed.

Lemma repeat_app (c : ascii) (n m : nat) :
  Str.repeat c n ++ Str.repeat c m = Str.repeat c (n + m).
Proof. induction n as [|n IH]; [reflexivity|]. simpl. rewrite IH. reflexivity. Qed.

(** Columns 15 to 51 of a line without colours hold the chunk, padded
    with spaces to the width left for values. *)
Lemma boxLine_plain_columns (prefix chunk : string) :
  shouldUseColor terminal = false ->
  String.length prefix = 13%nat ->
  (String.length chunk <= 37)%nat ->
  Str.slice 15 52 (boxLine styleText terminal (prefix ++ chunk)
                     (LABEL_WIDTH + String.length chunk))
  = chunk ++ Str.repeat " " (37 - String.length chunk).
Proof.
  intros Hplain Hprefix Hchunk. unfold boxLine. cbv zeta.
  rewrite !style_plain by exact Hplain.
  replace (Z.to_nat (Z.max (Z.of_nat BOX_WIDTH
                            - Z.of_nat (LABEL_WIDTH + String.length chunk)) 0))
    with (37 - String.length chunk)%nat
    by (unfold BOX_WIDTH, LABEL_WIDTH; lia).
  replace ("|" ++ " " ++ (prefix ++ chunk)
           ++ Str.repeat " " (37 - String.length chunk) ++ " " ++ "|")
    with (("| " ++ prefix)
          ++ (chunk ++ Str.repeat " " (37 - String.length chunk)) ++ " |")
    by (cbn [append]; rewrite !append_assoc; reflexivity).
  unfold Str.slice. apply substring_middle.
  - cbn [append String.length]. rewrite Hprefix. reflexivity.
  - rewrite length_app, length_repeat. lia.
Qed.

(** The loop of [labelLine] spells what remained. *)
Lemma wrapLoop_spells (label : string) :
  shouldUseColor terminal = false ->
  String.length label = 13%nat ->
  forall (fuel : nat) (remaining : string) (isFirst : bool) (lines : list string),
    (String.length remaining <= fuel)%nat ->
    exists (added : list string) (k : nat),
      wrapLoop fuel (BOX_WIDTH - LABEL_WIDTH)
        (fun isFirst chunk =>
           boxLine styleText terminal
             ((if isFirst then style styleText terminal "dim" label
               else Str.repeat " " LABEL_WIDTH) ++ chunk)
             (LABEL_WIDTH + String.length chunk))
        remaining isFirst lines
      = Some (lines ++ added)%list
      /\ Str.join "" (List.map (Str.slice 15 52) added) = remaining ++ Str.repeat " " k.
Proof.
  intros Hplain Hlabel.
  induction fuel as [|fuel IH]; intros remaining isFirst lines Hfuel.
  - assert (E : remaining = "") by (destruct remaining; [reflexivity | simpl in Hfuel; lia]).
    subst remaining. exists [], O. split; [rewrite app_nil_r|]; reflexivity.
  - cbn [wrapLoop].
    destruct (Nat.ltb_spec 0 (String.length remaining)) as [Hpos|Hzero].
    + set (chunk := Str.slice 0 (BOX_WIDTH - LABEL_WIDTH) remaining).
      set (rest := sliceFrom (BOX_WIDTH - LABEL_WIDTH) remaining).
      assert (Hsplit : chunk ++ rest = remaining) by apply slice_sliceFrom.
      assert (Hchunk : String.length chunk
                       = Nat.min 37 (String.length remaining)).
      { subst chunk. unfold Str.slice. rewrite length_substring_min.
        unfold BOX_WIDTH, LABEL_WIDTH. lia. }
      assert (Hrest : String.length rest = (String.length remaining - 37)%nat).
      { subst rest. unfold sliceFrom. rewrite length_substring_min.
        unfold BOX_WIDTH, LABEL_WIDTH. lia. }
      match goal with
      | |- context [push lines ?l] => set (line := l)
      end.
      destruct (IH rest false (push lines line) ltac:(lia)) as (added & k & E & Hspell).
      assert (Hcols : Str.slice 15 52 line
                      = chunk ++ Str.repeat " " (37 - String.length chunk)).
      { subst line. apply boxLine_plain_columns; [exact Hplain | | lia].
        destruct isFirst.
        - rewrite style_plain by exact Hplain. exact Hlabel.
        - apply length_repeat. }
      destruct (Nat.le_gt_cases (String.length remaining) 37) as [Hshort|Hlong].
      * assert (Hnil : rest = "")
          by (destruct rest; [reflexivity | simpl in Hrest; lia]).
        exists (line :: added), ((37 - String.length chunk) + k)%nat.
        rewrite E. unfold push. rewrite <- app_assoc. split; [reflexivity|].
        cbn [List.map]. rewrite join_cons, Hspell, Hcols, Hnil.
        rewrite <- Hsplit, Hnil, append_nil_r. cbn [append].
        rewrite append_assoc, repeat_app. reflexivity.
      * exists (line :: added), k.
        rewrite E. unfold push. rewrite <- app_assoc. split; [reflexivity|].
        cbn [List.map]. rewrite join_cons, Hspell, Hcols.
        replace (37 - String.length chunk)%nat with O by lia.
        cbn [Str.repeat]. rewrite append_nil_r, <- append_assoc, Hsplit. reflexivity.
    + exists [], O. rewrite app_nil_r. split; [reflexivity|].
      destruct remaining; [reflexivity | simpl in Hzero; lia].
Qed.

(** X23. Wrapping loses nothing.  Without colours, columns 15 to 51 of
    the lines [labelLine] adds for a label of thirteen characters, read in
    order, spell the value followed by spaces only: every character of a
    value is printed, once and in order, however many lines it takes. *)
Theorem labelLine_plain_spells_value (label value : string) (lines : list string) :
  shouldUseColor terminal = false ->
  String.length label = 13%nat ->
  exists (added : list string) (k : nat),
    labelLine styleText terminal label value value lines = Some (lines ++ added)%list
    /\ Str.join "" (List.map (Str.slice 15 52) added) = value ++ Str.repeat " " k.
Proof.
  intros Hplain Hlabel. unfold labelLine. cbv zeta.
  destruct (Nat.leb_spec (String.length value) (BOX_WIDTH - LABEL_WIDTH)) as [Hshort|Hlong].
  - eexists [_], (37 - String.length value)%nat. split; [reflexivity|].
    cbn [List.map Str.join].
    rewrite style_plain by exact Hplain.
    apply boxLine_plain_columns; [exact Hplain | exact Hlabel |].
    unfold BOX_WIDTH, LABEL_WIDTH in Hshort. lia.
  - apply wrapLoop_spells; [exact Hplain | exact Hlabel | apply le_n].
Qed.





(** X25. A date that does not parse stops the display before anything is
    written: with a time of issue that is not a date, or with a commit
    whose date is not one, [displayCertificate] throws the [RangeError] of
    [toISOString], with or without colours. *)
Theorem displayCertificate_throws_on_bad_date (cert : Certificate.t) :
  let firstCommit := CertificateProof.firstCommit (Certificate.proof cert) in
  Date_parse (Certificate.issuedAt cert) = None
  \/ (FirstCommit.sha firstCommit <> ""
      /\ Date_parse (FirstCommit.date firstCommit) = None) ->
  displayCertificate styleText terminal cert
  = Threw (ErrorObject "Invalid time value").
Proof.
  intros firstCommit Hbad.
  unfold displayCertificate, certificateLines. cbv zeta. fold firstCommit.
  match goal with
  | |- context [labelLine ?st ?t ?label ?value ?styled ?lines] =>
      destruct (labelLine_returns label value styled lines) as (l1 & ->)
  end.
  cbn [ofLoop thenShow]. unfold toISOStringOf.
  destruct (Date_parse (Certificate.issuedAt cert)) as [issued|] eqn:Hissued;
    [|reflexivity].
  destruct Hbad as [Hbad | (Hsha & Hdate)]; [discriminate|].
  cbn [ofOutcome thenShow].
  repeat match goal with
         | |- context [labelLine ?st ?t ?label ?value ?styled ?lines] =>
             let l := fresh "lines" in
             destruct (labelLine_returns label value styled lines) as (l & ->);
             cbn [ofLoop thenShow]
         end.
  rewrite (truthy_nonempty Hsha), Hdate. reflexivity.
Qed.



End Boxes.



Lemma displayCertificate_throws_on_bad_date_witness :
  Date_parse (DateApi := isoDate) (Certificate.issuedAt Cases.misdated) = None
  /\ displayCertificate (D := isoDate) Cases.bracketStyle Cases.plainTerminal
       Cases.misdated = Threw (ErrorObject "Invalid time value").
Proof.
  assert (Hbad : Date_parse (DateApi := isoDate) (Certificate.issuedAt Cases.misdated)
                 = None) by reflexivity.
  split; [exact Hbad|].
  exact (@displayCertificate_throws_on_bad_date isoDate Cases.bracketStyle
           Cases.plainTerminal Cases.misdated (or_introl Hbad)).
Defined.



Lemma labelLine_plain_spells_value_witness :
  let hash := CertificateVerification.hash (Certificate.verification Sample.withCommit) in
  shouldUseColor Cases.plainTerminal = false
  /\ (37 < String.length hash)%nat
  /\ exists added k,
       labelLine Cases.bracketStyle Cases.plainTerminal "Hash         " hash hash []
       = Some added
       /\ Str.join "" (List.map (Str.slice 15 52) added) = hash ++ Str.repeat " " k.
Proof.
  intros hash.
  assert (Hplain : shouldUseColor Cases.plainTerminal = false) by reflexivity.
  split; [exact Hplain|].
  split; [vm_compute; repeat constructor|].
  exact (@labelLine_plain_spells_value Cases.bracketStyle Cases.plainTerminal
           "Hash         " hash [] Hplain eq_refl).
Defined.

(** ** Escaping for HTML *)

Section Escaping.

Lemma replaceAll_app (c : ascii) (rep a b : string) :
  replaceAll c rep (a ++ b) = replaceAll c rep a ++ replaceAll c rep b.
Proof.
  induction a as [|x a IH]; [reflexivity|].
  cbn [append replaceAll]. rewrite IH.
  destruct (Ascii.eqb x c); [rewrite append_assoc|]; reflexivity.
Qed.

Lemma replaceAll_flatMap (c : ascii) (rep : string) (f : ascii -> string) (s : string) :
  replaceAll c rep (flatMap f s) = flatMap (fun x => replaceAll c rep (f x)) s.
Proof.
  induction s as [|x s IH]; [reflexivity|].
  cbn [flatMap]. rewrite replaceAll_app, IH. reflexivity.
Qed.

Lemma flatMap_ext (f g : ascii -> string) (s : string) :
  (forall c, f c = g c) -> flatMap f s = flatMap g s.
Proof.
  intros H. induction s as [|x s IH]; [reflexivity|].
  cbn [flatMap]. rewrite H, IH. reflexivity.
Qed.

Lemma flatMap_single (s : string) : flatMap (fun c => String c EmptyString) s = s.
Proof. induction s as [|x s IH]; [reflexivity|]. cbn [flatMap append]. rewrite IH. reflexivity. Qed.

(** The four replacements in a row do what one pass over the text does:
    the ampersands of the entities are not escaped again. *)
Lemma esc_charwise (text : string) : esc text = flatMap escChar text.
Proof.
  unfold esc.
  rewrite <- (flatMap_single text) at 1.
  rewrite !replaceAll_flatMap.
  apply flatMap_ext. intros c.
  destruct c as [b0 b1 b2 b3 b4 b5 b6 b7].
  destruct b0, b1, b2, b3, b4, b5, b6, b7; reflexivity.
Qed.

Lemma occurs_app (c : ascii) (a b : string) :
  occurs c (a ++ b) = (occurs c a || occurs c b)%bool.
Proof.
  induction a as [|x a IH]; [reflexivity|].
  cbn [append occurs]. rewrite IH, orb_assoc. reflexivity.
Qed.

(** X28. An escaped text holds no character that HTML reads as the start
    or the end of a tag or of an attribute value: no [<], no [>] and no
    double quote, whatever the text was. *)
Theorem esc_leaves_no_markup (text : string) :
  occurs "<" (esc text) = false
  /\ occurs ">" (esc text) = false
  /\ occurs Conv.dquote (esc text) = false.
Proof.
  rewrite esc_charwise.
  induction text as [|c text (IH1 & IH2 & IH3)]; [repeat split|].
  cbn [flatMap]. rewrite !occurs_app, IH1, IH2, IH3, !orb_false_r.
  destruct c as [b0 b1 b2 b3 b4 b5 b6 b7].
  destruct b0, b1, b2, b3, b4, b5, b6, b7; repeat split.
Qed.

Lemma unesc_escChar (c : ascii) (rest : string) :
  unescChar (escChar c ++ rest) = Some (c, rest).
Proof.
  destruct c as [b0 b1 b2 b3 b4 b5 b6 b7].
  destruct b0, b1, b2, b3, b4, b5, b6, b7; reflexivity.
Qed.

(** X29. Escaping loses nothing: two texts with the same escaped form are
    the same text. *)
Theorem esc_injective (a b : string) : esc a = esc b -> a = b.
Proof.
  rewrite !esc_charwise. revert b.
  induction a as [|x a IH]; intros [|y b] H.
  - reflexivity.
  - pose proof (f_equal unescChar H) as Hu. cbn [flatMap] in Hu.
    rewrite unesc_escChar in Hu. discriminate Hu.
  - pose proof (f_equal unescChar H) as Hu. cbn [flatMap] in Hu.
    rewrite unesc_escChar in Hu. discriminate Hu.
  - pose proof (f_equal unescChar H) as Hu. cbn [flatMap] in Hu.
    rewrite !unesc_escChar in Hu. injection Hu as -> Hrest.
    rewrite (IH _ Hrest). reflexivity.
Qed.

End Escaping.

Lemma esc_injective_witness :
  esc "a<b>&c" = "a&lt;b&gt;&amp;c"
  /\ esc "a<b>&c" = esc (String "a" (String "<" "b>&c"))
  /\ "a<b>&c" = String "a" (String "<" "b>&c").
Proof.
  assert (H : esc "a<b>&c" = esc (String "a" (String "<" "b>&c"))) by reflexivity.
  split; [reflexivity|]. split; [exact H|].
  exact (@esc_injective "a<b>&c" (String "a" (String "<" "b>&c")) H).
Defined.
